(** * Rotation of Cloudflare secrets held in AWS Secrets Manager

    A shallow embedding of [lambda/rotate.py] (the rotation Lambda: the
    four-step staged-version protocol and the per-kind credential
    rotation) and of the API-token part of [lambda/cf.py] (the Cloudflare
    client wrappers), followed by the properties of the rotation
    specification that are checked against them.

    Python values are JSON values; a Python function that talks to
    Secrets Manager, to Cloudflare, to the process environment or to the
    clock is a program in a small free monad: a tree whose nodes are the
    calls made to these collaborators and whose branches are indexed by
    their replies, exceptions included.  A program is given meaning by an
    arbitrary stateful environment that answers the calls; running it
    yields the outcome (a value or the exception that escapes), the final
    state of the environment and the list of calls that were made.

    Left out: the logging with [print], the construction of the boto3 and
    CloudFlare clients, and what [cf.create_argo_tunnel_token] does inside
    (key pair, certificate request, layout of the token), which is one
    call to the issuer here. *)

From Stdlib Require Import ZArith List String Ascii Bool Lia.
Import ListNotations.

Local Open Scope string_scope.
Local Open Scope Z_scope.
Local Open Scope list_scope.

#[local] Set Warnings "-register-all".

(** ** Python values *)

(** The values that [json.loads] produces and [json.dumps] accepts.  A
    dict is an association list in insertion order, as [json.dumps]
    emits it; numbers are the integers (a fractional number does not occur
    among the attributes the rotation reads). *)
Inductive json : Type :=
| JNull
| JBool (b : bool)
| JInt (n : Z)
| JStr (s : string)
| JList (l : list json)
| JDict (d : list (string * json)).

(** The exceptions that the code raises or lets through. *)
Inductive exn : Type :=
| KeyError (key : string)
| TypeError
| ValueError (message : string) (args : list json)
| JSONDecodeError
| AssertionError
| UnboundLocalError (name : string)
| OverflowError
| ResourceNotFoundException
| CloudFlareAPIError (code : Z)
| ExternalError (name : string).

Definition result (A : Type) : Type := (exn + A)%type.

Definition rbind {A B} (r : result A) (k : A -> result B) : result B :=
  match r with
  | inl e => inl e
  | inr a => k a
  end.

Declare Scope py_scope.
Delimit Scope py_scope with py.
Notation "x <~ r ;; k" := (rbind r (fun x => k))
  (at level 61, r at next level, right associativity) : py_scope.
Local Open Scope py_scope.

Fixpoint mapM {A B} (f : A -> result B) (l : list A) : result (list B) :=
  match l with
  | [] => inr []
  | x :: l' => y <~ f x ;; ys <~ mapM f l' ;; inr (y :: ys)
  end.

(** *** dict operations *)

Section Dict.
Context {V : Type}.

Fixpoint dict_get (d : list (string * V)) (k : string) : option V :=
  match d with
  | [] => None
  | (k', v) :: d' => if String.eqb k' k then Some v else dict_get d' k
  end.

Definition dict_has (d : list (string * V)) (k : string) : bool :=
  match dict_get d k with Some _ => true | None => false end.

(** [d[k] = v]: an existing key keeps its place, a new one goes last. *)
Fixpoint dict_set (d : list (string * V)) (k : string) (v : V)
  : list (string * V) :=
  match d with
  | [] => [(k, v)]
  | (k', v') :: d' =>
      if String.eqb k' k then (k', v) :: d' else (k', v') :: dict_set d' k v
  end.

(** [del d[k]] on a key that is present. *)
Fixpoint dict_del (d : list (string * V)) (k : string) : list (string * V) :=
  match d with
  | [] => []
  | (k', v') :: d' =>
      if String.eqb k' k then d' else (k', v') :: dict_del d' k
  end.

Definition dict_keys (d : list (string * V)) : list string := map fst d.
End Dict.

(** *** subscripting, membership, truth *)

Definition json_eq_str (v : json) (s : string) : bool :=
  match v with
  | JStr s' => String.eqb s' s
  | _ => false
  end.

(** [k in s] for two strings. *)
Definition is_substring (k s : string) : bool :=
  match String.index 0 k s with Some _ => true | None => false end.

(** [o[k]] for a string key. *)
Definition getitem (o : json) (k : string) : result json :=
  match o with
  | JDict d =>
      match dict_get d k with
      | Some v => inr v
      | None => inl (KeyError k)
      end
  | _ => inl TypeError
  end.

(** [k in o] for a string key. *)
Definition contains (k : string) (o : json) : result bool :=
  match o with
  | JDict d => inr (dict_has d k)
  | JList l => inr (existsb (fun x => json_eq_str x k) l)
  | JStr s => inr (is_substring k s)
  | _ => inl TypeError
  end.

(** [o[k] = v] *)
Definition setitem (o : json) (k : string) (v : json) : result json :=
  match o with
  | JDict d => inr (JDict (dict_set d k v))
  | _ => inl TypeError
  end.

(** [del o[k]] *)
Definition delitem (o : json) (k : string) : result json :=
  match o with
  | JDict d =>
      if dict_has d k then inr (JDict (dict_del d k)) else inl (KeyError k)
  | _ => inl TypeError
  end.

(** [o.get(k, default)], used after [o] was subscripted. *)
Definition get_default (o : json) (k : string) (default : json) : result json :=
  match o with
  | JDict d =>
      match dict_get d k with
      | Some v => inr v
      | None => inr default
      end
  | _ => inl TypeError
  end.

(** [o[k1][k2]] *)
Definition getitem2 (o : json) (k1 k2 : string) : result json :=
  inner <~ getitem o k1 ;; getitem inner k2.

(** [o[k1][k2] = v]: the inner object is shared with [o], so the update
    shows in [o]. *)
Definition setitem2 (o : json) (k1 k2 : string) (v : json) : result json :=
  inner <~ getitem o k1 ;;
  inner' <~ setitem inner k2 v ;;
  setitem o k1 inner'.

(** Python truth of a value. *)
Definition truthy (v : json) : bool :=
  match v with
  | JNull => false
  | JBool b => b
  | JInt n => negb (n =? 0)
  | JStr s => negb (String.eqb s "")
  | JList l => match l with [] => false | _ => true end
  | JDict d => match d with [] => false | _ => true end
  end.

(** [v > 0] *)
Definition gt_zero (v : json) : result bool :=
  match v with
  | JInt n => inr (0 <? n)
  | JBool b => inr b
  | _ => inl TypeError
  end.

(** The characters of a string, as [for c in s] yields them. *)
Fixpoint chars (s : string) : list json :=
  match s with
  | EmptyString => []
  | String c s' => JStr (String c EmptyString) :: chars s'
  end.

(** [for x in v: body(x)], where the body may update a dict element in
    place: the elements of a list are replaced by what the body leaves;
    the keys of a dict and the characters of a string are immutable, so
    there only a failure of the body shows. *)
Definition for_each (body : json -> result json) (v : json) : result json :=
  match v with
  | JList l => l' <~ mapM body l ;; inr (JList l')
  | JDict d => _ <~ mapM body (map (fun kv => JStr (fst kv)) d) ;; inr v
  | JStr s => _ <~ mapM body (chars s) ;; inr v
  | _ => inl TypeError
  end.

(** *** JSON text

    A [SecretString] is kept as the value it parses to; text that is not
    JSON is kept as such.  [json.loads (json.dumps v)] is [v]. *)
Inductive json_text : Type :=
| JsonText (v : json)
| NotJson (s : string).

Definition json_dumps (v : json) : json_text := JsonText v.

Definition json_loads (t : json_text) : result json :=
  match t with
  | JsonText v => inr v
  | NotJson _ => inl JSONDecodeError
  end.

(** *** datetime

    A [datetime] is a count of microseconds on its own wall clock, from
    1970-01-01T00:00:00, with its UTC offset when it is aware.  A
    [timedelta] is a count of microseconds. *)
Record datetime : Type := mk_datetime { wall : Z; utcoffset : option Z }.

Definition naive (t : Z) : datetime := {| wall := t; utcoffset := None |}.

Definition datetime_min : Z := -62135596800000000.   (* 0001-01-01T00:00:00 *)
Definition datetime_max : Z := 253402300799999999.   (* 9999-12-31T23:59:59.999999 *)
Definition day_us : Z := 86400000000.

(** [d1 - d0] *)
Definition datetime_sub (d1 d0 : datetime) : result Z :=
  match utcoffset d1, utcoffset d0 with
  | None, None => inr (wall d1 - wall d0)
  | Some o1, Some o0 => inr ((wall d1 - o1) - (wall d0 - o0))
  | _, _ => inl TypeError
  end.

(** [d + delta] *)
Definition datetime_add (d : datetime) (delta : Z) : result datetime :=
  let t := wall d + delta in
  if (datetime_min <=? t) && (t <=? datetime_max)
  then inr {| wall := t; utcoffset := utcoffset d |}
  else inl OverflowError.

(** [timedelta(days=v)] *)
Definition timedelta_days (v : json) : result Z :=
  match v with
  | JInt n => if Z.abs n <=? 999999999 then inr (n * day_us) else inl OverflowError
  | JBool b => inr (if b then day_us else 0)
  | _ => inl TypeError
  end.

(** The two date functions of the libraries: [dateutil.parser.isoparse]
    and [datetime.strftime]. *)
Class DateLib : Type := {
  isoparse : json -> result datetime;
  strftime : datetime -> string -> string
}.

(** ** Collaborators *)

Record describe_secret_response : Type := {
  RotationEnabled : option bool;
  VersionIdsToStages : option (list (string * list string))
}.

Record get_secret_value_response : Type := {
  SecretString : option json_text
}.

(** The calls that leave the rotation code. *)
Inductive call : Type :=
(* boto3 client of Secrets Manager *)
| describe_secret (SecretId : string)
| get_secret_value (SecretId : json) (VersionId : option string)
    (VersionStage : string)
| put_secret_value (SecretId ClientRequestToken : string)
    (SecretString : json_text) (VersionStages : list string)
| update_secret_version_stage (SecretId VersionStage MoveToVersionId : string)
    (RemoveFromVersionId : option string)
(* os.environ *)
| environ_get (name : string)
| environ_set (name value : string)
(* datetime.utcnow *)
| utcnow
(* CloudFlare client and the verify endpoint *)
| tokens_get (token_id : json)
| tokens_post (data : json)
| tokens_put (token_id data : json)
| tokens_value_put (token_id : json)
| tokens_verify_get (token_value : json)
| service_keys_origintunnel_get
(* the issuing of a tunnel token: key pair, origin certificate, layout *)
| issue_argo_tunnel_token (zone_id tunnel_service_key hostname valid_days : json).

Definition reply (c : call) : Type :=
  match c with
  | describe_secret _ => describe_secret_response
  | get_secret_value _ _ _ => get_secret_value_response
  | put_secret_value _ _ _ _ => unit
  | update_secret_version_stage _ _ _ _ => unit
  | environ_get _ => option string
  | environ_set _ _ => unit
  | utcnow => Z
  | tokens_get _ => json
  | tokens_post _ => json
  | tokens_put _ _ => json
  | tokens_value_put _ => json
  | tokens_verify_get _ => json
  | service_keys_origintunnel_get => json
  | issue_argo_tunnel_token _ _ _ _ => json
  end.

(** ** Programs *)

Inductive prog (A : Type) : Type :=
| Ret (a : A)
| Raise (e : exn)
| Call (c : call) (k : result (reply c) -> prog A).

Arguments Ret {A} a.
Arguments Raise {A} e.
Arguments Call {A} c k.

Definition lift {A} (r : result A) : prog A :=
  match r with
  | inl e => Raise e
  | inr a => Ret a
  end.

Definition perform (c : call) : prog (reply c) := Call c lift.

Fixpoint bind {A B} (p : prog A) (f : A -> prog B) : prog B :=
  match p with
  | Ret a => f a
  | Raise e => Raise e
  | Call c k => Call c (fun r => bind (k r) f)
  end.

Notation "x <- p ;; q" := (bind p (fun x => q))
  (at level 61, p at next level, right associativity) : py_scope.
Notation "p ;; q" := (bind p (fun _ => q))
  (at level 61, right associativity) : py_scope.

(** [try: p  except ...: handler]: [handler e] is [None] when no clause
    matches [e]. An exception of the handler itself is not caught. *)
Fixpoint try_except {A} (p : prog A) (handler : exn -> option (prog A)) : prog A :=
  match p with
  | Ret a => Ret a
  | Raise e => match handler e with Some q => q | None => Raise e end
  | Call c k => Call c (fun r => try_except (k r) handler)
  end.

(** ** lambda/cf.py: the API-token wrappers *)

Module cf.
Section WithDateLib.
Context `{DateLib}.

Definition date_fmt (d : datetime) : string :=
  strftime d "%Y-%m-%dT%H:%M:%SZ".

Definition roll_api_token (token_id : json) : prog json :=
  perform (tokens_value_put token_id).

Definition get_api_token (token_id : json) : prog json :=
  perform (tokens_get token_id).

(** The policies list is the caller's; the loop edits its dicts in
    place, and [new_token] holds the same list. *)
Definition create_api_token (name policies valid_days : json) : prog json :=
  t <- perform utcnow ;;
  let now := naive t in
  let new_token :=
    JDict [("name", name); ("not_before", JStr (date_fmt now));
           ("policies", policies)] in
  policies <- lift (for_each
                (fun policy =>
                   has_id <~ contains "id" policy ;;
                   if has_id then delitem policy "id" else inr policy)
                policies) ;;
  new_token <- lift (setitem new_token "policies" policies) ;;
  positive <- lift (gt_zero valid_days) ;;
  new_token <-
    (if positive
     then lift (delta <~ timedelta_days valid_days ;;
                expires <~ datetime_add now delta ;;
                setitem new_token "expires_on" (JStr (date_fmt expires)))
     else Ret new_token) ;;
  perform (tokens_post new_token).

(** [issued_date] and [expires_date] of [clone_api_token] and
    [renew_api_token]: bound only under [if "expires_on" in
    existing_token]. *)
Definition validity_dates (existing_token : json)
  : prog (option (datetime * datetime)) :=
  has_expiry <- lift (contains "expires_on" existing_token) ;;
  if has_expiry
  then issued_date <- lift (issued_on <~ getitem existing_token "issued_on" ;;
                            isoparse issued_on) ;;
       expires_date <- lift (expires_on <~ getitem existing_token "expires_on" ;;
                             isoparse expires_on) ;;
       Ret (Some (issued_date, expires_date))
  else Ret None.

(** [date_fmt(now + (expires_date - issued_date))]; the operands are read
    left to right, [expires_date] first of the two locals. *)
Definition renewed_expiry (now : datetime)
    (dates : option (datetime * datetime)) : prog json :=
  match dates with
  | None => Raise (UnboundLocalError "expires_date")
  | Some (issued_date, expires_date) =>
      lift (delta <~ datetime_sub expires_date issued_date ;;
            expires <~ datetime_add now delta ;;
            inr (JStr (date_fmt expires)))
  end.

Definition clone_api_token (token_id : json) : prog json :=
  existing_token <- perform (tokens_get token_id) ;;
  t <- perform utcnow ;;
  let now := naive t in
  name <- lift (getitem existing_token "name") ;;
  policies <- lift (getitem existing_token "policies") ;;
  condition <- lift (get_default existing_token "condition" (JDict [])) ;;
  let new_token :=
    JDict [("name", name); ("not_before", JStr (date_fmt now));
           ("policies", policies); ("condition", condition)] in
  policies <- lift (for_each (fun policy => delitem policy "id") policies) ;;
  new_token <- lift (setitem new_token "policies" policies) ;;
  dates <- validity_dates existing_token ;;
  expires_on <- renewed_expiry now dates ;;
  new_token <- lift (setitem new_token "expires_on" expires_on) ;;
  perform (tokens_post new_token).

Definition renew_api_token (token_id : json) : prog json :=
  t <- perform utcnow ;;
  let now := naive t in
  existing_token <- perform (tokens_get token_id) ;;
  existing_token <- lift (setitem existing_token "not_before"
                            (JStr (date_fmt now))) ;;
  existing_token <- lift (setitem existing_token "status" (JStr "active")) ;;
  dates <- validity_dates existing_token ;;
  expires_on <- renewed_expiry now dates ;;
  existing_token <- lift (setitem existing_token "expires_on" expires_on) ;;
  _ <- perform (tokens_put token_id existing_token) ;;
  roll_api_token token_id.

Definition get_token (token_id : json) : prog json :=
  perform (tokens_get token_id).

Definition token_exists (token_id : json) : prog bool :=
  try_except
    (_ <- perform (tokens_get token_id) ;; Ret true)
    (fun e =>
       match e with
       | CloudFlareAPIError code =>
           Some (if code =? 1003 then Ret false else Raise e)
       | _ => None
       end).

(** [response["success"] and response["result"]["status"] == "active"] *)
Definition is_token_valid (token_value : json) : prog json :=
  response <- perform (tokens_verify_get token_value) ;;
  success <- lift (getitem response "success") ;;
  if truthy success
  then status <- lift (getitem2 response "result" "status") ;;
       Ret (JBool (json_eq_str status "active"))
  else Ret success.

Definition create_origintunnel_service_key : prog json :=
  response <- perform service_keys_origintunnel_get ;;
  lift (getitem response "service_key").

(** The key pair, the origin certificate and the layout of the token
    are the issuer's: one call, with the four arguments. *)
Definition create_argo_tunnel_token
    (zone_id tunnel_service_key hostname valid_days : json) : prog json :=
  perform (issue_argo_tunnel_token zone_id tunnel_service_key hostname valid_days).

End WithDateLib.
End cf.

(** ** lambda/rotate.py *)

Record rotation_event : Type := {
  SecretId : string;
  ClientRequestToken : string;
  Step : string
}.

(** [x in stages] for a list of stage labels. *)
Definition has_stage (x : string) (stages : list string) : bool :=
  existsb (String.eqb x) stages.

(** [response[key]] for a key that the response may lack. *)
Definition field {A} (key : string) (v : option A) : result A :=
  match v with
  | Some a => inr a
  | None => inl (KeyError key)
  end.

Module rotate.
Section WithDateLib.
Context `{DateLib}.

(** [len(os.environ.get(name, "")) > 0] *)
Definition env_set (name : string) : prog bool :=
  v <- perform (environ_get name) ;;
  Ret (match v with
       | Some s => (0 <? String.length s)%nat
       | None => false
       end).

(** [assert len(os.environ.get(name, "")) > 0] *)
Definition assert_env_set (name : string) : prog unit :=
  ok <- env_set name ;;
  if ok then Ret tt else Raise AssertionError.

Definition assert_env (secret_type : json) : prog unit :=
  if json_eq_str secret_type "apiToken" then
    key <- env_set "CF_API_KEY" ;;
    both <- (if key then env_set "CF_API_EMAIL" else Ret false) ;;
    if negb both then
      assert_env_set "CF_API_TOKEN" ;;
      api_token <- perform (environ_get "CF_API_TOKEN") ;;
      api_token <- lift (field "CF_API_TOKEN" api_token) ;;
      perform (environ_set "CF_API_KEY" api_token)
    else Ret tt
  else if json_eq_str secret_type "tunnelServiceKey" then
    assert_env_set "CF_API_KEY" ;;
    assert_env_set "CF_API_EMAIL"
  else if json_eq_str secret_type "argoTunnelToken" then
    assert_env_set "CF_API_CERTKEY"
  else Raise (ValueError "Invalid secret token type {secret_type}" [secret_type]).

Definition get_secret_dict (arn : json) (stage : string)
    (token : option string) : prog json :=
  secret <-
    (match token with
     | Some (String _ _) =>
         perform (get_secret_value arn token stage)
     | _ => perform (get_secret_value arn None stage)
     end) ;;
  plaintext <- lift (field "SecretString" (SecretString secret)) ;;
  lift (json_loads plaintext).

Definition create_api_token (secret_value : json) : prog json :=
  let new_value := secret_value in
  name <- lift (getitem2 secret_value "Attributes" "Name") ;;
  policies <- lift (getitem2 secret_value "Attributes" "Policies") ;;
  valid_days <- lift (getitem2 secret_value "Attributes" "ValidDays") ;;
  new_token <- cf.create_api_token name policies valid_days ;;
  value <- lift (getitem new_token "value") ;;
  new_value <- lift (setitem2 new_value "Attributes" "TokenValue" value) ;;
  id <- lift (getitem new_token "id") ;;
  new_value <- lift (setitem2 new_value "Attributes" "TokenId" id) ;;
  Ret new_value.

Definition rotate_between_api_tokens (secret_value : json) : prog json :=
  cf_token_id <- lift (getitem2 secret_value "Attributes" "TokenId") ;;
  let new_value := secret_value in
  has_other <- lift (attributes <~ getitem secret_value "Attributes" ;;
                     contains "OtherTokenId" attributes) ;;
  other_exists <-
    (if has_other
     then other <- lift (getitem2 secret_value "Attributes" "OtherTokenId") ;;
          cf.token_exists other
     else Ret false) ;;
  if other_exists then
    cf_other_token_id <- lift (getitem2 secret_value "Attributes" "OtherTokenId") ;;
    value <- cf.renew_api_token cf_other_token_id ;;
    new_value <- lift (setitem2 new_value "Attributes" "OtherTokenId" cf_token_id) ;;
    new_value <- lift (setitem2 new_value "Attributes" "TokenValue" value) ;;
    new_value <- lift (setitem2 new_value "Attributes" "TokenId" cf_other_token_id) ;;
    Ret new_value
  else
    new_token <- cf.clone_api_token cf_token_id ;;
    new_value <- lift (setitem2 new_value "Attributes" "OtherTokenId" cf_token_id) ;;
    value <- lift (getitem new_token "value") ;;
    new_value <- lift (setitem2 new_value "Attributes" "TokenValue" value) ;;
    id <- lift (getitem new_token "id") ;;
    new_value <- lift (setitem2 new_value "Attributes" "TokenId" id) ;;
    Ret new_value.

Definition rotate_or_create_api_token (current_dict : json) : prog json :=
  let new_dict := current_dict in
  has_id <- lift (attributes <~ getitem new_dict "Attributes" ;;
                  contains "TokenId" attributes) ;;
  if negb has_id then
    create_api_token new_dict
  else
    cf_token_id <- lift (getitem2 new_dict "Attributes" "TokenId") ;;
    found <- cf.token_exists cf_token_id ;;
    if negb found then create_api_token new_dict
    else rotate_between_api_tokens new_dict.

(** Lines 156-168 of [create_secret]: the record that is rotated. *)
Definition load_current_dict (arn : string) : prog json :=
  try_except
    (get_secret_dict (JStr arn) "AWSCURRENT" None)
    (fun e =>
       match e with
       | ResourceNotFoundException =>
           Some (try_except
                   (get_secret_dict (JStr arn) "CFINIT" None)
                   (fun e =>
                      match e with
                      | ResourceNotFoundException => Some (Raise e)
                      | _ => None
                      end))
       | _ => None
       end).

(** Lines 175-213 of [create_secret]: the new payload, by kind. *)
Definition new_payload (current_dict : json) : prog json_text :=
  secret_type <- lift (getitem current_dict "Type") ;;
  assert_env secret_type ;;
  if json_eq_str secret_type "apiToken" then
    new_dict <- rotate_or_create_api_token current_dict ;;
    Ret (json_dumps new_dict)
  else if json_eq_str secret_type "tunnelServiceKey" then
    key <- cf.create_origintunnel_service_key ;;
    current_dict <- lift (setitem2 current_dict "Attributes" "KeyValue" key) ;;
    Ret (json_dumps current_dict)
  else if json_eq_str secret_type "argoTunnelToken" then
    hostname <- lift (getitem2 current_dict "Attributes" "Hostname") ;;
    valid_days <- lift (getitem2 current_dict "Attributes" "ValidityDays") ;;
    zone_id <- lift (getitem2 current_dict "Attributes" "ZoneId") ;;
    has_arn <- lift (attributes <~ getitem current_dict "Attributes" ;;
                     contains "TunnelServiceKeyArn" attributes) ;;
    tunnel_service_key <-
      (if has_arn
       then tunnel_service_key_arn <-
              lift (getitem2 current_dict "Attributes" "TunnelServiceKeyArn") ;;
            key_dict <- get_secret_dict tunnel_service_key_arn "AWSCURRENT" None ;;
            lift (getitem2 key_dict "Attributes" "KeyValue")
       else key <- perform (environ_get "CF_TUNNEL_SERVICE_KEY") ;;
            key <- lift (field "CF_TUNNEL_SERVICE_KEY" key) ;;
            Ret (JStr key)) ;;
    token_value <- cf.create_argo_tunnel_token zone_id tunnel_service_key
                     hostname valid_days ;;
    current_dict <- lift (setitem current_dict "TokenValue" token_value) ;;
    Ret (json_dumps current_dict)
  else Raise (ValueError "Invalid secret Type parameter" []).

(** Lines 169-225 of [create_secret]: the version that has its payload
    is left alone, the other one gets the new payload. *)
Definition put_pending (arn token : string) (current_dict : json) : prog unit :=
  try_except
    (_ <- perform (get_secret_value (JStr arn) (Some token) "AWSPENDING") ;;
     Ret tt)
    (fun e =>
       match e with
       | ResourceNotFoundException =>
           Some (payload <- new_payload current_dict ;;
                 perform (put_secret_value arn token payload ["AWSPENDING"]))
       | _ => None
       end).

Definition create_secret (arn token : string) : prog unit :=
  current_dict <- load_current_dict arn ;;
  put_pending arn token current_dict.

Definition set_secret (arn token : string) : prog unit := Ret tt.

Definition test_secret (arn token : string) : prog unit :=
  pending_dict <- get_secret_dict (JStr arn) "AWSPENDING" None ;;
  secret_type <- lift (getitem pending_dict "Type") ;;
  assert_env secret_type ;;
  if json_eq_str secret_type "apiToken" then
    token_value <- lift (getitem2 pending_dict "Attributes" "TokenValue") ;;
    valid <- cf.is_token_valid token_value ;;
    if negb (truthy valid) then
      token_id <- lift (getitem2 pending_dict "Attributes" "TokenId") ;;
      Raise (ValueError "testSecret: Testing api token {token_id} failed" [token_id])
    else Ret tt
  else if json_eq_str secret_type "tunnelServiceKey" then Ret tt
  else if json_eq_str secret_type "argoTunnelToken" then Ret tt
  else Raise (ValueError "Invalid secret Type parameter" []).

(** The loop of [finish_secret] over the version ids: [None] when the
    function returns from inside it, otherwise [current_version]. *)
Fixpoint find_current_version (stages_of : list (string * list string))
    (versions : list string) (token : string)
  : result (option (option string)) :=
  match versions with
  | [] => inr (Some None)
  | version :: rest =>
      stages <~ field version (dict_get stages_of version) ;;
      if has_stage "AWSCURRENT" stages
      then if String.eqb version token
           then inr None
           else inr (Some (Some version))
      else find_current_version stages_of rest token
  end.

Definition finish_secret (arn token : string) : prog unit :=
  metadata <- perform (describe_secret arn) ;;
  let new_version := token in
  stages_of <- lift (field "VersionIdsToStages" (VersionIdsToStages metadata)) ;;
  found <- lift (find_current_version stages_of (dict_keys stages_of) token) ;;
  match found with
  | None => Ret tt
  | Some current_version =>
      perform (update_secret_version_stage arn "AWSCURRENT" new_version
                 current_version)
  end.

(** Lines 125-139 of [lambda_handler]: the dispatch on the step. *)
Definition dispatch (step arn token : string) : prog unit :=
  if String.eqb step "createSecret" then create_secret arn token
  else if String.eqb step "setSecret" then set_secret arn token
  else if String.eqb step "testSecret" then test_secret arn token
  else if String.eqb step "finishSecret" then finish_secret arn token
  else Raise (ValueError "Invalid step parameter" []).

(** Lines 88-123 of [lambda_handler], followed by [steps] where the
    source dispatches. *)
Definition lambda_handler_with (steps : string -> string -> string -> prog unit)
    (event : rotation_event) : prog unit :=
  let arn := SecretId event in
  let token := ClientRequestToken event in
  let step := Step event in
  metadata <- perform (describe_secret arn) ;;
  enabled <- lift (field "RotationEnabled" (RotationEnabled metadata)) ;;
  if negb enabled then
    Raise (ValueError "Secret %s is not enabled for rotation." [JStr arn])
  else
    versions <- lift (field "VersionIdsToStages" (VersionIdsToStages metadata)) ;;
    match dict_get versions token with
    | None =>
        Raise (ValueError
                 "Secret version %s has no stage for rotation of secret %s."
                 [JStr token; JStr arn])
    | Some stages =>
        if has_stage "AWSCURRENT" stages then Ret tt
        else if negb (has_stage "AWSPENDING" stages) then
          Raise (ValueError
                   "Secret version %s not set as AWSPENDING for rotation of secret %s."
                   [JStr token; JStr arn])
        else steps step arn token
    end.

Definition lambda_handler (event : rotation_event) : prog unit :=
  lambda_handler_with dispatch event.

End WithDateLib.
End rotate.

(** ** Running a program in an environment *)

Section Run.
Context {W : Type}.

(** An environment answers every call, with a value or an exception,
    and moves to its next state. *)
Definition environment : Type := forall c : call, W -> result (reply c) * W.

Variable env : environment.

Fixpoint run {A} (p : prog A) (w : W) : result A * W * list call :=
  match p with
  | Ret a => (inr a, w, [])
  | Raise e => (inl e, w, [])
  | Call c k =>
      let '(r, w1) := env c w in
      let '(res, w2, made) := run (k r) w1 in
      (res, w2, c :: made)
  end.

Definition outcome {A} (p : prog A) (w : W) : result A := fst (fst (run p w)).
Definition final {A} (p : prog A) (w : W) : W := snd (fst (run p w)).
Definition calls {A} (p : prog A) (w : W) : list call := snd (run p w).
End Run.

(** Every call that a program can make, whatever the replies, satisfies [P]. *)
Inductive all_calls (P : call -> Prop) {A : Type} : prog A -> Prop :=
| all_calls_Ret : forall a, all_calls P (Ret a)
| all_calls_Raise : forall e, all_calls P (Raise e)
| all_calls_Call : forall c k,
    P c -> (forall r, all_calls P (k r)) -> all_calls P (Call c k).

(** The program never returns: it ends in an exception, whatever the
    replies, after calls that all satisfy [P]. *)
Inductive fails_with (P : call -> Prop) {A : Type} : prog A -> Prop :=
| fails_with_Raise : forall e, fails_with P (Raise e)
| fails_with_Call : forall c k,
    P c -> (forall r, fails_with P (k r)) -> fails_with P (Call c k).

(** *** Kinds of calls *)

Definition is_store_write (c : call) : bool :=
  match c with
  | put_secret_value _ _ _ _ => true
  | update_secret_version_stage _ _ _ _ => true
  | _ => false
  end.

(** The call puts the label AWSCURRENT on a version. *)
Definition assigns_current (c : call) : bool :=
  match c with
  | put_secret_value _ _ _ stages => has_stage "AWSCURRENT" stages
  | update_secret_version_stage _ stage _ _ => String.eqb stage "AWSCURRENT"
  | _ => false
  end.

(** The call is the write of [create_secret]: a payload for version
    [token] of [arn] under the single label AWSPENDING. *)
Definition is_pending_put (arn token : string) (c : call) : bool :=
  match c with
  | put_secret_value arn' token' _ [stage] =>
      String.eqb arn' arn && String.eqb token' token
      && String.eqb stage "AWSPENDING"
  | _ => false
  end.

(** The call is the stage move of [finish_secret]. *)
Definition is_current_move (arn token : string) (c : call) : bool :=
  match c with
  | update_secret_version_stage arn' stage move_to _ =>
      String.eqb arn' arn && String.eqb stage "AWSCURRENT"
      && String.eqb move_to token
  | _ => false
  end.

(** The call creates or changes a credential at Cloudflare. *)
Definition issues_credential (c : call) : bool :=
  match c with
  | tokens_post _ => true
  | tokens_put _ _ => true
  | tokens_value_put _ => true
  | service_keys_origintunnel_get => true
  | issue_argo_tunnel_token _ _ _ _ => true
  | _ => false
  end.

Definition is_get_secret_value (c : call) : bool :=
  match c with
  | get_secret_value _ _ _ => true
  | _ => false
  end.

Definition is_environ_get (c : call) : bool :=
  match c with
  | environ_get _ => true
  | _ => false
  end.

(** A program writes to the store at most once, and then as its last
    call: after a store write it makes no further call. *)
Inductive write_last {A : Type} : prog A -> Prop :=
| write_last_Ret : forall a, write_last (Ret a)
| write_last_Raise : forall e, write_last (Raise e)
| write_last_quiet : forall c k,
    is_store_write c = false ->
    (forall r, write_last (k r)) -> write_last (Call c k)
| write_last_write : forall c k,
    (forall r, all_calls (fun _ => False) (k r)) -> write_last (Call c k).

(** *** Kinds of errors

    The store's own not-found error, and the errors the code raises
    itself for a secret that is not set up for rotation. *)
Definition is_not_found (e : exn) : bool :=
  match e with
  | ResourceNotFoundException => true
  | _ => false
  end.

Definition is_configuration_error (e : exn) : bool :=
  match e with
  | ValueError _ _ => true
  | AssertionError => true
  | _ => false
  end.

(** ** A reference date library

    [isoparse] and [strftime] on the one layout that Cloudflare and
    [date_fmt] use, YYYY-MM-DDTHH:MM:SSZ, over the proleptic Gregorian
    calendar. *)

Module RefDates.

Definition days_from_civil (y m d : Z) : Z :=
  let y := if m <=? 2 then y - 1 else y in
  let era := y / 400 in
  let yoe := y - era * 400 in
  let mp := if 2 <? m then m - 3 else m + 9 in
  let doy := (153 * mp + 2) / 5 + d - 1 in
  let doe := yoe * 365 + yoe / 4 - yoe / 100 + doy in
  era * 146097 + doe - 719468.

Definition civil_from_days (z : Z) : Z * Z * Z :=
  let z := z + 719468 in
  let era := z / 146097 in
  let doe := z - era * 146097 in
  let yoe := (doe - doe / 1460 + doe / 36524 - doe / 146096) / 365 in
  let doy := doe - (365 * yoe + yoe / 4 - yoe / 100) in
  let mp := (5 * doy + 2) / 153 in
  let d := doy - (153 * mp + 2) / 5 + 1 in
  let m := if mp <? 10 then mp + 3 else mp - 9 in
  let y := yoe + era * 400 in
  (if m <=? 2 then y + 1 else y, m, d).

Definition digit_char (n : Z) : ascii := ascii_of_nat (48 + Z.to_nat (n mod 10)).

Fixpoint digits (width : nat) (n : Z) (acc : string) : string :=
  match width with
  | O => acc
  | S width' => digits width' (n / 10) (String (digit_char n) acc)
  end.

Definition format_utc (d : datetime) : string :=
  let seconds := wall d / 1000000 in
  let '(y, m, day) := civil_from_days (seconds / 86400) in
  let sod := seconds mod 86400 in
  digits 4 y ("-" ++ digits 2 m ("-" ++ digits 2 day ("T" ++
    digits 2 (sod / 3600) (":" ++ digits 2 (sod mod 3600 / 60) (":" ++
    digits 2 (sod mod 60) "Z"))))).

Definition digit_value (c : ascii) : option Z :=
  let n := Z.of_nat (nat_of_ascii c) - 48 in
  if (0 <=? n) && (n <=? 9) then Some n else None.

Fixpoint number (cs : list ascii) (acc : Z) : option Z :=
  match cs with
  | [] => Some acc
  | c :: cs' =>
      match digit_value c with
      | Some n => number cs' (acc * 10 + n)
      | None => None
      end
  end.

Definition is_char (c : ascii) (s : string) : bool :=
  String.eqb (String c EmptyString) s.

Definition parse_utc (s : string) : result datetime :=
  match list_ascii_of_string s with
  | [y1; y2; y3; y4; c1; m1; m2; c2; d1; d2; c3; h1; h2; c4; i1; i2; c5;
     s1; s2; c6] =>
      match number [y1; y2; y3; y4] 0, number [m1; m2] 0, number [d1; d2] 0,
            number [h1; h2] 0, number [i1; i2] 0, number [s1; s2] 0 with
      | Some y, Some m, Some d, Some h, Some i, Some sec =>
          if is_char c1 "-" && is_char c2 "-" && is_char c3 "T"
             && is_char c4 ":" && is_char c5 ":" && is_char c6 "Z"
          then inr {| wall := ((days_from_civil y m d * 86400)
                               + h * 3600 + i * 60 + sec) * 1000000;
                      utcoffset := Some 0 |}
          else inl (ValueError "ISO string" [JStr s])
      | _, _, _, _, _, _ => inl (ValueError "ISO string" [JStr s])
      end
  | _ => inl (ValueError "ISO string" [JStr s])
  end.

#[export] Instance dates : DateLib := {|
  isoparse v := match v with
                | JStr s => parse_utc s
                | _ => inl TypeError
                end;
  strftime d fmt := if String.eqb fmt "%Y-%m-%dT%H:%M:%SZ"
                    then format_utc d else fmt
|}.

End RefDates.

(** ** A reference environment

    Secrets Manager, Cloudflare, the process environment and the clock
    as one in-memory state, to run the rotation on concrete secrets. *)

Module Sim.

Record version : Type := { stages : list string; value : option json_text }.

Record secret : Type := {
  rotation : option bool;
  versions : list (string * version)
}.

Record world : Type := {
  secrets : list (string * secret);
  tokens : list (string * json);
  environ : list (string * string);
  clock : Z;
  serial : nat
}.

Definition name_of (prefix : string) (n : nat) : string :=
  prefix ++ RefDates.digits 3 (Z.of_nat n) "".

Definition with_secrets (w : world) (x : list (string * secret)) : world :=
  {| secrets := x; tokens := tokens w; environ := environ w;
     clock := clock w; serial := serial w |}.

Definition with_tokens (w : world) (x : list (string * json)) (n : nat) : world :=
  {| secrets := secrets w; tokens := x; environ := environ w;
     clock := clock w; serial := n |}.

Definition with_environ (w : world) (x : list (string * string)) : world :=
  {| secrets := secrets w; tokens := tokens w; environ := x;
     clock := clock w; serial := serial w |}.

Definition remove_stage (label : string) (v : version) : version :=
  {| stages := filter (fun x => negb (String.eqb x label)) (stages v);
     value := value v |}.

Definition add_stage (label : string) (v : version) : version :=
  {| stages := if has_stage label (stages v) then stages v
               else stages v ++ [label];
     value := value v |}.

(** The version that carries [stage], and is [id] when one is asked for. *)
Fixpoint find_version (vs : list (string * version)) (id : option string)
    (stage : string) : option version :=
  match vs with
  | [] => None
  | (i, v) :: vs' =>
      if has_stage stage (stages v)
         && match id with Some j => String.eqb i j | None => true end
      then Some v
      else find_version vs' id stage
  end.

(** A label sits on one version: putting it on [id] takes it from the
    others. *)
Definition move_stage (label id : string) (vs : list (string * version))
  : list (string * version) :=
  map (fun iv => (fst iv, if String.eqb (fst iv) id
                          then add_stage label (snd iv)
                          else remove_stage label (snd iv))) vs.

Definition put_version (id : string) (text : json_text) (labels : list string)
    (vs : list (string * version)) : list (string * version) :=
  let vs := match dict_get vs id with
            | Some v => dict_set vs id {| stages := stages v; value := Some text |}
            | None => vs ++ [(id, {| stages := []; value := Some text |})]
            end in
  fold_left (fun acc label => move_stage label id acc) labels vs.

Definition token_of (w : world) (token_id : json) : result json :=
  match token_id with
  | JStr id =>
      match dict_get (tokens w) id with
      | Some t => inr t
      | None => inl (CloudFlareAPIError 1003)
      end
  | _ => inl (CloudFlareAPIError 1003)
  end.

Definition env : @environment world :=
  fun c w =>
    match c as c' return (result (reply c') * world)%type with
    | describe_secret arn =>
        match dict_get (secrets w) arn with
        | Some s =>
            (inr {| RotationEnabled := rotation s;
                    VersionIdsToStages :=
                      Some (map (fun iv => (fst iv, stages (snd iv)))
                              (versions s)) |}, w)
        | None => (inl ResourceNotFoundException, w)
        end
    | get_secret_value (JStr arn) id stage =>
        match dict_get (secrets w) arn with
        | Some s =>
            match find_version (versions s) id stage with
            | Some {| value := Some text |} =>
                (inr {| SecretString := Some text |}, w)
            | _ => (inl ResourceNotFoundException, w)
            end
        | None => (inl ResourceNotFoundException, w)
        end
    | get_secret_value _ _ _ => (inl (ExternalError "ParamValidationError"), w)
    | put_secret_value arn id text labels =>
        match dict_get (secrets w) arn with
        | Some s =>
            (inr tt,
             with_secrets w
               (dict_set (secrets w) arn
                  {| rotation := rotation s;
                     versions := put_version id text labels (versions s) |}))
        | None => (inl ResourceNotFoundException, w)
        end
    | update_secret_version_stage arn label move_to remove_from =>
        match dict_get (secrets w) arn with
        | Some s =>
            (inr tt,
             with_secrets w
               (dict_set (secrets w) arn
                  {| rotation := rotation s;
                     versions := move_stage label move_to (versions s) |}))
        | None => (inl ResourceNotFoundException, w)
        end
    | environ_get name => (inr (dict_get (environ w) name), w)
    | environ_set name v => (inr tt, with_environ w (dict_set (environ w) name v))
    | utcnow => (inr (clock w), w)
    | tokens_get token_id => (token_of w token_id, w)
    | tokens_post (JDict d) =>
        let id := name_of "tok-" (serial w) in
        let t := dict_set (dict_set (dict_set d "id" (JStr id))
                             "status" (JStr "active"))
                   "issued_on" (JStr (RefDates.format_utc (naive (clock w)))) in
        (inr (JDict (dict_set t "value" (JStr (name_of "sv-" (serial w))))),
         with_tokens w (dict_set (tokens w) id (JDict t)) (S (serial w)))
    | tokens_post _ => (inl (CloudFlareAPIError 400), w)
    | tokens_put token_id data =>
        match token_id, token_of w token_id with
        | JStr id, inr _ =>
            (inr data, with_tokens w (dict_set (tokens w) id data) (serial w))
        | _, inl e => (inl e, w)
        | _, _ => (inl (CloudFlareAPIError 1003), w)
        end
    | tokens_value_put token_id =>
        match token_of w token_id with
        | inr _ => (inr (JStr (name_of "sv-" (serial w))),
                    with_tokens w (tokens w) (S (serial w)))
        | inl e => (inl e, w)
        end
    | tokens_verify_get _ =>
        (inr (JDict [("success", JBool true);
                     ("result", JDict [("status", JStr "active")])]), w)
    | service_keys_origintunnel_get =>
        (inr (JDict [("service_key", JStr (name_of "key-" (serial w)))]),
         with_tokens w (tokens w) (S (serial w)))
    | issue_argo_tunnel_token _ _ _ _ =>
        (inr (JStr (name_of "tunnel-token-" (serial w))),
         with_tokens w (tokens w) (S (serial w)))
    end.

End Sim.

(** ** Successive rotations of an access token *)

(** The two ids that a record tracks. *)
Definition active_id (record : json) : result json :=
  getitem2 record "Attributes" "TokenId".

Definition standby_id (record : json) : result json :=
  getitem2 record "Attributes" "OtherTokenId".

Definition token_value (record : json) : result json :=
  getitem2 record "Attributes" "TokenValue".

Section Rotations.
Context `{DateLib} {W : Type} (env : @environment W).

(** A successful rotation in the steady state: from some state of the
    environment, Cloudflare has both tokens of [record] when the
    rotation asks, and the rotation returns [new_record]. *)
Definition steady_rotation (record new_record : json) : Prop :=
  exists active standby w w1 w2 w3 made1 made2 made,
    active_id record = inr active
    /\ standby_id record = inr standby
    /\ run env (cf.token_exists active) w = (inr true, w1, made1)
    /\ run env (cf.token_exists standby) w1 = (inr true, w2, made2)
    /\ run env (rotate.rotate_or_create_api_token record) w
       = (inr new_record, w3, made).

(** [record] and the records of the successive rotations after it. *)
Inductive rotation_sequence : json -> list json -> Prop :=
| rotation_sequence_nil : forall record, rotation_sequence record []
| rotation_sequence_cons : forall record new_record later,
    steady_rotation record new_record ->
    rotation_sequence new_record later ->
    rotation_sequence record (new_record :: later).
End Rotations.

(** ** Secrets to run the rotation on *)

Module Scenario.

Definition arn : string := "arn:cf/token-1".

Definition policy : json :=
  JDict [("id", JStr "p1"); ("effect", JStr "allow")].

(** 2020-01-01T00:00:00 *)
Definition new_year : Z := 1577836800000000.

Definition world_of (vs : list (string * Sim.version))
    (ts : list (string * json)) : Sim.world :=
  {| Sim.secrets := [(arn, {| Sim.rotation := Some true; Sim.versions := vs |})];
     Sim.tokens := ts;
     Sim.environ := [("CF_API_TOKEN", "api-token");
                     ("CF_API_CERTKEY", "origin-ca-key");
                     ("CF_TUNNEL_SERVICE_KEY", "service-key")];
     Sim.clock := new_year;
     Sim.serial := 1 |}.

Definition labelled (label : string) (v : json) : Sim.version :=
  {| Sim.stages := [label]; Sim.value := Some (JsonText v) |}.

Definition awaiting : Sim.version :=
  {| Sim.stages := ["AWSPENDING"]; Sim.value := None |}.

Definition event (step token : string) : rotation_event :=
  {| SecretId := arn; ClientRequestToken := token; Step := step |}.

(** A Cloudflare token issued for thirty days on 2019-06-01. *)
Definition cf_token (id : string) : json :=
  JDict [("id", JStr id); ("name", JStr "ci"); ("status", JStr "active");
         ("policies", JList [policy]);
         ("issued_on", JStr "2019-06-01T00:00:00Z");
         ("expires_on", JStr "2019-07-01T00:00:00Z")].

(** The same token without an expiry. *)
Definition cf_token_without_expiry (id : string) : json :=
  JDict [("id", JStr id); ("name", JStr "ci"); ("status", JStr "active");
         ("policies", JList [policy]);
         ("issued_on", JStr "2019-06-01T00:00:00Z")].

Definition api_token (attributes : list (string * json)) : json :=
  JDict [("Type", JStr "apiToken");
         ("Attributes",
          JDict ([("Name", JStr "ci"); ("Policies", JList [policy]);
                  ("ValidDays", JInt 30)] ++ attributes))].

(** An access-token record whose pair is complete. *)
Definition paired : json :=
  api_token [("TokenId", JStr "tok-a"); ("TokenValue", JStr "sv-a");
             ("OtherTokenId", JStr "tok-b")].

Definition tunnel_token : json :=
  JDict [("Type", JStr "argoTunnelToken");
         ("Attributes",
          JDict [("Hostname", JStr "foo.example.com");
                 ("ValidityDays", JInt 30);
                 ("ZoneId", JStr "zone-1");
                 ("TokenValue", JStr "old-tunnel-token")])].

(** The reference environment with a store that answers every read of a
    secret value with [r]. *)
Definition reading (r : result get_secret_value_response)
  : @environment Sim.world :=
  fun c w =>
    match c as c' return (result (reply c') * Sim.world)%type with
    | get_secret_value _ _ _ => (r, w)
    | c' => Sim.env c' w
    end.

(** The reference environment with a verify endpoint that answers [v]. *)
Definition verifying (v : json) : @environment Sim.world :=
  fun c w =>
    match c as c' return (result (reply c') * Sim.world)%type with
    | tokens_verify_get _ => (inr v, w)
    | c' => Sim.env c' w
    end.

(** The reference environment with a Cloudflare that fails every read of
    a token with [e]. *)
Definition failing (e : exn) : @environment Sim.world :=
  fun c w =>
    match c as c' return (result (reply c') * Sim.world)%type with
    | tokens_get _ => (inl e, w)
    | c' => Sim.env c' w
    end.

(** A record for two tokens of which the standby has no expiry. *)
Definition unrenewable : list (string * json) :=
  [("tok-a", cf_token "tok-a"); ("tok-b", cf_token_without_expiry "tok-b")].

End Scenario.

(** * Properties *)

(** ** Dicts *)

Section DictFacts.
Context {V : Type}.
Implicit Types (d : list (string * V)) (k : string).

Lemma dict_get_set_same d k v : dict_get (dict_set d k v) k = Some v.
Proof.
  induction d as [|[k' v'] d IH]; simpl.
  - now rewrite String.eqb_refl.
  - destruct (String.eqb k' k) eqn:E; simpl; now rewrite E.
Qed.

Lemma dict_get_set_other d k k' v :
  k <> k' -> dict_get (dict_set d k v) k' = dict_get d k'.
Proof.
  intros Hne. induction d as [|[k0 v0] d IH]; simpl.
  - destruct (String.eqb_spec k k'); congruence.
  - destruct (String.eqb_spec k0 k) as [->|Hk]; simpl.
    + destruct (String.eqb_spec k k'); congruence.
    + now rewrite IH.
Qed.

Lemma dict_get_key d k : In k (dict_keys d) -> exists v, dict_get d k = Some v.
Proof.
  induction d as [|[k0 v0] d IH]; simpl; [tauto|].
  intros [->|Hin].
  - rewrite String.eqb_refl. eauto.
  - destruct (String.eqb k0 k); eauto.
Qed.

Lemma dict_get_in_keys d k v : dict_get d k = Some v -> In k (dict_keys d).
Proof.
  induction d as [|[k0 v0] d IH]; simpl; [discriminate|].
  destruct (String.eqb_spec k0 k); auto.
Qed.
End DictFacts.

Lemma getitem_setitem_same o k v o' :
  setitem o k v = inr o' -> getitem o' k = inr v.
Proof.
  destruct o; simpl; try discriminate.
  intros [= <-]. simpl. now rewrite dict_get_set_same.
Qed.

Lemma getitem_setitem_other o k k' v o' :
  k <> k' -> setitem o k v = inr o' -> getitem o' k' = getitem o k'.
Proof.
  intros Hne. destruct o; simpl; try discriminate.
  intros [= <-]. simpl. now rewrite dict_get_set_other.
Qed.

(** [o[k1][k2] = v] succeeds wherever [o[k1]] is a dict, and then only
    [o[k1][k2]] has changed. *)
Lemma setitem2_attr o k1 k2 v d :
  getitem o k1 = inr (JDict d) ->
  exists o', setitem2 o k1 k2 v = inr o'
             /\ getitem o' k1 = inr (JDict (dict_set d k2 v))
             /\ forall k, k <> k1 -> getitem o' k = getitem o k.
Proof.
  intros Hget. unfold setitem2. rewrite Hget. simpl.
  destruct o; simpl in *; try discriminate.
  eexists. split; [reflexivity|]. split.
  - simpl. now rewrite dict_get_set_same.
  - intros k Hk. simpl. rewrite dict_get_set_other; auto.
Qed.

(** ** Runs *)

Section RunFacts.
Context {W : Type} (env : @environment W).

Lemma run_bind {A B} (p : prog A) (f : A -> prog B) (w : W) :
  run env (bind p f) w =
  match run env p w with
  | (inr a, w1, made) =>
      let '(res, w2, made') := run env (f a) w1 in (res, w2, made ++ made')
  | (inl e, w1, made) => (inl e, w1, made)
  end.
Proof.
  revert w. induction p as [a|e|c k IH]; intros w; simpl.
  - now destruct (run env (f a) w) as [[res w2] made'].
  - reflexivity.
  - destruct (env c w) as [r w1]. rewrite IH.
    destruct (run env (k r) w1) as [[[e|a] w2] made]; [reflexivity|].
    now destruct (run env (f a) w2) as [[res w3] made'].
Qed.

Lemma run_try_except {A} (p : prog A) handler (w : W) :
  run env (try_except p handler) w =
  match run env p w with
  | (inl e, w1, made) =>
      match handler e with
      | Some q =>
          let '(res, w2, made') := run env q w1 in (res, w2, made ++ made')
      | None => (inl e, w1, made)
      end
  | (inr a, w1, made) => (inr a, w1, made)
  end.
Proof.
  revert w. induction p as [a|e|c k IH]; intros w; simpl.
  - reflexivity.
  - destruct (handler e) as [q|]; [|reflexivity].
    now destruct (run env q w) as [[res w2] made'].
  - destruct (env c w) as [r w1]. rewrite IH.
    destruct (run env (k r) w1) as [[[e|a] w2] made]; [|reflexivity].
    destruct (handler e) as [q|]; [|reflexivity].
    now destruct (run env q w2) as [[res w3] made'].
Qed.

Lemma run_lift {A} (r : result A) (w : W) : run env (lift r) w = (r, w, []).
Proof. now destruct r. Qed.

Lemma run_perform (c : call) (w : W) :
  run env (perform c) w = (fst (env c w), snd (env c w), [c]).
Proof.
  unfold perform. simpl. destruct (env c w) as [r w1]. simpl.
  now rewrite run_lift.
Qed.

Lemma run_Call_lift (c : call) (w : W) :
  run env (Call c lift) w = (fst (env c w), snd (env c w), [c]).
Proof. apply run_perform. Qed.

Lemma all_calls_run (P : call -> Prop) {A} (p : prog A) :
  all_calls P p -> forall w, Forall P (calls env p w).
Proof.
  unfold calls. induction 1 as [a|e|c k Hc Hk IH]; intros w; simpl; auto.
  destruct (env c w) as [r w1]. specialize (IH r w1).
  destruct (run env (k r) w1) as [[res w2] made]. simpl in *. auto.
Qed.

(** A property of the state that the calls in [P] keep holds after a
    program whose calls are all in [P]. *)
Lemma all_calls_final (P : call -> Prop) (Inv : W -> Prop) {A} (p : prog A) :
  (forall c w, P c -> Inv w -> Inv (snd (env c w))) ->
  all_calls P p -> forall w, Inv w -> Inv (final env p w).
Proof.
  intros Hinv. unfold final.
  induction 1 as [a|e|c k Hc Hk IH]; intros w Hw; simpl; auto.
  specialize (Hinv c w Hc Hw).
  destruct (env c w) as [r w1]. specialize (IH r w1 Hinv).
  destruct (run env (k r) w1) as [[res w2] made]. simpl in *. auto.
Qed.
End RunFacts.

Section AllCalls.
Variable P : call -> Prop.

Lemma all_calls_lift {A} (r : result A) : all_calls P (lift r).
Proof. destruct r; constructor. Qed.

Lemma all_calls_perform (c : call) : P c -> all_calls P (perform c).
Proof. intros Hc. constructor; [assumption|]. intros r. apply all_calls_lift. Qed.

Lemma all_calls_bind {A B} (p : prog A) (f : A -> prog B) :
  all_calls P p -> (forall a, all_calls P (f a)) -> all_calls P (bind p f).
Proof.
  intros Hp Hf. induction Hp as [a|e|c k Hc Hk IH]; simpl; auto; constructor; auto.
Qed.

Lemma all_calls_try_except {A} (p : prog A) handler :
  all_calls P p ->
  (forall e q, handler e = Some q -> all_calls P q) ->
  all_calls P (try_except p handler).
Proof.
  intros Hp Hh. induction Hp as [a|e|c k Hc Hk IH]; simpl.
  - constructor.
  - destruct (handler e) as [q|] eqn:E; [eauto|constructor].
  - constructor; auto.
Qed.
End AllCalls.

(** Rewrites the run of a single call that stands in the goal. *)
Ltac run_perform_step :=
  match goal with
  | |- context [run ?env (perform ?c) ?w] =>
      let Hp := fresh "Hp" in
      pose proof (run_perform env c w) as Hp;
      first [rewrite Hp | cbn [reply] in Hp; rewrite Hp]; clear Hp
  end.

Lemma all_calls_weaken (P Q : call -> Prop) {A} (p : prog A) :
  (forall c, P c -> Q c) -> all_calls P p -> all_calls Q p.
Proof. intros HPQ. induction 1; constructor; auto. Qed.

(** ** The orchestrator *)

(** C8 (as the code has it). A rotation event whose version token is not
    among the versions of the secret makes the handler fail before any
    step is dispatched: the only call made is [describe_secret], and the
    failure is a [ValueError], the error of a secret that is not set up
    for rotation (the one for a disabled rotation when rotation is
    disabled, otherwise the one for a version without stage), whatever
    the step handlers are. *)
Theorem unknown_version_fails_before_dispatch
    {W : Type} (env : @environment W)
    (steps : string -> string -> string -> prog unit)
    (event : rotation_event) (w w1 : W)
    (metadata : describe_secret_response) (enabled : bool)
    (versions : list (string * list string)) :
  env (describe_secret (SecretId event)) w = (inr metadata, w1) ->
  RotationEnabled metadata = Some enabled ->
  VersionIdsToStages metadata = Some versions ->
  dict_has versions (ClientRequestToken event) = false ->
  run env (rotate.lambda_handler_with steps event) w =
    (inl (if enabled
          then ValueError "Secret version %s has no stage for rotation of secret %s."
                 [JStr (ClientRequestToken event); JStr (SecretId event)]
          else ValueError "Secret %s is not enabled for rotation."
                 [JStr (SecretId event)]),
     w1, [describe_secret (SecretId event)]).
Proof.
  intros Hdescribe Henabled Hversions Hunknown.
  unfold rotate.lambda_handler_with. simpl. rewrite Hdescribe. simpl.
  rewrite Henabled. simpl. destruct enabled; simpl; [|reflexivity].
  rewrite Hversions. simpl.
  unfold dict_has in Hunknown.
  destruct (dict_get versions (ClientRequestToken event)); [discriminate|].
  reflexivity.
Qed.

Lemma unknown_version_fails_before_dispatch_witness :
  let w := Scenario.world_of
             [("v0", Scenario.labelled "AWSCURRENT" Scenario.paired)] [] in
  let event := Scenario.event "createSecret" "v9" in
  dict_has [("v0", ["AWSCURRENT"])] (ClientRequestToken event) = false
  /\ run Sim.env (@rotate.lambda_handler RefDates.dates event) w =
       (inl (ValueError "Secret version %s has no stage for rotation of secret %s."
               [JStr "v9"; JStr Scenario.arn]),
        w, [describe_secret Scenario.arn]).
Proof.
  intros w event. split; [reflexivity|].
  apply (unknown_version_fails_before_dispatch Sim.env
           (@rotate.dispatch RefDates.dates) event w w
           {| RotationEnabled := Some true;
              VersionIdsToStages := Some [("v0", ["AWSCURRENT"])] |}
           true [("v0", ["AWSCURRENT"])]); reflexivity.
Defined.

(** C8 as stated fails: the version "v9" is unknown to the secret, and the
    handler fails with a [ValueError], not with the not-found error. *)
Lemma unknown_version_raises_value_error :
  let w := Scenario.world_of
             [("v0", Scenario.labelled "AWSCURRENT" Scenario.paired)] [] in
  let event := Scenario.event "createSecret" "v9" in
  fst (Sim.env (describe_secret Scenario.arn) w) =
    inr {| RotationEnabled := Some true;
           VersionIdsToStages := Some [("v0", ["AWSCURRENT"])] |}
  /\ dict_has [("v0", ["AWSCURRENT"])] "v9" = false
  /\ exists e,
       outcome Sim.env (@rotate.lambda_handler RefDates.dates event) w = inl e
       /\ is_not_found e = false
       /\ is_configuration_error e = true.
Proof.
  intros w event. split; [reflexivity|]. split; [reflexivity|].
  eexists. split; [vm_compute; reflexivity|]. split; reflexivity.
Qed.

(** ** finishSecret *)

Lemma find_current_version_already (versions : list (string * list string))
    (token : string) (keys : list string) :
  (forall version stages,
     dict_get versions version = Some stages ->
     has_stage "AWSCURRENT" stages = true -> version = token) ->
  (forall version, In version keys -> exists stages, dict_get versions version = Some stages) ->
  (exists stages, dict_get versions token = Some stages
                  /\ has_stage "AWSCURRENT" stages = true) ->
  In token keys ->
  rotate.find_current_version versions keys token = inr None.
Proof.
  intros Hunique Hkeys (stages & Hget & Hcurrent).
  induction keys as [|version rest IH]; simpl; [tauto|].
  intros Hin.
  destruct (Hkeys version (or_introl eq_refl)) as [stages' Hget'].
  rewrite Hget'. simpl.
  destruct (has_stage "AWSCURRENT" stages') eqn:E.
  - rewrite (Hunique _ _ Hget' E), String.eqb_refl. reflexivity.
  - apply IH.
    + intros v Hv. apply Hkeys. now right.
    + destruct Hin as [->|Hin]; [congruence|assumption].
Qed.

(** C6. When the stage mapping of the secret puts AWSCURRENT on the target
    version (and, as the store guarantees, on no other version),
    [finish_secret] returns after reading the metadata: the only call it
    makes is [describe_secret], the stage move is not invoked. *)
Theorem finish_secret_already_current
    {W : Type} (env : @environment W) (arn token : string) (w w1 : W)
    (metadata : describe_secret_response)
    (versions : list (string * list string)) :
  env (describe_secret arn) w = (inr metadata, w1) ->
  VersionIdsToStages metadata = Some versions ->
  (exists stages, dict_get versions token = Some stages
                  /\ has_stage "AWSCURRENT" stages = true) ->
  (forall version stages,
     dict_get versions version = Some stages ->
     has_stage "AWSCURRENT" stages = true -> version = token) ->
  run env (rotate.finish_secret arn token) w = (inr tt, w1, [describe_secret arn]).
Proof.
  intros Hdescribe Hversions Hcurrent Hunique.
  unfold rotate.finish_secret. simpl. rewrite Hdescribe. simpl.
  rewrite Hversions. simpl.
  rewrite (find_current_version_already versions token); auto.
  - intros version Hin. now apply dict_get_key.
  - destruct Hcurrent as (stages & Hget & _). eapply dict_get_in_keys; eauto.
Qed.

Lemma finish_secret_already_current_witness :
  let versions := [("v0", ["AWSPREVIOUS"]); ("v1", ["AWSPENDING"; "AWSCURRENT"])] in
  let w := Scenario.world_of
             [("v0", Scenario.labelled "AWSPREVIOUS" Scenario.paired);
              ("v1", {| Sim.stages := ["AWSPENDING"; "AWSCURRENT"];
                        Sim.value := Some (JsonText Scenario.paired) |})] [] in
  dict_get versions "v1" = Some ["AWSPENDING"; "AWSCURRENT"]
  /\ run Sim.env (rotate.finish_secret Scenario.arn "v1") w =
       (inr tt, w, [describe_secret Scenario.arn]).
Proof.
  intros versions w. split; [reflexivity|].
  apply (finish_secret_already_current Sim.env Scenario.arn "v1" w w
           {| RotationEnabled := Some true; VersionIdsToStages := Some versions |}
           versions).
  - reflexivity.
  - reflexivity.
  - exists ["AWSPENDING"; "AWSCURRENT"]. split; reflexivity.
  - intros version stages. unfold versions. cbn [dict_get].
    destruct (String.eqb_spec "v0" version) as [<-|_].
    + intros [= <-]. discriminate.
    + destruct (String.eqb_spec "v1" version) as [<-|_];
        [reflexivity|discriminate].
Defined.

(** ** createSecret: the reference record *)

Section GetSecretDict.
Context {W : Type} (env : @environment W).

Lemma run_get_secret_dict_ok (arn : json) (stage : string) (w w1 : W)
    (response : get_secret_value_response) (record : json) :
  env (get_secret_value arn None stage) w = (inr response, w1) ->
  SecretString response = Some (JsonText record) ->
  run env (rotate.get_secret_dict arn stage None) w =
    (inr record, w1, [get_secret_value arn None stage]).
Proof.
  intros Hget Htext. unfold rotate.get_secret_dict. simpl.
  rewrite Hget. simpl. rewrite Htext. reflexivity.
Qed.

Lemma run_get_secret_dict_error (arn : json) (stage : string) (w w1 : W)
    (e : exn) :
  env (get_secret_value arn None stage) w = (inl e, w1) ->
  run env (rotate.get_secret_dict arn stage None) w =
    (inl e, w1, [get_secret_value arn None stage]).
Proof.
  intros Hget. unfold rotate.get_secret_dict. simpl. now rewrite Hget.
Qed.
End GetSecretDict.

(** C7 (as the code has it). [create_secret] rotates the record of the
    AWSCURRENT version when the store has one, and the record of the
    CFINIT version when the store answers the first read with its
    not-found error; when it answers both reads with the not-found error,
    [create_secret] fails with that same [ResourceNotFoundException],
    which it re-raises, after these two reads and nothing else. *)
Theorem create_secret_reference_record
    `{DateLib} {W : Type} (env : @environment W) (arn token : string) (w : W) :
  let current := get_secret_value (JStr arn) None "AWSCURRENT" in
  let init := get_secret_value (JStr arn) None "CFINIT" in
  (forall response w1 record,
     env current w = (inr response, w1) ->
     SecretString response = Some (JsonText record) ->
     run env (rotate.create_secret arn token) w =
       let '(res, w', made) := run env (rotate.put_pending arn token record) w1 in
       (res, w', current :: made))
  /\ (forall w1 response w2 record,
        env current w = (inl ResourceNotFoundException, w1) ->
        env init w1 = (inr response, w2) ->
        SecretString response = Some (JsonText record) ->
        run env (rotate.create_secret arn token) w =
          let '(res, w', made) := run env (rotate.put_pending arn token record) w2 in
          (res, w', current :: init :: made))
  /\ (forall w1 w2,
        env current w = (inl ResourceNotFoundException, w1) ->
        env init w1 = (inl ResourceNotFoundException, w2) ->
        run env (rotate.create_secret arn token) w =
          (inl ResourceNotFoundException, w2, [current; init])).
Proof.
  intros current init. unfold rotate.create_secret, rotate.load_current_dict.
  repeat split.
  - intros response w1 record Hget Htext.
    rewrite run_bind, run_try_except.
    rewrite (run_get_secret_dict_ok env _ _ _ _ _ _ Hget Htext).
    now destruct (run env (rotate.put_pending arn token record) w1) as [[res w'] made].
  - intros w1 response w2 record Hcurrent Hinit Htext.
    rewrite run_bind, run_try_except.
    rewrite (run_get_secret_dict_error env _ _ _ _ _ Hcurrent).
    rewrite run_try_except.
    rewrite (run_get_secret_dict_ok env _ _ _ _ _ _ Hinit Htext).
    now destruct (run env (rotate.put_pending arn token record) w2) as [[res w'] made].
  - intros w1 w2 Hcurrent Hinit.
    rewrite run_bind, run_try_except.
    rewrite (run_get_secret_dict_error env _ _ _ _ _ Hcurrent).
    rewrite run_try_except.
    rewrite (run_get_secret_dict_error env _ _ _ _ _ Hinit).
    reflexivity.
Qed.

Lemma create_secret_reference_record_witness :
  let current := get_secret_value (JStr Scenario.arn) None "AWSCURRENT" in
  let init := get_secret_value (JStr Scenario.arn) None "CFINIT" in
  let rotated := Scenario.world_of
                   [("v0", Scenario.labelled "AWSCURRENT" Scenario.paired);
                    ("v1", Scenario.labelled "AWSPENDING" Scenario.paired)] [] in
  let fresh := Scenario.world_of
                 [("v0", Scenario.labelled "CFINIT" (Scenario.api_token []));
                  ("v1", Scenario.labelled "AWSPENDING" Scenario.paired)] [] in
  let empty := Scenario.world_of [("v1", Scenario.awaiting)] [] in
  run Sim.env (@rotate.create_secret RefDates.dates Scenario.arn "v1") rotated =
    (inr tt, rotated,
     [current; get_secret_value (JStr Scenario.arn) (Some "v1") "AWSPENDING"])
  /\ run Sim.env (@rotate.create_secret RefDates.dates Scenario.arn "v1") fresh =
       (inr tt, fresh,
        [current; init;
         get_secret_value (JStr Scenario.arn) (Some "v1") "AWSPENDING"])
  /\ run Sim.env (@rotate.create_secret RefDates.dates Scenario.arn "v1") empty =
       (inl ResourceNotFoundException, empty, [current; init]).
Proof.
  intros current init rotated fresh empty.
  split; [|split].
  - destruct (@create_secret_reference_record RefDates.dates _ Sim.env
                Scenario.arn "v1" rotated) as (Hcurrent & _ & _).
    rewrite (Hcurrent {| SecretString := Some (JsonText Scenario.paired) |}
               rotated Scenario.paired eq_refl eq_refl).
    reflexivity.
  - destruct (@create_secret_reference_record RefDates.dates _ Sim.env
                Scenario.arn "v1" fresh) as (_ & Hinit & _).
    rewrite (Hinit fresh {| SecretString := Some (JsonText (Scenario.api_token [])) |}
               fresh (Scenario.api_token []) eq_refl eq_refl eq_refl).
    reflexivity.
  - destruct (@create_secret_reference_record RefDates.dates _ Sim.env
                Scenario.arn "v1" empty) as (_ & _ & Hnone).
    apply (Hnone empty empty); reflexivity.
Defined.

(** C7 as stated fails: with neither an AWSCURRENT nor a CFINIT version in
    the store, [create_secret] fails with the store's not-found error,
    which is not one of the configuration errors. *)
Lemma create_secret_uninitialized_raises_not_found :
  let w := Scenario.world_of [("v1", Scenario.awaiting)] [] in
  fst (Sim.env (get_secret_value (JStr Scenario.arn) None "AWSCURRENT") w) =
    inl ResourceNotFoundException
  /\ fst (Sim.env (get_secret_value (JStr Scenario.arn) None "CFINIT") w) =
       inl ResourceNotFoundException
  /\ exists e,
       outcome Sim.env (@rotate.create_secret RefDates.dates Scenario.arn "v1") w
         = inl e
       /\ is_configuration_error e = false
       /\ is_not_found e = true.
Proof.
  intros w. split; [reflexivity|]. split; [reflexivity|].
  exists ResourceNotFoundException. split; [vm_compute; reflexivity|].
  split; reflexivity.
Qed.

(** ** Which calls a step can make *)

Ltac calls_step :=
  lazymatch goal with
  | |- all_calls _ (bind _ _) => apply all_calls_bind; [|intros ?]
  | |- all_calls _ (try_except _ _) =>
      apply all_calls_try_except;
      [|let e := fresh "e" in
        let q := fresh "q" in
        let E := fresh "E" in
        intros e q E; destruct e; inversion E; subst; clear E]
  | |- all_calls _ (lift _) => apply all_calls_lift
  | |- all_calls ?P (perform ?c) => apply (all_calls_perform P c)
  | |- all_calls _ (Call _ _) => constructor; [|intros ?]
  | |- all_calls _ (Ret _) => constructor
  | |- all_calls _ (Raise _) => constructor
  | |- all_calls _ (if ?b then _ else _) => destruct b
  | |- all_calls _ (match ?x with _ => _ end) => destruct x
  end.

Ltac calls_steps := repeat calls_step.

Section StepCalls.
Context `{DateLib}.
Variable P : call -> Prop.
Hypothesis other_calls : forall c, is_store_write c = false -> P c.

Ltac other := calls_steps; try (apply other_calls; reflexivity).

Lemma calls_cf_create_api_token name policies valid_days :
  all_calls P (cf.create_api_token name policies valid_days).
Proof. unfold cf.create_api_token. other. Qed.

Lemma calls_cf_validity_dates existing_token :
  all_calls P (cf.validity_dates existing_token).
Proof. unfold cf.validity_dates. other. Qed.

Lemma calls_cf_renewed_expiry now dates :
  all_calls P (cf.renewed_expiry now dates).
Proof. unfold cf.renewed_expiry. other. Qed.

Lemma calls_cf_clone_api_token token_id :
  all_calls P (cf.clone_api_token token_id).
Proof.
  unfold cf.clone_api_token. other;
    auto using calls_cf_validity_dates, calls_cf_renewed_expiry.
Qed.

Lemma calls_cf_renew_api_token token_id :
  all_calls P (cf.renew_api_token token_id).
Proof.
  unfold cf.renew_api_token, cf.roll_api_token. other;
    auto using calls_cf_validity_dates, calls_cf_renewed_expiry.
Qed.

Lemma calls_cf_token_exists token_id : all_calls P (cf.token_exists token_id).
Proof. unfold cf.token_exists. other. Qed.

Lemma calls_cf_is_token_valid token_value :
  all_calls P (cf.is_token_valid token_value).
Proof. unfold cf.is_token_valid. other. Qed.

Lemma calls_assert_env secret_type : all_calls P (rotate.assert_env secret_type).
Proof.
  unfold rotate.assert_env, rotate.assert_env_set, rotate.env_set. other.
Qed.

Lemma calls_get_secret_dict arn stage token :
  all_calls P (rotate.get_secret_dict arn stage token).
Proof. unfold rotate.get_secret_dict. other. Qed.

Lemma calls_create_api_token secret_value :
  all_calls P (rotate.create_api_token secret_value).
Proof.
  unfold rotate.create_api_token. other; auto using calls_cf_create_api_token.
Qed.

Lemma calls_rotate_between_api_tokens secret_value :
  all_calls P (rotate.rotate_between_api_tokens secret_value).
Proof.
  unfold rotate.rotate_between_api_tokens. other;
    auto using calls_cf_token_exists, calls_cf_renew_api_token,
      calls_cf_clone_api_token.
Qed.

Lemma calls_rotate_or_create_api_token current_dict :
  all_calls P (rotate.rotate_or_create_api_token current_dict).
Proof.
  unfold rotate.rotate_or_create_api_token. other;
    auto using calls_cf_token_exists, calls_create_api_token,
      calls_rotate_between_api_tokens.
Qed.

Lemma calls_new_payload current_dict :
  all_calls P (rotate.new_payload current_dict).
Proof.
  unfold rotate.new_payload, cf.create_origintunnel_service_key,
    cf.create_argo_tunnel_token.
  other; auto using calls_assert_env, calls_rotate_or_create_api_token,
           calls_get_secret_dict.
Qed.

Lemma calls_load_current_dict arn : all_calls P (rotate.load_current_dict arn).
Proof.
  unfold rotate.load_current_dict. other; auto using calls_get_secret_dict.
Qed.

Lemma calls_test_secret arn token : all_calls P (rotate.test_secret arn token).
Proof.
  unfold rotate.test_secret. other;
    auto using calls_get_secret_dict, calls_assert_env, calls_cf_is_token_valid.
Qed.

Lemma calls_create_secret arn token :
  (forall payload, P (put_secret_value arn token payload ["AWSPENDING"])) ->
  all_calls P (rotate.create_secret arn token).
Proof.
  intros Hput. unfold rotate.create_secret, rotate.put_pending.
  other; auto using calls_load_current_dict, calls_new_payload.
Qed.

Lemma calls_finish_secret arn token :
  (forall current_version,
     P (update_secret_version_stage arn "AWSCURRENT" token current_version)) ->
  all_calls P (rotate.finish_secret arn token).
Proof. intros Hmove. unfold rotate.finish_secret. other; auto. Qed.
End StepCalls.

(** [test_secret] creates and changes no credential: besides the store
    and the environment it only asks Cloudflare to verify the value. *)
Lemma test_secret_changes_no_credential `{DateLib} (arn token : string) :
  all_calls (fun c => issues_credential c = false) (rotate.test_secret arn token).
Proof.
  unfold rotate.test_secret, rotate.get_secret_dict, rotate.assert_env,
    rotate.assert_env_set, rotate.env_set, cf.is_token_valid.
  calls_steps; reflexivity.
Qed.

Lemma forallb_Forall_true {A} (f : A -> bool) (l : list A) :
  Forall (fun x => f x = true) l -> forallb f l = true.
Proof. induction 1 as [|x l Hx _ IH]; simpl; [reflexivity|]. now rewrite Hx. Qed.

Lemma existsb_Forall_false {A} (f : A -> bool) (l : list A) :
  Forall (fun x => f x = false) l -> existsb f l = false.
Proof. induction 1 as [|x l Hx _ IH]; simpl; [reflexivity|]. now rewrite Hx. Qed.

Lemma write_assigns_current (c : call) :
  is_store_write c = false -> assigns_current c = false.
Proof. destruct c; simpl; congruence. Qed.

(** C3. Whatever the store and Cloudflare answer: the only store write of
    [create_secret] is the put of the payload under the single label
    AWSPENDING; [set_secret] and [test_secret] write nothing to the store;
    the only store write of [finish_secret] is the move of AWSCURRENT to
    the target version.  So no call of [create_secret], [set_secret] or
    [test_secret] puts AWSCURRENT on a version, and a run of the handler
    that does so is a run of the finishSecret step. *)
Theorem only_finish_secret_assigns_current
    `{DateLib} {W : Type} (env : @environment W) (arn token : string) (w : W) :
  forallb (fun c => negb (is_store_write c) || is_pending_put arn token c)
    (calls env (rotate.create_secret arn token) w) = true
  /\ existsb is_store_write (calls env (rotate.set_secret arn token) w) = false
  /\ existsb is_store_write (calls env (rotate.test_secret arn token) w) = false
  /\ forallb (fun c => negb (is_store_write c) || is_current_move arn token c)
       (calls env (rotate.finish_secret arn token) w) = true
  /\ existsb assigns_current (calls env (rotate.create_secret arn token) w) = false
  /\ existsb assigns_current (calls env (rotate.set_secret arn token) w) = false
  /\ existsb assigns_current (calls env (rotate.test_secret arn token) w) = false
  /\ forall step,
       step = "finishSecret"
       \/ existsb assigns_current
            (calls env (rotate.lambda_handler
                          {| SecretId := arn; ClientRequestToken := token;
                             Step := step |}) w) = false.
Proof.
  assert (Hcreate : existsb assigns_current
                      (calls env (rotate.create_secret arn token) w) = false).
  { apply existsb_Forall_false, all_calls_run, calls_create_secret.
    - apply write_assigns_current.
    - reflexivity. }
  assert (Htest : existsb assigns_current
                    (calls env (rotate.test_secret arn token) w) = false).
  { apply existsb_Forall_false, all_calls_run, calls_test_secret.
    apply write_assigns_current. }
  repeat split; try assumption; try reflexivity.
  - apply forallb_Forall_true, all_calls_run, calls_create_secret.
    + intros c Hc. now rewrite Hc.
    + intros payload. simpl. now rewrite !String.eqb_refl.
  - apply existsb_Forall_false, all_calls_run, calls_test_secret. auto.
  - apply forallb_Forall_true, all_calls_run, calls_finish_secret.
    + intros c Hc. now rewrite Hc.
    + intros current_version. simpl. now rewrite !String.eqb_refl.
  - intros step.
    destruct (String.eqb_spec step "finishSecret") as [Hstep|Hstep]; [now left|right].
    apply existsb_Forall_false, all_calls_run.
    unfold rotate.lambda_handler, rotate.lambda_handler_with.
    cbn [SecretId ClientRequestToken Step].
    assert (Hother : forall c, is_store_write c = false -> assigns_current c = false)
      by apply write_assigns_current.
    calls_steps; try (apply Hother; reflexivity).
    unfold rotate.dispatch.
    destruct (String.eqb step "createSecret");
      [apply calls_create_secret; [assumption|reflexivity]|].
    destruct (String.eqb step "setSecret"); [constructor|].
    destruct (String.eqb step "testSecret");
      [apply calls_test_secret; assumption|].
    destruct (String.eqb_spec step "finishSecret"); [contradiction|constructor].
Qed.

(** ** createSecret: the version that already has its payload *)

Lemma reads_write_nothing (c : call) :
  is_get_secret_value c = true ->
  is_store_write c = false /\ issues_credential c = false.
Proof. destruct c; simpl; intros; try discriminate; auto. Qed.

(** C5 (as the code has it). Take a store in which the AWSPENDING payload
    of the version token can be read, now and after further reads.  Then
    [create_secret] only reads secret values: it writes nothing to the
    store and creates or changes no credential.  It first loads the
    reference record and returns exactly when that load succeeds;
    otherwise it fails with the error of the load. *)
Theorem create_secret_pending_exists
    `{DateLib} {W : Type} (env : @environment W) (Inv : W -> Prop)
    (arn token : string) :
  (forall c w, is_get_secret_value c = true -> Inv w -> Inv (snd (env c w))) ->
  (forall w, Inv w ->
     exists response,
       fst (env (get_secret_value (JStr arn) (Some token) "AWSPENDING") w)
         = inr response) ->
  forall w, Inv w ->
    forallb is_get_secret_value (calls env (rotate.create_secret arn token) w) = true
    /\ existsb is_store_write (calls env (rotate.create_secret arn token) w) = false
    /\ existsb issues_credential (calls env (rotate.create_secret arn token) w) = false
    /\ outcome env (rotate.create_secret arn token) w =
         rbind (outcome env (rotate.load_current_dict arn) w) (fun _ => inr tt).
Proof.
  intros Hstable Hpending w Hw.
  assert (Hreads : Forall (fun c => is_get_secret_value c = true)
                     (calls env (rotate.create_secret arn token) w)
                   /\ outcome env (rotate.create_secret arn token) w =
                        rbind (outcome env (rotate.load_current_dict arn) w)
                          (fun _ => inr tt)).
  { assert (Hload : all_calls (fun c => is_get_secret_value c = true)
                      (rotate.load_current_dict arn)).
    { unfold rotate.load_current_dict, rotate.get_secret_dict. calls_steps; reflexivity. }
    pose proof (all_calls_run env _ _ Hload w) as Hmade.
    pose proof (all_calls_final env _ Inv _ Hstable Hload w Hw) as Hw1.
    unfold calls, outcome, final in *. unfold rotate.create_secret.
    rewrite run_bind.
    destruct (run env (rotate.load_current_dict arn) w) as [[[e|record] w1] made];
      cbn [fst snd rbind] in *; [now split|].
    unfold rotate.put_pending. rewrite run_try_except.
    cbn [run bind perform lift].
    destruct (Hpending w1 Hw1) as [response Hresponse].
    destruct (env (get_secret_value (JStr arn) (Some token) "AWSPENDING") w1)
      as [r w2]. cbn [fst] in Hresponse. subst r. cbn.
    split; [|reflexivity].
    apply Forall_app. split; [assumption|]. now repeat constructor. }
  destruct Hreads as [Hmade Hout].
  repeat split.
  - now apply forallb_Forall_true.
  - apply existsb_Forall_false. eapply Forall_impl; [|exact Hmade].
    intros c Hc. now apply reads_write_nothing.
  - apply existsb_Forall_false. eapply Forall_impl; [|exact Hmade].
    intros c Hc. now apply reads_write_nothing.
  - exact Hout.
Qed.

Lemma sim_read_keeps_world (c : call) (w : Sim.world) :
  is_get_secret_value c = true -> snd (Sim.env c w) = w.
Proof.
  destruct c as [|arn id stage| | | | | | | | | | | |]; simpl; try discriminate.
  intros _.
  destruct arn as [| | |arn| |]; try reflexivity.
  destruct (dict_get (Sim.secrets w) arn) as [x|]; [|reflexivity].
  destruct (Sim.find_version (Sim.versions x) id stage) as [[? [?|]]|];
    reflexivity.
Qed.

Lemma create_secret_pending_exists_witness :
  let w := Scenario.world_of
             [("v0", Scenario.labelled "AWSCURRENT" Scenario.paired);
              ("v1", Scenario.labelled "AWSPENDING" (Scenario.api_token []))] [] in
  fst (Sim.env (get_secret_value (JStr Scenario.arn) (Some "v1") "AWSPENDING") w)
    = inr {| SecretString := Some (JsonText (Scenario.api_token [])) |}
  /\ existsb is_store_write
       (calls Sim.env (@rotate.create_secret RefDates.dates Scenario.arn "v1") w)
     = false
  /\ existsb issues_credential
       (calls Sim.env (@rotate.create_secret RefDates.dates Scenario.arn "v1") w)
     = false
  /\ outcome Sim.env (@rotate.create_secret RefDates.dates Scenario.arn "v1") w
     = inr tt.
Proof.
  intros w. split; [reflexivity|].
  destruct (@create_secret_pending_exists RefDates.dates _ Sim.env
              (fun w' => w' = w) Scenario.arn "v1") with (w := w)
    as (_ & Hwrite & Hissue & Hout).
  - intros c w' Hc ->. now apply sim_read_keeps_world.
  - intros w' ->. eexists. reflexivity.
  - reflexivity.
  - split; [exact Hwrite|]. split; [exact Hissue|].
    rewrite Hout. reflexivity.
Defined.

(** C5 as stated fails: the AWSPENDING payload of version "v1" is in the
    store, but the secret has neither an AWSCURRENT nor a CFINIT version,
    and [create_secret] does not return: it fails while it loads the
    reference record. *)
Lemma create_secret_pending_without_reference :
  let w := Scenario.world_of
             [("v1", Scenario.labelled "AWSPENDING" (Scenario.api_token []))] [] in
  fst (Sim.env (get_secret_value (JStr Scenario.arn) (Some "v1") "AWSPENDING") w)
    = inr {| SecretString := Some (JsonText (Scenario.api_token [])) |}
  /\ outcome Sim.env (@rotate.create_secret RefDates.dates Scenario.arn "v1") w
     = inl ResourceNotFoundException.
Proof. intros w. split; reflexivity. Qed.

(** ** createSecret: the tunnel token *)

(** For a tunnel-token record without [TunnelServiceKeyArn], the new
    payload: the token is requested with the zone, the service key of the
    environment, the hostname and the validity of the record, and it is
    stored under the key [TokenValue] of the record itself; the
    attributes of the payload are those of the record. *)
Lemma new_payload_tunnel_token
    `{DateLib} {W : Type} (env : @environment W) (record : json)
    (attributes : list (string * json)) (hostname valid_days zone_id : json)
    (certkey key : string) (token_value : json) (w w1 w2 w3 : W) :
  getitem record "Type" = inr (JStr "argoTunnelToken") ->
  getitem record "Attributes" = inr (JDict attributes) ->
  dict_get attributes "Hostname" = Some hostname ->
  dict_get attributes "ValidityDays" = Some valid_days ->
  dict_get attributes "ZoneId" = Some zone_id ->
  dict_get attributes "TunnelServiceKeyArn" = None ->
  env (environ_get "CF_API_CERTKEY") w = (inr (Some certkey), w1) ->
  certkey <> "" ->
  env (environ_get "CF_TUNNEL_SERVICE_KEY") w1 = (inr (Some key), w2) ->
  env (issue_argo_tunnel_token zone_id (JStr key) hostname valid_days) w2
    = (inr token_value, w3) ->
  exists payload,
    run env (rotate.new_payload record) w =
      (inr (JsonText payload), w3,
       [environ_get "CF_API_CERTKEY"; environ_get "CF_TUNNEL_SERVICE_KEY";
        issue_argo_tunnel_token zone_id (JStr key) hostname valid_days])
    /\ getitem payload "TokenValue" = inr token_value
    /\ getitem payload "Attributes" = inr (JDict attributes).
Proof.
  intros Htype Hattrs Hhost Hdays Hzone Harn Hcert Hne Hkey Hissue.
  destruct record as [| | | | |d]; try discriminate.
  exists (JDict (dict_set d "TokenValue" token_value)).
  split; [|split].
  - unfold rotate.new_payload. rewrite Htype. cbn [lift bind].
    unfold rotate.assert_env, rotate.assert_env_set, rotate.env_set.
    cbn [json_eq_str String.eqb Ascii.eqb Bool.eqb bind perform lift run].
    rewrite Hcert. cbn [lift bind run].
    destruct certkey as [|c certkey]; [congruence|].
    cbn [String.length Nat.ltb Nat.leb bind run].
    unfold getitem2. rewrite Hattrs. cbn [rbind getitem contains].
    unfold dict_has. rewrite Hhost, Hdays, Hzone, Harn.
    cbn [lift bind run]. rewrite Hkey. cbn [lift bind run field].
    unfold cf.create_argo_tunnel_token. cbn [perform bind run].
    rewrite Hissue. reflexivity.
  - simpl. now rewrite dict_get_set_same.
  - simpl in *. rewrite dict_get_set_other; [assumption|discriminate].
Qed.

(** C4 (defect of the code). On a tunnel-token record whose attributes
    hold an earlier [TokenValue], [create_secret] requests the new token
    with the zone, the service key, the hostname and the validity of the
    record, but the payload it puts under AWSPENDING has the new token
    under a key [TokenValue] next to [Type] and [Attributes]: the
    attribute [TokenValue] still holds the earlier token. *)
Theorem create_secret_tunnel_token_value_not_in_attributes :
  let w := Scenario.world_of
             [("v0", Scenario.labelled "AWSCURRENT" Scenario.tunnel_token);
              ("v1", Scenario.awaiting)] [] in
  let payload :=
    JDict [("Type", JStr "argoTunnelToken");
           ("Attributes",
            JDict [("Hostname", JStr "foo.example.com");
                   ("ValidityDays", JInt 30);
                   ("ZoneId", JStr "zone-1");
                   ("TokenValue", JStr "old-tunnel-token")]);
           ("TokenValue", JStr "tunnel-token-001")] in
  outcome Sim.env (@rotate.create_secret RefDates.dates Scenario.arn "v1") w = inr tt
  /\ calls Sim.env (@rotate.create_secret RefDates.dates Scenario.arn "v1") w =
       [get_secret_value (JStr Scenario.arn) None "AWSCURRENT";
        get_secret_value (JStr Scenario.arn) (Some "v1") "AWSPENDING";
        environ_get "CF_API_CERTKEY";
        environ_get "CF_TUNNEL_SERVICE_KEY";
        issue_argo_tunnel_token (JStr "zone-1") (JStr "service-key")
          (JStr "foo.example.com") (JInt 30);
        put_secret_value Scenario.arn "v1" (JsonText payload) ["AWSPENDING"]]
  /\ getitem2 payload "Attributes" "TokenValue" = inr (JStr "old-tunnel-token")
  /\ getitem2 Scenario.tunnel_token "Attributes" "TokenValue"
     = inr (JStr "old-tunnel-token").
Proof. intros w payload. repeat split; vm_compute; reflexivity. Qed.

(** ** The validity window of a cloned or renewed token *)

Section Validity.
Context `{DateLib}.

Lemma getitem_contains (o : json) (k : string) (v : json) :
  getitem o k = inr v -> contains k o = inr true.
Proof.
  destruct o as [| | | | |d]; simpl; try discriminate.
  unfold dict_has. destruct (dict_get d k); [reflexivity|discriminate].
Qed.

Lemma validity_dates_bound (existing_token issued_on expires_on : json)
    (issued_date expires_date : datetime) :
  getitem existing_token "issued_on" = inr issued_on ->
  getitem existing_token "expires_on" = inr expires_on ->
  isoparse issued_on = inr issued_date ->
  isoparse expires_on = inr expires_date ->
  cf.validity_dates existing_token = Ret (Some (issued_date, expires_date)).
Proof.
  intros Hissued Hexpires Hd0 Hd1. unfold cf.validity_dates.
  rewrite (getitem_contains _ _ _ Hexpires). cbn [lift bind].
  rewrite Hissued, Hexpires. cbn [rbind]. rewrite Hd0, Hd1. reflexivity.
Qed.

Lemma validity_dates_unbound (existing_token : json) :
  contains "expires_on" existing_token <> inr true ->
  (exists e, cf.validity_dates existing_token = Raise e)
  \/ cf.validity_dates existing_token = Ret None.
Proof.
  intros Hnone. unfold cf.validity_dates.
  destruct (contains "expires_on" existing_token) as [e|[|]];
    cbn [lift bind]; [eauto|congruence|auto].
Qed.

Lemma renewed_expiry_bound (now issued_date expires_date : datetime) (delta : Z) :
  datetime_sub expires_date issued_date = inr delta ->
  datetime_min <= wall now + delta <= datetime_max ->
  cf.renewed_expiry now (Some (issued_date, expires_date)) =
    Ret (JStr (cf.date_fmt {| wall := wall now + delta;
                              utcoffset := utcoffset now |})).
Proof.
  intros Hsub Hrange. unfold cf.renewed_expiry. rewrite Hsub. cbn [rbind].
  unfold datetime_add.
  replace ((datetime_min <=? wall now + delta) && (wall now + delta <=? datetime_max))
    with true by (symmetry; apply andb_true_intro; split; apply Z.leb_le; lia).
  reflexivity.
Qed.
End Validity.

(** C9. A token that Cloudflare returns with [issued_on] = t0 and
    [expires_on] = t1 is cloned, and is renewed, with an [expires_on] that
    is the rendering by [date_fmt] of now + (t1 - t0), where now is the
    reading of the clock in that call: the request to create the clone,
    and the request to update the renewed token, carry that value. *)
Theorem clone_and_renew_preserve_validity_window
    `{DateLib} {W : Type} (env : @environment W) (token_id existing_token : json)
    (issued_on expires_on : json) (issued_date expires_date : datetime)
    (delta now : Z) :
  getitem existing_token "issued_on" = inr issued_on ->
  getitem existing_token "expires_on" = inr expires_on ->
  isoparse issued_on = inr issued_date ->
  isoparse expires_on = inr expires_date ->
  datetime_sub expires_date issued_date = inr delta ->
  datetime_min <= now + delta <= datetime_max ->
  let renewed := JStr (cf.date_fmt (naive (now + delta))) in
  (forall w w1 w2 name policies stripped,
     env (tokens_get token_id) w = (inr existing_token, w1) ->
     env utcnow w1 = (inr now, w2) ->
     getitem existing_token "name" = inr name ->
     getitem existing_token "policies" = inr policies ->
     for_each (fun policy => delitem policy "id") policies = inr stripped ->
     exists data,
       run env (cf.clone_api_token token_id) w =
         (fst (env (tokens_post data) w2), snd (env (tokens_post data) w2),
          [tokens_get token_id; utcnow; tokens_post data])
       /\ getitem data "expires_on" = inr renewed)
  /\ (forall w w1 w2,
        env utcnow w = (inr now, w1) ->
        env (tokens_get token_id) w1 = (inr existing_token, w2) ->
        exists data,
          run env (cf.renew_api_token token_id) w =
            (let '(updated, w3) := env (tokens_put token_id data) w2 in
             match updated with
             | inl e =>
                 (inl e, w3,
                  [utcnow; tokens_get token_id; tokens_put token_id data])
             | inr _ =>
                 (fst (env (tokens_value_put token_id) w3),
                  snd (env (tokens_value_put token_id) w3),
                  [utcnow; tokens_get token_id; tokens_put token_id data;
                   tokens_value_put token_id])
             end)
          /\ getitem data "expires_on" = inr renewed
          /\ getitem data "status" = inr (JStr "active")).
Proof.
  intros Hissued Hexpires Hd0 Hd1 Hsub Hrange renewed.
  destruct existing_token as [| | | | |d]; try discriminate.
  split.
  - intros w w1 w2 name policies stripped Hget Hnow Hname Hpolicies Hstrip.
    assert (Hcondition : exists condition,
               get_default (JDict d) "condition" (JDict []) = inr condition).
    { unfold get_default. destruct (dict_get d "condition"); eauto. }
    destruct Hcondition as [condition Hcondition].
    eexists. split.
    + unfold cf.clone_api_token. cbn [perform bind run]. rewrite Hget.
      cbn [lift bind run]. rewrite Hnow. cbn [lift bind run].
      rewrite Hname, Hpolicies, Hcondition. cbn [lift bind run].
      rewrite Hstrip. cbn [lift bind run setitem].
      rewrite (validity_dates_bound _ _ _ _ _ Hissued Hexpires Hd0 Hd1).
      cbn [bind].
      rewrite (renewed_expiry_bound (naive now) _ _ _ Hsub Hrange).
      cbn [bind lift naive wall utcoffset].
      run_perform_step. reflexivity.
    + simpl. reflexivity.
  - intros w w1 w2 Hnow Hget.
    exists (JDict (dict_set
                     (dict_set
                        (dict_set d "not_before" (JStr (cf.date_fmt (naive now))))
                        "status" (JStr "active"))
                     "expires_on" renewed)).
    split; [|split].
    + unfold cf.renew_api_token, cf.roll_api_token.
      cbn [perform bind run]. rewrite Hnow.
      cbn [lift bind run]. rewrite Hget. cbn [lift bind run setitem].
      rewrite (validity_dates_bound
                 (JDict (dict_set (dict_set d "not_before" _) "status" _))
                 issued_on expires_on issued_date expires_date).
      * cbn [bind].
        rewrite (renewed_expiry_bound (naive now) _ _ _ Hsub Hrange).
        cbn [bind lift naive wall utcoffset run].
        destruct (env (tokens_put _ _) w2) as [[e|updated] w3];
          cbn [lift bind run]; [reflexivity|].
        run_perform_step. reflexivity.
      * simpl in *. rewrite !dict_get_set_other by discriminate. assumption.
      * simpl in *. rewrite !dict_get_set_other by discriminate. assumption.
      * assumption.
      * assumption.
    + simpl. now rewrite dict_get_set_same.
    + simpl. rewrite dict_get_set_other by discriminate.
      now rewrite dict_get_set_same.
Qed.

Lemma clone_and_renew_preserve_validity_window_witness :
  let w := Scenario.world_of [] [("tok-a", Scenario.cf_token "tok-a")] in
  let renewed := JStr "2020-01-31T00:00:00Z" in
  (exists data,
     In (tokens_post data)
       (calls Sim.env (@cf.clone_api_token RefDates.dates (JStr "tok-a")) w)
     /\ getitem data "expires_on" = inr renewed)
  /\ (exists data,
        In (tokens_put (JStr "tok-a") data)
          (calls Sim.env (@cf.renew_api_token RefDates.dates (JStr "tok-a")) w)
        /\ getitem data "expires_on" = inr renewed).
Proof.
  intros w renewed.
  destruct (@clone_and_renew_preserve_validity_window RefDates.dates _ Sim.env
              (JStr "tok-a") (Scenario.cf_token "tok-a")
              (JStr "2019-06-01T00:00:00Z") (JStr "2019-07-01T00:00:00Z")
              {| wall := 1559347200000000; utcoffset := Some 0 |}
              {| wall := 1561939200000000; utcoffset := Some 0 |}
              (30 * day_us) Scenario.new_year)
    as [Hclone Hrenew]; try reflexivity.
  - unfold datetime_min, datetime_max, day_us, Scenario.new_year. lia.
  - split.
    + destruct (Hclone w w w (JStr "ci") (JList [Scenario.policy])
                  (JList [JDict [("effect", JStr "allow")]]))
        as (data & Hrun & Hexpires); try reflexivity.
      exists data. split.
      * unfold calls. rewrite Hrun. simpl. auto.
      * exact Hexpires.
    + destruct (Hrenew w w w) as (data & Hrun & Hexpires & _); try reflexivity.
      exists data. split.
      * unfold calls. rewrite Hrun.
        destruct (Sim.env (tokens_put (JStr "tok-a") data) w) as [[e|updated] w3];
          simpl; auto.
      * exact Hexpires.
Defined.

(** ** A token without expiry *)

Section FailsWith.
Variable P : call -> Prop.

Lemma fails_with_bind_l {A B} (p : prog A) (f : A -> prog B) :
  fails_with P p -> fails_with P (bind p f).
Proof. induction 1; simpl; constructor; auto. Qed.

Lemma fails_with_bind_r {A B} (p : prog A) (f : A -> prog B) :
  all_calls P p -> (forall a, fails_with P (f a)) -> fails_with P (bind p f).
Proof. induction 1; simpl; auto; constructor; auto. Qed.

Lemma fails_with_run {W : Type} (env : @environment W) {A} (p : prog A) :
  fails_with P p ->
  forall w, (exists e, outcome env p w = inl e) /\ Forall P (calls env p w).
Proof.
  unfold outcome, calls. induction 1 as [e|c k Hc Hk IH]; intros w; simpl.
  - eauto.
  - destruct (env c w) as [r w1]. specialize (IH r w1).
    destruct (run env (k r) w1) as [[res w2] made]. simpl in *.
    destruct IH as [He Hmade]. auto.
Qed.
End FailsWith.

Section NoExpiry.
Context `{DateLib}.

Lemma renewal_unbound (P : call -> Prop) {A} (existing_token : json)
    (now : datetime) (f : json -> prog A) :
  contains "expires_on" existing_token <> inr true ->
  fails_with P (dates <- cf.validity_dates existing_token ;;
                expires_on <- cf.renewed_expiry now dates ;;
                f expires_on).
Proof.
  intros Hnone.
  destruct (validity_dates_unbound existing_token Hnone) as [[e ->]| ->];
    simpl; constructor.
Qed.

Lemma renewal_unbound_dict {A} (d : list (string * json))
    (now : datetime) (f : json -> prog A) :
  dict_get d "expires_on" = None ->
  (dates <- cf.validity_dates (JDict d) ;;
   expires_on <- cf.renewed_expiry now dates ;;
   f expires_on) = Raise (UnboundLocalError "expires_date").
Proof.
  intros Hnone. unfold cf.validity_dates. simpl. unfold dict_has.
  rewrite Hnone. reflexivity.
Qed.
End NoExpiry.

Lemma contains_not_true_dict (d : list (string * json)) (k : string) :
  contains k (JDict d) <> inr true -> dict_get d k = None.
Proof.
  simpl. unfold dict_has. destruct (dict_get d k); [congruence|reflexivity].
Qed.

Lemma contains_setitem_other (o o' : json) (k k' : string) (v : json) :
  k <> k' -> setitem o k v = inr o' -> contains k' o' = contains k' o.
Proof.
  intros Hne. destruct o as [| | | | |d]; simpl; try discriminate.
  intros [= <-]. simpl. unfold dict_has. now rewrite dict_get_set_other.
Qed.

Lemma fails_with_bind_lift (P : call -> Prop) {A B} (r : result A)
    (f : A -> prog B) :
  (forall a, r = inr a -> fails_with P (f a)) -> fails_with P (bind (lift r) f).
Proof. destruct r as [e|a]; simpl; intros Hf; [constructor|auto]. Qed.

(** C10. When the token that Cloudflare returns has no [expires_on], both
    [clone_api_token] and [renew_api_token] end in an exception, and no
    token is created, updated or rolled; for a token that is otherwise
    well formed the exception is the [UnboundLocalError] of the local
    [expires_date], which only the branch for a present [expires_on]
    binds.  [create_api_token] with a number of days that is not positive
    asks for such a token: its request has no [expires_on]. *)
Theorem clone_and_renew_need_expires_on
    `{DateLib} {W : Type} (env : @environment W)
    (token_id existing_token : json) :
  contains "expires_on" existing_token <> inr true ->
  (forall w w1,
     env (tokens_get token_id) w = (inr existing_token, w1) ->
     (exists e, outcome env (cf.clone_api_token token_id) w = inl e)
     /\ existsb issues_credential (calls env (cf.clone_api_token token_id) w)
        = false)
  /\ (forall w w1 w2 now,
        env utcnow w = (inr now, w1) ->
        env (tokens_get token_id) w1 = (inr existing_token, w2) ->
        (exists e, outcome env (cf.renew_api_token token_id) w = inl e)
        /\ existsb issues_credential (calls env (cf.renew_api_token token_id) w)
           = false)
  /\ (forall w w1 w2 now name policies stripped,
        env (tokens_get token_id) w = (inr existing_token, w1) ->
        env utcnow w1 = (inr now, w2) ->
        getitem existing_token "name" = inr name ->
        getitem existing_token "policies" = inr policies ->
        for_each (fun policy => delitem policy "id") policies = inr stripped ->
        run env (cf.clone_api_token token_id) w =
          (inl (UnboundLocalError "expires_date"), w2,
           [tokens_get token_id; utcnow]))
  /\ (forall w w1 w2 now d,
        existing_token = JDict d ->
        env utcnow w = (inr now, w1) ->
        env (tokens_get token_id) w1 = (inr existing_token, w2) ->
        run env (cf.renew_api_token token_id) w =
          (inl (UnboundLocalError "expires_date"), w2,
           [utcnow; tokens_get token_id]))
  /\ (forall w w1 now name policies stripped days,
        days <= 0 ->
        env utcnow w = (inr now, w1) ->
        for_each (fun policy =>
                    has_id <~ contains "id" policy ;;
                    if has_id then delitem policy "id" else inr policy)
          policies = inr stripped ->
        exists data,
          calls env (cf.create_api_token name policies (JInt days)) w =
            [utcnow; tokens_post data]
          /\ contains "expires_on" data = inr false).
Proof.
  intros Hnone. split; [|split; [|split; [|split]]].
  - intros w w1 Hget.
    assert (Hrun : exists e made,
               fst (fst (run env (cf.clone_api_token token_id) w)) = inl e
               /\ snd (run env (cf.clone_api_token token_id) w)
                  = tokens_get token_id :: made
               /\ Forall (fun c => issues_credential c = false) made).
    { unfold cf.clone_api_token. rewrite run_bind. run_perform_step.
      rewrite Hget. cbn [fst snd].
      match goal with
      | |- context [run env ?p w1] =>
          assert (Hfails : fails_with (fun c => issues_credential c = false) p)
      end.
      { repeat first [ apply renewal_unbound
                     | apply fails_with_bind_lift; intros ? ?
                     | apply fails_with_bind_r;
                       [calls_steps; reflexivity | intros ?] ]. assumption. }
      destruct (fails_with_run _ env _ Hfails w1) as [[e He] Hmade].
      unfold outcome, calls in He, Hmade.
      destruct (run env _ w1) as [[res w2] made]. cbn [fst snd] in *.
      exists e, made. auto. }
    destruct Hrun as (e & made & He & Hcalls & Hmade).
    unfold outcome, calls. rewrite Hcalls. split; [eauto|].
    apply existsb_Forall_false. constructor; [reflexivity|assumption].
  - intros w w1 w2 now Hnow Hget.
    assert (Hrun : exists e made,
               fst (fst (run env (cf.renew_api_token token_id) w)) = inl e
               /\ snd (run env (cf.renew_api_token token_id) w)
                  = utcnow :: tokens_get token_id :: made
               /\ Forall (fun c => issues_credential c = false) made).
    { unfold cf.renew_api_token. rewrite run_bind. run_perform_step.
      rewrite Hnow. cbn [fst snd]. rewrite run_bind. run_perform_step.
      rewrite Hget. cbn [fst snd].
      match goal with
      | |- context [run env ?p w2] =>
          assert (Hfails : fails_with (fun c => issues_credential c = false) p)
      end.
      { repeat first [ apply renewal_unbound
                     | apply fails_with_bind_lift; intros ? ?
                     | apply fails_with_bind_r;
                       [calls_steps; reflexivity | intros ?] ].
        repeat match goal with
               | Hset : setitem ?o ?k ?v = inr ?o'
                 |- context [contains "expires_on" ?o'] =>
                   rewrite (contains_setitem_other o o' k "expires_on" v
                              ltac:(discriminate) Hset)
               end.
        assumption. }
      destruct (fails_with_run _ env _ Hfails w2) as [[e He] Hmade].
      unfold outcome, calls in He, Hmade.
      destruct (run env _ w2) as [[res w3] made]. cbn [fst snd] in *.
      exists e, made. auto. }
    destruct Hrun as (e & made & He & Hcalls & Hmade).
    unfold outcome, calls. rewrite Hcalls. split; [eauto|].
    apply existsb_Forall_false. repeat constructor. assumption.
  - intros w w1 w2 now name policies stripped Hget Hnow Hname Hpolicies Hstrip.
    destruct existing_token as [| | | | |d]; try discriminate.
    unfold cf.clone_api_token. cbn [perform bind run]. rewrite Hget.
    cbn [lift bind run]. rewrite Hnow. cbn [lift bind run].
    rewrite Hname, Hpolicies. cbn [lift bind run].
    unfold get_default.
    destruct (dict_get d "condition") as [condition|];
      cbn [lift bind run]; rewrite Hstrip; cbn [lift bind run setitem];
      rewrite renewal_unbound_dict by (now apply contains_not_true_dict);
      reflexivity.
  - intros w w1 w2 now d -> Hnow Hget.
    unfold cf.renew_api_token. cbn [perform bind run]. rewrite Hnow.
    cbn [lift bind run]. rewrite Hget. cbn [lift bind run setitem].
    rewrite renewal_unbound_dict; [reflexivity|].
    rewrite !dict_get_set_other by discriminate.
    now apply contains_not_true_dict.
  - intros w w1 now name policies stripped days Hdays Hnow Hstrip.
    eexists. split.
    + unfold calls, cf.create_api_token. cbn [perform bind run]. rewrite Hnow.
      cbn [lift bind run]. rewrite Hstrip. cbn [lift bind run setitem gt_zero].
      replace (0 <? days) with false by (symmetry; apply Z.ltb_ge; lia).
      cbn [bind]. run_perform_step. reflexivity.
    + reflexivity.
Qed.

Lemma clone_and_renew_need_expires_on_witness :
  let token := Scenario.cf_token_without_expiry "tok-a" in
  let w := Scenario.world_of [] [("tok-a", token)] in
  contains "expires_on" token = inr false
  /\ run Sim.env (@cf.clone_api_token RefDates.dates (JStr "tok-a")) w =
       (inl (UnboundLocalError "expires_date"), w,
        [tokens_get (JStr "tok-a"); utcnow])
  /\ run Sim.env (@cf.renew_api_token RefDates.dates (JStr "tok-a")) w =
       (inl (UnboundLocalError "expires_date"), w,
        [utcnow; tokens_get (JStr "tok-a")]).
Proof.
  intros token w. split; [reflexivity|].
  destruct (@clone_and_renew_need_expires_on RefDates.dates _ Sim.env
              (JStr "tok-a") token)
    as (_ & _ & Hclone & Hrenew & _); [discriminate|].
  split.
  - apply (Hclone w w w Scenario.new_year (JStr "ci") (JList [Scenario.policy])
             (JList [JDict [("effect", JStr "allow")]])); reflexivity.
  - apply (Hrenew w w w Scenario.new_year
             [("id", JStr "tok-a"); ("name", JStr "ci");
              ("status", JStr "active");
              ("policies", JList [Scenario.policy]);
              ("issued_on", JStr "2019-06-01T00:00:00Z")]); reflexivity.
Defined.

(** ** The alternation of the two access tokens *)

Section Alternator.
Context `{DateLib} {W : Type} (env : @environment W).

(** [rotate.create_api_token] on a record with its three settings: the
    new token's value and id go into the attributes, nothing else
    changes. *)
Lemma run_create_api_token (record : json) (attributes : list (string * json))
    (name policies valid_days new_token value id : json)
    (w w1 : W) (made : list call) :
  getitem record "Attributes" = inr (JDict attributes) ->
  dict_get attributes "Name" = Some name ->
  dict_get attributes "Policies" = Some policies ->
  dict_get attributes "ValidDays" = Some valid_days ->
  run env (cf.create_api_token name policies valid_days) w
    = (inr new_token, w1, made) ->
  getitem new_token "value" = inr value ->
  getitem new_token "id" = inr id ->
  exists new_record,
    run env (rotate.create_api_token record) w = (inr new_record, w1, made)
    /\ getitem new_record "Attributes" =
         inr (JDict (dict_set (dict_set attributes "TokenValue" value)
                       "TokenId" id))
    /\ forall k, k <> "Attributes" -> getitem new_record k = getitem record k.
Proof.
  intros Hattrs Hname Hpolicies Hdays Hrun Hvalue Hid.
  destruct (setitem2_attr record "Attributes" "TokenValue" value _ Hattrs)
    as (r1 & Hset1 & Hattrs1 & Hrest1).
  destruct (setitem2_attr r1 "Attributes" "TokenId" id _ Hattrs1)
    as (r2 & Hset2 & Hattrs2 & Hrest2).
  exists r2. split; [|split].
  - unfold rotate.create_api_token, getitem2. rewrite Hattrs.
    cbn [rbind getitem]. rewrite Hname, Hpolicies, Hdays. cbn [lift bind].
    rewrite run_bind, Hrun. rewrite Hvalue. cbn [lift bind].
    rewrite Hset1. cbn [lift bind]. rewrite Hid. cbn [lift bind].
    rewrite Hset2. cbn [lift bind run]. now rewrite app_nil_r.
  - exact Hattrs2.
  - intros k Hk. rewrite Hrest2, Hrest1; auto.
Qed.
End Alternator.

Section SelfHeal.
Context `{DateLib} {W : Type} (env : @environment W).

(** C2 (as the code has it). For an access-token record whose [TokenId]
    Cloudflare no longer has, the rotation creates a new token from the
    name, the policies and the validity of the record, and returns the
    record with the new token's id as [TokenId] and its value as
    [TokenValue]; every other attribute is as it was, so an
    [OtherTokenId] of the record is still in the result. *)
Theorem self_heal_replaces_token_id
    (record : json) (attributes : list (string * json))
    (token_id name policies valid_days new_token value id : json)
    (w w1 w2 : W) (made1 made2 : list call) :
  getitem record "Attributes" = inr (JDict attributes) ->
  dict_get attributes "TokenId" = Some token_id ->
  dict_get attributes "Name" = Some name ->
  dict_get attributes "Policies" = Some policies ->
  dict_get attributes "ValidDays" = Some valid_days ->
  run env (cf.token_exists token_id) w = (inr false, w1, made1) ->
  run env (cf.create_api_token name policies valid_days) w1
    = (inr new_token, w2, made2) ->
  getitem new_token "value" = inr value ->
  getitem new_token "id" = inr id ->
  exists new_record new_attributes,
    run env (rotate.rotate_or_create_api_token record) w
      = (inr new_record, w2, made1 ++ made2)
    /\ getitem new_record "Attributes" = inr (JDict new_attributes)
    /\ dict_get new_attributes "TokenId" = Some id
    /\ dict_get new_attributes "TokenValue" = Some value
    /\ dict_get new_attributes "OtherTokenId" = dict_get attributes "OtherTokenId"
    /\ forall k, k <> "TokenId" -> k <> "TokenValue" ->
                 dict_get new_attributes k = dict_get attributes k.
Proof.
  intros Hattrs Hid Hname Hpolicies Hdays Hexists Hcreate Hvalue Hnewid.
  destruct (run_create_api_token env record attributes name policies valid_days
              new_token value id w1 w2 made2
              Hattrs Hname Hpolicies Hdays Hcreate Hvalue Hnewid)
    as (new_record & Hrun & Hnew & _).
  exists new_record, (dict_set (dict_set attributes "TokenValue" value) "TokenId" id).
  split; [|split; [exact Hnew|split; [|split; [|split]]]].
  - unfold rotate.rotate_or_create_api_token, getitem2. rewrite Hattrs.
    cbn [rbind getitem contains]. unfold dict_has. rewrite Hid.
    cbn [lift bind negb]. rewrite run_bind, Hexists. cbn [negb].
    now rewrite Hrun.
  - apply dict_get_set_same.
  - rewrite dict_get_set_other by discriminate. apply dict_get_set_same.
  - now rewrite !dict_get_set_other by discriminate.
  - intros k Hk1 Hk2. rewrite !dict_get_set_other; auto.
Qed.
End SelfHeal.

Lemma self_heal_replaces_token_id_witness :
  let w := Scenario.world_of [] [("tok-b", Scenario.cf_token "tok-b")] in
  outcome Sim.env (@cf.token_exists (JStr "tok-a")) w = inr false
  /\ exists new_record,
       outcome Sim.env
         (@rotate.rotate_or_create_api_token RefDates.dates Scenario.paired) w
         = inr new_record
       /\ active_id new_record = inr (JStr "tok-001")
       /\ token_value new_record = inr (JStr "sv-001")
       /\ standby_id new_record = standby_id Scenario.paired.
Proof.
  intros w. split; [reflexivity|].
  edestruct (@self_heal_replaces_token_id RefDates.dates Sim.world Sim.env
               Scenario.paired)
    with (w := w) (token_id := JStr "tok-a") (id := JStr "tok-001")
         (value := JStr "sv-001")
    as (new_record & new_attributes & Hrun & Hattrs & Hid & Hvalue & Hother & _);
    try reflexivity.
  exists new_record. unfold outcome, active_id, token_value, standby_id, getitem2.
  rewrite Hrun, Hattrs. cbn [fst rbind getitem].
  rewrite Hid, Hvalue, Hother. repeat split.
Defined.

(** C2 as stated fails: the record tracks "tok-a" and "tok-b", Cloudflare
    no longer has "tok-a", and the record that the rotation returns still
    has "tok-b" as its [OtherTokenId]. *)
Lemma self_heal_keeps_other_token_id :
  let w := Scenario.world_of [] [("tok-b", Scenario.cf_token "tok-b")] in
  active_id Scenario.paired = inr (JStr "tok-a")
  /\ outcome Sim.env (@cf.token_exists (JStr "tok-a")) w = inr false
  /\ exists new_record,
       outcome Sim.env
         (@rotate.rotate_or_create_api_token RefDates.dates Scenario.paired) w
         = inr new_record
       /\ active_id new_record = inr (JStr "tok-001")
       /\ standby_id new_record = inr (JStr "tok-b").
Proof.
  intros w. split; [reflexivity|]. split; [reflexivity|].
  eexists. split; [vm_compute; reflexivity|]. split; reflexivity.
Qed.

Section Alternation.
Context `{DateLib} {W : Type} (env : @environment W).

Lemma getitem2_attributes (record : json) (k : string) (v : json) :
  getitem2 record "Attributes" k = inr v ->
  exists attributes,
    getitem record "Attributes" = inr (JDict attributes)
    /\ dict_get attributes k = Some v.
Proof.
  unfold getitem2.
  destruct (getitem record "Attributes") as [e|[| | | | |attributes]];
    simpl; try discriminate.
  destruct (dict_get attributes k) eqn:E; [|discriminate].
  intros [= <-]. eauto.
Qed.

(** The renewal branch of [rotate_between_api_tokens]. *)
Lemma run_rotate_between_renew (record : json)
    (attributes : list (string * json)) (active standby value : json)
    (w w1 w2 : W) (made1 made2 : list call) :
  getitem record "Attributes" = inr (JDict attributes) ->
  dict_get attributes "TokenId" = Some active ->
  dict_get attributes "OtherTokenId" = Some standby ->
  run env (cf.token_exists standby) w = (inr true, w1, made1) ->
  run env (cf.renew_api_token standby) w1 = (inr value, w2, made2) ->
  exists new_record,
    run env (rotate.rotate_between_api_tokens record) w
      = (inr new_record, w2, made1 ++ made2)
    /\ getitem new_record "Attributes" =
         inr (JDict (dict_set
                       (dict_set (dict_set attributes "OtherTokenId" active)
                          "TokenValue" value)
                       "TokenId" standby))
    /\ forall k, k <> "Attributes" -> getitem new_record k = getitem record k.
Proof.
  intros Hattrs Hactive Hstandby Hexists Hrenew.
  destruct (setitem2_attr record "Attributes" "OtherTokenId" active _ Hattrs)
    as (r1 & Hset1 & Hattrs1 & Hrest1).
  destruct (setitem2_attr r1 "Attributes" "TokenValue" value _ Hattrs1)
    as (r2 & Hset2 & Hattrs2 & Hrest2).
  destruct (setitem2_attr r2 "Attributes" "TokenId" standby _ Hattrs2)
    as (r3 & Hset3 & Hattrs3 & Hrest3).
  exists r3. split; [|split].
  - unfold rotate.rotate_between_api_tokens, getitem2. rewrite Hattrs.
    cbn [rbind getitem contains]. unfold dict_has.
    rewrite Hactive, Hstandby. cbn [lift bind].
    rewrite run_bind, Hexists. cbn [lift bind].
    rewrite run_bind, Hrenew.
    rewrite Hset1. cbn [lift bind]. rewrite Hset2. cbn [lift bind].
    rewrite Hset3. cbn [lift bind run]. now rewrite app_nil_r.
  - exact Hattrs3.
  - intros k Hk. rewrite Hrest3, Hrest2, Hrest1; auto.
Qed.

(** A rotation in the steady state exchanges the two ids. *)
Lemma steady_rotation_swaps (record new_record active standby : json) :
  steady_rotation env record new_record ->
  active_id record = inr active ->
  standby_id record = inr standby ->
  active_id new_record = inr standby /\ standby_id new_record = inr active.
Proof.
  intros (a & b & w & w1 & w2 & w3 & made1 & made2 & made
          & Ha & Hb & Hexists_a & Hexists_b & Hrun) Hactive Hstandby.
  rewrite Hactive in Ha. rewrite Hstandby in Hb.
  injection Ha as <-. injection Hb as <-.
  destruct (getitem2_attributes _ _ _ Hactive) as (attributes & Hattrs & Hid).
  destruct (getitem2_attributes _ _ _ Hstandby) as (attributes' & Hattrs' & Hother).
  rewrite Hattrs in Hattrs'. injection Hattrs' as <-.
  unfold rotate.rotate_or_create_api_token, getitem2 in Hrun.
  rewrite Hattrs in Hrun. cbn [rbind getitem contains] in Hrun.
  unfold dict_has in Hrun. rewrite Hid in Hrun. cbn [lift bind negb] in Hrun.
  rewrite run_bind, Hexists_a in Hrun. cbn [negb] in Hrun.
  destruct (run env (cf.renew_api_token standby) w2) as [[[e|value] w4] made4]
    eqn:Hrenew.
  - exfalso. revert Hrun.
    unfold rotate.rotate_between_api_tokens, getitem2. rewrite Hattrs.
    cbn [rbind getitem contains]. unfold dict_has.
    rewrite Hid, Hother. cbn [lift bind].
    rewrite run_bind, Hexists_b. cbn [lift bind].
    rewrite run_bind, Hrenew. discriminate.
  - destruct (run_rotate_between_renew record attributes active standby value
                w1 w2 w4 made2 made4 Hattrs Hid Hother Hexists_b Hrenew)
      as (r & Hr & Hnew & _).
    rewrite Hr in Hrun. injection Hrun as <- _ _.
    unfold active_id, standby_id, getitem2. rewrite Hnew. cbn [rbind getitem].
    rewrite dict_get_set_same.
    rewrite dict_get_set_other by discriminate.
    rewrite dict_get_set_other by discriminate.
    rewrite dict_get_set_same. auto.
Qed.

Lemma rotation_sequence_ids (active standby : json) (later : list json) :
  forall record,
    rotation_sequence env record later ->
    active_id record = inr active ->
    standby_id record = inr standby ->
    forall i r,
      nth_error (record :: later) i = Some r ->
      active_id r = inr (if Nat.even i then active else standby)
      /\ standby_id r = inr (if Nat.even i then standby else active).
Proof.
  revert active standby.
  induction later as [|new_record later IH];
    intros active standby record Hseq Hactive Hstandby i r Hnth.
  - destruct i as [|[|i]]; simpl in Hnth; try discriminate.
    injection Hnth as <-. auto.
  - inversion Hseq as [|? ? ? Hstep Hlater]; subst.
    destruct (steady_rotation_swaps _ _ _ _ Hstep Hactive Hstandby)
      as [Hactive' Hstandby'].
    destruct i as [|i]; simpl in Hnth.
    + injection Hnth as <-. auto.
    + destruct (IH standby active new_record Hlater Hactive' Hstandby' i r Hnth)
        as [Hi Hi'].
      rewrite Nat.even_succ, <- Nat.negb_even.
      destruct (Nat.even i); simpl; auto.
Qed.
End Alternation.

(** C1. For an access-token record that tracks [active] as its [TokenId]
    and [standby] as its [OtherTokenId]: when Cloudflare has the standby
    token and its renewal returns the rolled value, the rotation returns
    the record with [TokenId] = [standby], [OtherTokenId] = [active] and
    [TokenValue] = that value.  Hence along two or more successive
    successful rotations of the steady state, with the two ids distinct,
    the active id is [active] after an even number of rotations and
    [standby] after an odd number: both occur, it changes at every
    rotation, and no third id appears. *)
Theorem steady_state_alternation
    `{DateLib} {W : Type} (env : @environment W) (record : json)
    (attributes : list (string * json)) (active standby : json) :
  getitem record "Attributes" = inr (JDict attributes) ->
  dict_get attributes "TokenId" = Some active ->
  dict_get attributes "OtherTokenId" = Some standby ->
  (forall w w1 w2 made1 made2 value,
     run env (cf.token_exists standby) w = (inr true, w1, made1) ->
     run env (cf.renew_api_token standby) w1 = (inr value, w2, made2) ->
     exists new_record,
       run env (rotate.rotate_between_api_tokens record) w
         = (inr new_record, w2, made1 ++ made2)
       /\ active_id new_record = inr standby
       /\ standby_id new_record = inr active
       /\ token_value new_record = inr value)
  /\ (forall later,
        active <> standby ->
        (2 <= List.length later)%nat ->
        rotation_sequence env record later ->
        (forall i r,
           nth_error (record :: later) i = Some r ->
           active_id r = inr (if Nat.even i then active else standby))
        /\ (forall i r r',
              nth_error (record :: later) i = Some r ->
              nth_error (record :: later) (S i) = Some r' ->
              active_id r' <> active_id r)
        /\ (exists r1 r2,
              nth_error later 0 = Some r1 /\ nth_error later 1 = Some r2
              /\ active_id r1 = inr standby /\ active_id r2 = inr active)).
Proof.
  intros Hattrs Hactive Hstandby.
  assert (Hid : active_id record = inr active).
  { unfold active_id, getitem2. rewrite Hattrs. simpl. now rewrite Hactive. }
  assert (Hother : standby_id record = inr standby).
  { unfold standby_id, getitem2. rewrite Hattrs. simpl. now rewrite Hstandby. }
  split.
  - intros w w1 w2 made1 made2 value Hexists Hrenew.
    destruct (run_rotate_between_renew env record attributes active standby value
                w w1 w2 made1 made2 Hattrs Hactive Hstandby Hexists Hrenew)
      as (new_record & Hrun & Hnew & _).
    exists new_record. split; [exact Hrun|].
    unfold active_id, standby_id, token_value, getitem2. rewrite Hnew.
    cbn [rbind getitem].
    rewrite dict_get_set_same.
    rewrite !(dict_get_set_other _ "TokenId") by discriminate.
    rewrite dict_get_set_same.
    rewrite (dict_get_set_other _ "TokenValue") by discriminate.
    rewrite dict_get_set_same. auto.
  - intros later Hdistinct Hlength Hseq.
    pose proof (rotation_sequence_ids env active standby later record
                  Hseq Hid Hother) as Hids.
    split; [|split].
    + intros i r Hnth. now destruct (Hids i r Hnth).
    + intros i r r' Hnth Hnth'.
      destruct (Hids i r Hnth) as [-> _].
      destruct (Hids (S i) r' Hnth') as [-> _].
      rewrite Nat.even_succ, <- Nat.negb_even.
      destruct (Nat.even i); simpl; congruence.
    + destruct later as [|r1 [|r2 later]]; simpl in Hlength; try lia.
      exists r1, r2. split; [reflexivity|]. split; [reflexivity|].
      destruct (Hids 1%nat r1 eq_refl) as [H1 _].
      destruct (Hids 2%nat r2 eq_refl) as [H2 _]. auto.
Qed.

Lemma steady_state_alternation_witness :
  let w := Scenario.world_of []
             [("tok-a", Scenario.cf_token "tok-a");
              ("tok-b", Scenario.cf_token "tok-b")] in
  let r1 := Scenario.api_token
              [("TokenId", JStr "tok-b"); ("TokenValue", JStr "sv-001");
               ("OtherTokenId", JStr "tok-a")] in
  let r2 := Scenario.api_token
              [("TokenId", JStr "tok-a"); ("TokenValue", JStr "sv-002");
               ("OtherTokenId", JStr "tok-b")] in
  (exists new_record,
     outcome Sim.env
       (@rotate.rotate_between_api_tokens RefDates.dates Scenario.paired) w
       = inr new_record
     /\ active_id new_record = inr (JStr "tok-b")
     /\ standby_id new_record = inr (JStr "tok-a")
     /\ token_value new_record = inr (JStr "sv-001"))
  /\ rotation_sequence (H := RefDates.dates) Sim.env Scenario.paired [r1; r2]
  /\ active_id Scenario.paired = inr (JStr "tok-a")
  /\ active_id r1 = inr (JStr "tok-b")
  /\ active_id r2 = inr (JStr "tok-a")
  /\ active_id r1 <> active_id Scenario.paired
  /\ active_id r2 <> active_id r1.
Proof.
  intros w r1 r2.
  pose (w' := final Sim.env
                (@rotate.rotate_or_create_api_token RefDates.dates Scenario.paired) w).
  assert (Hseq : rotation_sequence (H := RefDates.dates) Sim.env
                   Scenario.paired [r1; r2]).
  { apply rotation_sequence_cons; [|apply rotation_sequence_cons;
                                     [|apply rotation_sequence_nil]].
    - exists (JStr "tok-a"), (JStr "tok-b"), w. do 6 eexists.
      repeat split; reflexivity.
    - exists (JStr "tok-b"), (JStr "tok-a"), w'. do 6 eexists.
      repeat split; reflexivity. }
  destruct (@steady_state_alternation RefDates.dates _ Sim.env Scenario.paired
              [("Name", JStr "ci"); ("Policies", JList [Scenario.policy]);
               ("ValidDays", JInt 30); ("TokenId", JStr "tok-a");
               ("TokenValue", JStr "sv-a"); ("OtherTokenId", JStr "tok-b")]
              (JStr "tok-a") (JStr "tok-b") eq_refl eq_refl eq_refl)
    as [Hstep Hchain].
  split.
  - edestruct (Hstep w) as (new_record & Hrun & Hnew);
      [reflexivity|reflexivity|].
    exists new_record. unfold outcome. rewrite Hrun. split; [reflexivity|exact Hnew].
  - split; [exact Hseq|].
    destruct (Hchain [r1; r2]) as (Hids & Hchange & _);
      [discriminate|simpl; lia|exact Hseq|].
    split; [exact (Hids 0%nat _ eq_refl)|].
    split; [exact (Hids 1%nat _ eq_refl)|].
    split; [exact (Hids 2%nat _ eq_refl)|].
    split.
    + exact (Hchange 0%nat _ _ eq_refl eq_refl).
    + exact (Hchange 1%nat _ _ eq_refl eq_refl).
Defined.

(** ** The scenarios of the specification, run *)

(** First rotation of a secret that only has its CFINIT version: one token
    is created, the payload has no [OtherTokenId]; [test_secret] accepts
    it and [finish_secret] moves AWSCURRENT to the version. *)
Example bootstrap_rotation :
  let w := Scenario.world_of
             [("v0", Scenario.labelled "CFINIT" (Scenario.api_token []));
              ("v1", Scenario.awaiting)] [] in
  let run_step step w :=
    run Sim.env (@rotate.lambda_handler RefDates.dates (Scenario.event step "v1")) w in
  let '(created, w1, made1) := run_step "createSecret" w in
  let '(tested, w2, _) := run_step "testSecret" w1 in
  let '(finished, w3, made3) := run_step "finishSecret" w2 in
  created = inr tt /\ tested = inr tt /\ finished = inr tt
  /\ filter issues_credential made1 =
       [tokens_post
          (JDict [("name", JStr "ci");
                  ("not_before", JStr "2020-01-01T00:00:00Z");
                  ("policies", JList [JDict [("effect", JStr "allow")]]);
                  ("expires_on", JStr "2020-01-31T00:00:00Z")])]
  /\ outcome Sim.env
       (@rotate.get_secret_dict (JStr Scenario.arn) "AWSCURRENT" None) w3
     = inr (Scenario.api_token
              [("TokenValue", JStr "sv-001"); ("TokenId", JStr "tok-001")])
  /\ filter is_store_write made3 =
       [update_secret_version_stage Scenario.arn "AWSCURRENT" "v1" None].
Proof. vm_compute. repeat split. Qed.

(** [create_secret] twice for the same version: the second call only
    reads, and leaves the store, Cloudflare and the payload as the first
    call left them. *)
Example create_secret_twice :
  let w := Scenario.world_of
             [("v0", Scenario.labelled "AWSCURRENT" Scenario.paired);
              ("v1", Scenario.awaiting)]
             [("tok-a", Scenario.cf_token "tok-a");
              ("tok-b", Scenario.cf_token "tok-b")] in
  let create := @rotate.create_secret RefDates.dates Scenario.arn "v1" in
  let w1 := final Sim.env create w in
  outcome Sim.env create w = inr tt
  /\ existsb is_store_write (calls Sim.env create w) = true
  /\ run Sim.env create w1 =
       (inr tt, w1,
        [get_secret_value (JStr Scenario.arn) None "AWSCURRENT";
         get_secret_value (JStr Scenario.arn) (Some "v1") "AWSPENDING"]).
Proof. vm_compute. repeat split. Qed.

(** * Further properties of the code *)

(** ** The checks of [lambda_handler] *)

Section HandlerChecks.
Context {W : Type} (env : @environment W).
Variable steps : string -> string -> string -> prog unit.

(** X1. A version that already carries AWSCURRENT makes the handler return
    at once: it reads the metadata and calls no step, whatever the step
    of the event and whatever the step handlers are. *)
Theorem handler_returns_for_current_version
    (event : rotation_event) (w w1 : W) (metadata : describe_secret_response)
    (versions : list (string * list string)) (stages : list string) :
  env (describe_secret (SecretId event)) w = (inr metadata, w1) ->
  RotationEnabled metadata = Some true ->
  VersionIdsToStages metadata = Some versions ->
  dict_get versions (ClientRequestToken event) = Some stages ->
  has_stage "AWSCURRENT" stages = true ->
  run env (rotate.lambda_handler_with steps event) w =
    (inr tt, w1, [describe_secret (SecretId event)]).
Proof.
  intros Hdescribe Henabled Hversions Hstages Hcurrent.
  unfold rotate.lambda_handler_with. simpl. rewrite Hdescribe. simpl.
  rewrite Henabled. simpl. rewrite Hversions. simpl.
  rewrite Hstages, Hcurrent. reflexivity.
Qed.

(** X2. A secret whose rotation is disabled, and a version that carries
    neither AWSCURRENT nor AWSPENDING, make the handler fail with a
    [ValueError] after the read of the metadata, before any step. *)
Theorem handler_rejects_unstaged_rotation
    (event : rotation_event) (w w1 : W) (metadata : describe_secret_response) :
  env (describe_secret (SecretId event)) w = (inr metadata, w1) ->
  (RotationEnabled metadata = Some false ->
   run env (rotate.lambda_handler_with steps event) w =
     (inl (ValueError "Secret %s is not enabled for rotation."
             [JStr (SecretId event)]),
      w1, [describe_secret (SecretId event)]))
  /\ (forall versions stages,
        RotationEnabled metadata = Some true ->
        VersionIdsToStages metadata = Some versions ->
        dict_get versions (ClientRequestToken event) = Some stages ->
        has_stage "AWSCURRENT" stages = false ->
        has_stage "AWSPENDING" stages = false ->
        run env (rotate.lambda_handler_with steps event) w =
          (inl (ValueError
                  "Secret version %s not set as AWSPENDING for rotation of secret %s."
                  [JStr (ClientRequestToken event); JStr (SecretId event)]),
           w1, [describe_secret (SecretId event)])).
Proof.
  intros Hdescribe. split.
  - intros Hdisabled. unfold rotate.lambda_handler_with. simpl.
    rewrite Hdescribe. simpl. rewrite Hdisabled. reflexivity.
  - intros versions stages Henabled Hversions Hstages Hcurrent Hpending.
    unfold rotate.lambda_handler_with. simpl. rewrite Hdescribe. simpl.
    rewrite Henabled. simpl. rewrite Hversions. simpl.
    rewrite Hstages, Hcurrent, Hpending. reflexivity.
Qed.

(** For a version that carries AWSPENDING and not AWSCURRENT, of a
    secret with rotation enabled, the handler is the read of the metadata
    followed by the step. *)
Lemma handler_runs_step_for_pending_version
    (event : rotation_event) (w w1 : W) (metadata : describe_secret_response)
    (versions : list (string * list string)) (stages : list string) :
  env (describe_secret (SecretId event)) w = (inr metadata, w1) ->
  RotationEnabled metadata = Some true ->
  VersionIdsToStages metadata = Some versions ->
  dict_get versions (ClientRequestToken event) = Some stages ->
  has_stage "AWSCURRENT" stages = false ->
  has_stage "AWSPENDING" stages = true ->
  run env (rotate.lambda_handler_with steps event) w =
    let '(res, w2, made) :=
      run env (steps (Step event) (SecretId event) (ClientRequestToken event)) w1 in
    (res, w2, describe_secret (SecretId event) :: made).
Proof.
  intros Hdescribe Henabled Hversions Hstages Hcurrent Hpending.
  unfold rotate.lambda_handler_with. simpl. rewrite Hdescribe. simpl.
  rewrite Henabled. simpl. rewrite Hversions. simpl.
  rewrite Hstages, Hcurrent, Hpending. reflexivity.
Qed.
End HandlerChecks.

(** X3. For a version that carries AWSPENDING and not AWSCURRENT, of a
    secret with rotation enabled, an event whose step is none of createSecret,
    setSecret, testSecret and finishSecret makes [lambda_handler] fail with
    a [ValueError] after the read of the metadata: nothing else is
    called. *)
Theorem handler_rejects_unknown_step
    `{DateLib} {W : Type} (env : @environment W)
    (event : rotation_event) (w w1 : W) (metadata : describe_secret_response)
    (versions : list (string * list string)) (stages : list string) :
  env (describe_secret (SecretId event)) w = (inr metadata, w1) ->
  RotationEnabled metadata = Some true ->
  VersionIdsToStages metadata = Some versions ->
  dict_get versions (ClientRequestToken event) = Some stages ->
  has_stage "AWSCURRENT" stages = false ->
  has_stage "AWSPENDING" stages = true ->
  Step event <> "createSecret" -> Step event <> "setSecret" ->
  Step event <> "testSecret" -> Step event <> "finishSecret" ->
  run env (rotate.lambda_handler event) w =
    (inl (ValueError "Invalid step parameter" []), w1,
     [describe_secret (SecretId event)]).
Proof.
  intros Hdescribe Henabled Hversions Hstages Hcurrent Hpending
    Hcreate Hset Htest Hfinish.
  unfold rotate.lambda_handler, rotate.lambda_handler_with. simpl.
  rewrite Hdescribe. simpl. rewrite Henabled. simpl. rewrite Hversions. simpl.
  rewrite Hstages, Hcurrent, Hpending. cbn [negb].
  unfold rotate.dispatch.
  destruct (String.eqb_spec (Step event) "createSecret"); [contradiction|].
  destruct (String.eqb_spec (Step event) "setSecret"); [contradiction|].
  destruct (String.eqb_spec (Step event) "testSecret"); [contradiction|].
  destruct (String.eqb_spec (Step event) "finishSecret"); [contradiction|].
  reflexivity.
Qed.

Lemma handler_returns_for_current_version_witness :
  let w := Scenario.world_of
             [("v1", {| Sim.stages := ["AWSCURRENT"; "AWSPENDING"];
                        Sim.value := Some (JsonText Scenario.paired) |})] [] in
  has_stage "AWSCURRENT" ["AWSCURRENT"; "AWSPENDING"] = true
  /\ run Sim.env
       (@rotate.lambda_handler RefDates.dates (Scenario.event "createSecret" "v1")) w
     = (inr tt, w, [describe_secret Scenario.arn]).
Proof.
  intros w. split; [reflexivity|].
  apply (handler_returns_for_current_version Sim.env
           (@rotate.dispatch RefDates.dates)
           (Scenario.event "createSecret" "v1") w w
           {| RotationEnabled := Some true;
              VersionIdsToStages := Some [("v1", ["AWSCURRENT"; "AWSPENDING"])] |}
           [("v1", ["AWSCURRENT"; "AWSPENDING"])] ["AWSCURRENT"; "AWSPENDING"]);
    reflexivity.
Defined.

Lemma handler_rejects_unstaged_rotation_witness :
  let disabled :=
    {| Sim.secrets := [(Scenario.arn,
                        {| Sim.rotation := Some false;
                           Sim.versions := [("v1", Scenario.awaiting)] |})];
       Sim.tokens := []; Sim.environ := []; Sim.clock := 0; Sim.serial := 1 |} in
  let unstaged := Scenario.world_of
                    [("v0", Scenario.labelled "AWSCURRENT" Scenario.paired);
                     ("v1", Scenario.labelled "AWSPREVIOUS" Scenario.paired)] [] in
  let event := Scenario.event "createSecret" "v1" in
  run Sim.env (@rotate.lambda_handler RefDates.dates event) disabled =
    (inl (ValueError "Secret %s is not enabled for rotation." [JStr Scenario.arn]),
     disabled, [describe_secret Scenario.arn])
  /\ run Sim.env (@rotate.lambda_handler RefDates.dates event) unstaged =
       (inl (ValueError
               "Secret version %s not set as AWSPENDING for rotation of secret %s."
               [JStr "v1"; JStr Scenario.arn]),
        unstaged, [describe_secret Scenario.arn]).
Proof.
  intros disabled unstaged event. split.
  - apply (handler_rejects_unstaged_rotation Sim.env
             (@rotate.dispatch RefDates.dates) event disabled disabled
             {| RotationEnabled := Some false;
                VersionIdsToStages := Some [("v1", ["AWSPENDING"])] |});
      reflexivity.
  - apply (handler_rejects_unstaged_rotation Sim.env
             (@rotate.dispatch RefDates.dates) event unstaged unstaged
             {| RotationEnabled := Some true;
                VersionIdsToStages :=
                  Some [("v0", ["AWSCURRENT"]); ("v1", ["AWSPREVIOUS"])] |}
             eq_refl)
      with (versions := [("v0", ["AWSCURRENT"]); ("v1", ["AWSPREVIOUS"])])
           (stages := ["AWSPREVIOUS"]); reflexivity.
Defined.

Lemma handler_rejects_unknown_step_witness :
  let w := Scenario.world_of
             [("v0", Scenario.labelled "AWSCURRENT" Scenario.paired);
              ("v1", Scenario.labelled "AWSPENDING" Scenario.paired)] [] in
  let event := Scenario.event "rollbackSecret" "v1" in
  Step event <> "finishSecret"
  /\ run Sim.env (@rotate.lambda_handler RefDates.dates event) w =
       (inl (ValueError "Invalid step parameter" []), w,
        [describe_secret Scenario.arn]).
Proof.
  intros w event. split; [discriminate|].
  apply (@handler_rejects_unknown_step RefDates.dates _ Sim.env event w w
           {| RotationEnabled := Some true;
              VersionIdsToStages :=
                Some [("v0", ["AWSCURRENT"]); ("v1", ["AWSPENDING"])] |}
           [("v0", ["AWSCURRENT"]); ("v1", ["AWSPENDING"])] ["AWSPENDING"]);
    try reflexivity; discriminate.
Defined.

(** ** finishSecret: the move of AWSCURRENT *)

Lemma find_current_version_holder (versions : list (string * list string))
    (token holder : string) (keys : list string) :
  (forall version stages,
     dict_get versions version = Some stages ->
     has_stage "AWSCURRENT" stages = true -> version = holder) ->
  (forall version, In version keys ->
     exists stages, dict_get versions version = Some stages) ->
  (exists stages, dict_get versions holder = Some stages
                  /\ has_stage "AWSCURRENT" stages = true) ->
  holder <> token ->
  In holder keys ->
  rotate.find_current_version versions keys token = inr (Some (Some holder)).
Proof.
  intros Hunique Hkeys (stages & Hget & Hcurrent) Hne.
  induction keys as [|version rest IH]; simpl; [tauto|].
  intros Hin.
  destruct (Hkeys version (or_introl eq_refl)) as [stages' Hget'].
  rewrite Hget'. simpl.
  destruct (has_stage "AWSCURRENT" stages') eqn:E.
  - rewrite (Hunique _ _ Hget' E).
    destruct (String.eqb_spec holder token); [contradiction|reflexivity].
  - apply IH.
    + intros v Hv. apply Hkeys. now right.
    + destruct Hin as [->|Hin]; [congruence|assumption].
Qed.

Lemma find_current_version_none (versions : list (string * list string))
    (token : string) (keys : list string) :
  (forall version stages,
     dict_get versions version = Some stages ->
     has_stage "AWSCURRENT" stages = false) ->
  (forall version, In version keys ->
     exists stages, dict_get versions version = Some stages) ->
  rotate.find_current_version versions keys token = inr (Some None).
Proof.
  intros Hnone Hkeys.
  induction keys as [|version rest IH]; simpl; [reflexivity|].
  destruct (Hkeys version (or_introl eq_refl)) as [stages Hget].
  rewrite Hget. simpl. rewrite (Hnone _ _ Hget).
  apply IH. intros v Hv. apply Hkeys. now right.
Qed.

(** X4. When AWSCURRENT is on another version than the target,
    [finish_secret] makes one stage move: AWSCURRENT goes to the target
    and is removed from the version that holds it; when no version holds
    AWSCURRENT, the move names no version to remove it from.  The outcome
    is the reply of the store to that move. *)
Theorem finish_secret_moves_current
    {W : Type} (env : @environment W) (arn token : string) (w w1 : W)
    (metadata : describe_secret_response)
    (versions : list (string * list string)) :
  env (describe_secret arn) w = (inr metadata, w1) ->
  VersionIdsToStages metadata = Some versions ->
  (forall holder stages,
     dict_get versions holder = Some stages ->
     has_stage "AWSCURRENT" stages = true ->
     holder <> token ->
     (forall version stages',
        dict_get versions version = Some stages' ->
        has_stage "AWSCURRENT" stages' = true -> version = holder) ->
     let move := update_secret_version_stage arn "AWSCURRENT" token (Some holder) in
     run env (rotate.finish_secret arn token) w =
       (fst (env move w1), snd (env move w1), [describe_secret arn; move]))
  /\ ((forall version stages,
         dict_get versions version = Some stages ->
         has_stage "AWSCURRENT" stages = false) ->
      let move := update_secret_version_stage arn "AWSCURRENT" token None in
      run env (rotate.finish_secret arn token) w =
        (fst (env move w1), snd (env move w1), [describe_secret arn; move])).
Proof.
  intros Hdescribe Hversions. split.
  - intros holder stages Hget Hcurrent Hne Hunique move.
    unfold rotate.finish_secret. cbn [perform bind run]. rewrite Hdescribe.
    cbn [lift bind run]. rewrite Hversions. cbn [field lift bind run].
    rewrite (find_current_version_holder versions token holder); eauto.
    + cbn [lift bind]. run_perform_step. reflexivity.
    + intros version Hin. now apply dict_get_key.
    + eapply dict_get_in_keys; eauto.
  - intros Hnone move.
    unfold rotate.finish_secret. cbn [perform bind run]. rewrite Hdescribe.
    cbn [lift bind run]. rewrite Hversions. cbn [field lift bind run].
    rewrite (find_current_version_none versions token); auto.
    + cbn [lift bind]. run_perform_step. reflexivity.
    + intros version Hin. now apply dict_get_key.
Qed.

Lemma finish_secret_moves_current_witness :
  let w := Scenario.world_of
             [("v0", Scenario.labelled "AWSCURRENT" Scenario.paired);
              ("v1", Scenario.labelled "AWSPENDING" Scenario.paired)] [] in
  let bare := Scenario.world_of
                [("v1", Scenario.labelled "AWSPENDING" Scenario.paired)] [] in
  calls Sim.env (rotate.finish_secret Scenario.arn "v1") w =
    [describe_secret Scenario.arn;
     update_secret_version_stage Scenario.arn "AWSCURRENT" "v1" (Some "v0")]
  /\ calls Sim.env (rotate.finish_secret Scenario.arn "v1") bare =
       [describe_secret Scenario.arn;
        update_secret_version_stage Scenario.arn "AWSCURRENT" "v1" None].
Proof.
  intros w bare. split.
  - destruct (finish_secret_moves_current Sim.env Scenario.arn "v1" w w
                {| RotationEnabled := Some true;
                   VersionIdsToStages :=
                     Some [("v0", ["AWSCURRENT"]); ("v1", ["AWSPENDING"])] |}
                [("v0", ["AWSCURRENT"]); ("v1", ["AWSPENDING"])]
                eq_refl eq_refl) as [Hmove _].
    unfold calls. rewrite (Hmove "v0" ["AWSCURRENT"]); try reflexivity.
    + discriminate.
    + intros version stages'. cbn [dict_get].
      destruct (String.eqb_spec "v0" version) as [<-|_]; [reflexivity|].
      destruct (String.eqb_spec "v1" version) as [<-|_]; [|discriminate].
      intros [= <-]. discriminate.
  - destruct (finish_secret_moves_current Sim.env Scenario.arn "v1" bare bare
                {| RotationEnabled := Some true;
                   VersionIdsToStages := Some [("v1", ["AWSPENDING"])] |}
                [("v1", ["AWSPENDING"])] eq_refl eq_refl) as [_ Hnone].
    unfold calls. rewrite Hnone; [reflexivity|].
    intros version stages. cbn [dict_get].
    destruct (String.eqb_spec "v1" version) as [<-|_]; [|discriminate].
    intros [= <-]. reflexivity.
Defined.

(** ** One store write per invocation, at the end *)

Lemma write_last_bind {A B} (p : prog A) (f : A -> prog B) :
  all_calls (fun c => is_store_write c = false) p ->
  (forall a, write_last (f a)) -> write_last (bind p f).
Proof.
  intros Hp Hf. induction Hp as [a|e|c k Hc Hk IH]; simpl; auto.
  - constructor.
  - apply write_last_quiet; auto.
Qed.

Lemma write_last_try_except {A} (p : prog A) handler :
  all_calls (fun c => is_store_write c = false) p ->
  (forall e q, handler e = Some q -> write_last q) ->
  write_last (try_except p handler).
Proof.
  intros Hp Hh. induction Hp as [a|e|c k Hc Hk IH]; simpl.
  - constructor.
  - destruct (handler e) as [q|] eqn:E; [eauto|constructor].
  - apply write_last_quiet; auto.
Qed.

Lemma write_last_perform (c : call) : write_last (perform c).
Proof.
  destruct (is_store_write c) eqn:E.
  - apply write_last_write. intros r. apply all_calls_lift.
  - apply write_last_quiet; [assumption|]. intros [e|a]; constructor.
Qed.

Lemma write_last_no_write {A} (p : prog A) :
  all_calls (fun c => is_store_write c = false) p -> write_last p.
Proof. induction 1; [constructor|constructor|apply write_last_quiet; auto]. Qed.

Lemma write_last_run {W : Type} (env : @environment W) {A} (p : prog A) :
  write_last p ->
  forall w, existsb is_store_write (removelast (calls env p w)) = false.
Proof.
  unfold calls. induction 1 as [a|e|c k Hc Hk IH|c k Hk]; intros w;
    try reflexivity.
  - simpl. destruct (env c w) as [r w1]. specialize (IH r w1).
    destruct (run env (k r) w1) as [[res w2] made]. cbn [snd] in *.
    destruct made as [|c' made]; [reflexivity|].
    cbn [removelast existsb] in *. now rewrite Hc.
  - simpl. destruct (env c w) as [r w1].
    pose proof (all_calls_run env _ _ (Hk r) w1) as Hnone. unfold calls in Hnone.
    destruct (run env (k r) w1) as [[res w2] made]. cbn [snd] in *.
    destruct made as [|c' made]; [reflexivity|]. now inversion Hnone.
Qed.

(** X5. In every run of the handler, for every event and every behaviour
    of the store and of Cloudflare, a write to the store
    ([put_secret_value] or [update_secret_version_stage]) is the last call
    of the run: there is at most one, and everything that can fail in the
    step has been done before it. *)
Theorem handler_writes_once_at_the_end
    `{DateLib} {W : Type} (env : @environment W) (event : rotation_event) (w : W) :
  existsb is_store_write
    (removelast (calls env (rotate.lambda_handler event) w)) = false.
Proof.
  apply write_last_run.
  assert (Hquiet : forall c, is_store_write c = false -> is_store_write c = false)
    by auto.
  unfold rotate.lambda_handler, rotate.lambda_handler_with.
  apply write_last_bind; [calls_steps; reflexivity|intros metadata].
  apply write_last_bind; [calls_steps|intros enabled].
  destruct (negb enabled); [constructor|].
  apply write_last_bind; [calls_steps|intros versions].
  destruct (dict_get versions (ClientRequestToken event)) as [stages|];
    [|constructor].
  destruct (has_stage "AWSCURRENT" stages); [constructor|].
  destruct (negb (has_stage "AWSPENDING" stages)); [constructor|].
  unfold rotate.dispatch.
  destruct (String.eqb (Step event) "createSecret").
  { unfold rotate.create_secret, rotate.put_pending.
    apply write_last_bind; [now apply calls_load_current_dict|intros record].
    apply write_last_try_except; [calls_steps; reflexivity|].
    intros e q Hq. destruct e; inversion Hq; subst; clear Hq.
    apply write_last_bind; [now apply calls_new_payload|intros payload].
    exact (write_last_perform (put_secret_value _ _ _ _)). }
  destruct (String.eqb (Step event) "setSecret"); [constructor|].
  destruct (String.eqb (Step event) "testSecret").
  { apply write_last_no_write. now apply calls_test_secret. }
  destruct (String.eqb (Step event) "finishSecret"); [|constructor].
  unfold rotate.finish_secret.
  apply write_last_bind; [calls_steps; reflexivity|intros metadata'].
  apply write_last_bind; [calls_steps|intros stages_of].
  apply write_last_bind; [calls_steps|intros found].
  destruct found as [current_version|]; [|constructor].
  exact (write_last_perform (update_secret_version_stage _ _ _ _)).
Qed.

(** ** createSecret: what is persisted, and which errors are handled *)

(** X6. When the store answers the read of the AWSPENDING payload with its
    not-found error, [create_secret] computes the new payload and then
    puts exactly that payload, for the version token, under the single
    label AWSPENDING; when the computation fails, its error escapes and
    nothing is put.  Any other error of that read escapes as it is, and
    nothing is computed. *)
Theorem put_pending_persists_new_payload
    `{DateLib} {W : Type} (env : @environment W) (arn token : string)
    (record : json) (w w1 : W) :
  let pending := get_secret_value (JStr arn) (Some token) "AWSPENDING" in
  (env pending w = (inl ResourceNotFoundException, w1) ->
   (forall payload w2 made,
      run env (rotate.new_payload record) w1 = (inr payload, w2, made) ->
      let put := put_secret_value arn token payload ["AWSPENDING"] in
      run env (rotate.put_pending arn token record) w =
        (fst (env put w2), snd (env put w2), pending :: made ++ [put]))
   /\ (forall e w2 made,
         run env (rotate.new_payload record) w1 = (inl e, w2, made) ->
         run env (rotate.put_pending arn token record) w =
           (inl e, w2, pending :: made)))
  /\ (forall e,
        env pending w = (inl e, w1) ->
        e <> ResourceNotFoundException ->
        run env (rotate.put_pending arn token record) w = (inl e, w1, [pending])).
Proof.
  intros pending. split; [intros Hmissing; split|].
  - intros payload w2 made Hpayload put.
    unfold rotate.put_pending. rewrite run_try_except.
    cbn [perform bind run]. fold pending. rewrite Hmissing. cbn [lift bind run].
    rewrite run_bind, Hpayload. run_perform_step. reflexivity.
  - intros e w2 made Hpayload.
    unfold rotate.put_pending. rewrite run_try_except.
    cbn [perform bind run]. fold pending. rewrite Hmissing. cbn [lift bind run].
    rewrite run_bind, Hpayload. reflexivity.
  - intros e Hread Hother.
    unfold rotate.put_pending. rewrite run_try_except.
    cbn [perform bind run]. fold pending. rewrite Hread. cbn [lift bind run].
    destruct e; try reflexivity. contradiction.
Qed.

(** X7. The CFINIT version is read only when the read of the AWSCURRENT
    record fails with the store's not-found error.  Any other error of
    that read, an AWSCURRENT version without [SecretString], and an
    AWSCURRENT payload that is not JSON make [create_secret] fail after
    that single read, with that error, a [KeyError] and a JSON decoding
    error. *)
Theorem create_secret_reads_init_only_when_not_found
    `{DateLib} {W : Type} (env : @environment W) (arn token : string) (w w1 : W) :
  let current := get_secret_value (JStr arn) None "AWSCURRENT" in
  (forall e,
     env current w = (inl e, w1) ->
     e <> ResourceNotFoundException ->
     run env (rotate.create_secret arn token) w = (inl e, w1, [current]))
  /\ (forall response,
        env current w = (inr response, w1) ->
        SecretString response = None ->
        run env (rotate.create_secret arn token) w =
          (inl (KeyError "SecretString"), w1, [current]))
  /\ (forall response text,
        env current w = (inr response, w1) ->
        SecretString response = Some (NotJson text) ->
        run env (rotate.create_secret arn token) w =
          (inl JSONDecodeError, w1, [current])).
Proof.
  intros current.
  unfold rotate.create_secret, rotate.load_current_dict, rotate.get_secret_dict.
  split; [|split].
  - intros e Hread Hother. rewrite run_bind, run_try_except.
    cbn [perform bind run]. fold current. rewrite Hread. cbn [lift bind run].
    destruct e; try reflexivity. contradiction.
  - intros response Hread Hnone. rewrite run_bind, run_try_except.
    cbn [perform bind run]. fold current. rewrite Hread. cbn [lift bind run].
    rewrite Hnone. reflexivity.
  - intros response text Hread Htext. rewrite run_bind, run_try_except.
    cbn [perform bind run]. fold current. rewrite Hread. cbn [lift bind run].
    rewrite Htext. reflexivity.
Qed.

Lemma put_pending_persists_new_payload_witness :
  let pending := get_secret_value (JStr Scenario.arn) (Some "v1") "AWSPENDING" in
  let w := Scenario.world_of
             [("v0", Scenario.labelled "AWSCURRENT" Scenario.paired);
              ("v1", Scenario.awaiting)]
             [("tok-a", Scenario.cf_token "tok-a");
              ("tok-b", Scenario.cf_token "tok-b")] in
  let stuck := Scenario.world_of
                 [("v0", Scenario.labelled "AWSCURRENT" Scenario.paired);
                  ("v1", Scenario.awaiting)] Scenario.unrenewable in
  let put_pending :=
    @rotate.put_pending RefDates.dates Scenario.arn "v1" Scenario.paired in
  let denied := inl (ExternalError "AccessDeniedException") in
  (outcome Sim.env put_pending w = inr tt
   /\ last (calls Sim.env put_pending w) utcnow =
        put_secret_value Scenario.arn "v1"
          (JsonText (Scenario.api_token
                       [("TokenId", JStr "tok-b"); ("TokenValue", JStr "sv-001");
                        ("OtherTokenId", JStr "tok-a")]))
          ["AWSPENDING"])
  /\ (outcome Sim.env put_pending stuck = inl (UnboundLocalError "expires_date")
      /\ existsb is_store_write (calls Sim.env put_pending stuck) = false)
  /\ run (Scenario.reading denied) put_pending w
     = (inl (ExternalError "AccessDeniedException"), w, [pending]).
Proof.
  intros pending w stuck put_pending denied.
  split; [|split].
  - destruct (@put_pending_persists_new_payload RefDates.dates _ Sim.env
                Scenario.arn "v1" Scenario.paired w w) as [Hmissing _].
    destruct (Hmissing eq_refl) as [Hput _].
    unfold outcome, calls, put_pending.
    erewrite Hput by reflexivity. split; reflexivity.
  - destruct (@put_pending_persists_new_payload RefDates.dates _ Sim.env
                Scenario.arn "v1" Scenario.paired stuck stuck) as [Hmissing _].
    destruct (Hmissing eq_refl) as [_ Hfail].
    unfold outcome, calls, put_pending.
    erewrite Hfail by reflexivity. split; reflexivity.
  - destruct (@put_pending_persists_new_payload RefDates.dates _
                (Scenario.reading denied) Scenario.arn "v1" Scenario.paired w w)
      as [_ Hother].
    apply Hother; [reflexivity|discriminate].
Defined.

Lemma create_secret_reads_init_only_when_not_found_witness :
  let current := get_secret_value (JStr Scenario.arn) None "AWSCURRENT" in
  let w := Scenario.world_of
             [("v0", Scenario.labelled "CFINIT" Scenario.paired);
              ("v1", Scenario.awaiting)] [] in
  let garbled := Scenario.world_of
                   [("v0", {| Sim.stages := ["AWSCURRENT"];
                              Sim.value := Some (NotJson "{") |});
                    ("v00", Scenario.labelled "CFINIT" Scenario.paired);
                    ("v1", Scenario.awaiting)] [] in
  let create := @rotate.create_secret RefDates.dates Scenario.arn "v1" in
  run (Scenario.reading (inl (ExternalError "AccessDeniedException"))) create w
    = (inl (ExternalError "AccessDeniedException"), w, [current])
  /\ run (Scenario.reading (inr {| SecretString := None |})) create w
     = (inl (KeyError "SecretString"), w, [current])
  /\ run Sim.env create garbled = (inl JSONDecodeError, garbled, [current]).
Proof.
  intros current w garbled create. split; [|split].
  - destruct (@create_secret_reads_init_only_when_not_found RefDates.dates _
                (Scenario.reading (inl (ExternalError "AccessDeniedException")))
                Scenario.arn "v1" w w) as (Herror & _ & _).
    apply Herror; [reflexivity|discriminate].
  - destruct (@create_secret_reads_init_only_when_not_found RefDates.dates _
                (Scenario.reading (inr {| SecretString := None |}))
                Scenario.arn "v1" w w) as (_ & Hnone & _).
    apply (Hnone {| SecretString := None |}); reflexivity.
  - destruct (@create_secret_reads_init_only_when_not_found RefDates.dates _
                Sim.env Scenario.arn "v1" garbled garbled) as (_ & _ & Htext).
    apply (Htext {| SecretString := Some (NotJson "{") |} "{"); reflexivity.
Defined.

(** ** The first token and the forming of the pair *)

Section Pairing.
Context `{DateLib} {W : Type} (env : @environment W).

(** X8. A record whose [OtherTokenId] is absent, or names a token that
    Cloudflare no longer has, gets its pair by cloning the active token:
    the clone's id becomes [TokenId], its value [TokenValue], and the id
    that was active becomes [OtherTokenId], so the id of a vanished
    standby is no longer in the record.  With an absent [OtherTokenId] no
    existence check is made. *)
Theorem rotate_between_establishes_pair
    (record : json) (attributes : list (string * json))
    (active new_token value id : json) :
  getitem record "Attributes" = inr (JDict attributes) ->
  dict_get attributes "TokenId" = Some active ->
  getitem new_token "value" = inr value ->
  getitem new_token "id" = inr id ->
  let paired :=
    dict_set (dict_set (dict_set attributes "OtherTokenId" active)
                "TokenValue" value) "TokenId" id in
  (dict_get attributes "OtherTokenId" = None ->
   forall w w1 made,
     run env (cf.clone_api_token active) w = (inr new_token, w1, made) ->
     exists new_record,
       run env (rotate.rotate_between_api_tokens record) w
         = (inr new_record, w1, made)
       /\ getitem new_record "Attributes" = inr (JDict paired)
       /\ active_id new_record = inr id
       /\ standby_id new_record = inr active)
  /\ (forall standby w w1 w2 made1 made2,
        dict_get attributes "OtherTokenId" = Some standby ->
        run env (cf.token_exists standby) w = (inr false, w1, made1) ->
        run env (cf.clone_api_token active) w1 = (inr new_token, w2, made2) ->
        exists new_record,
          run env (rotate.rotate_between_api_tokens record) w
            = (inr new_record, w2, made1 ++ made2)
          /\ getitem new_record "Attributes" = inr (JDict paired)
          /\ active_id new_record = inr id
          /\ standby_id new_record = inr active).
Proof.
  intros Hattrs Hactive Hvalue Hid paired.
  destruct (setitem2_attr record "Attributes" "OtherTokenId" active _ Hattrs)
    as (r1 & Hset1 & Hattrs1 & _).
  destruct (setitem2_attr r1 "Attributes" "TokenValue" value _ Hattrs1)
    as (r2 & Hset2 & Hattrs2 & _).
  destruct (setitem2_attr r2 "Attributes" "TokenId" id _ Hattrs2)
    as (r3 & Hset3 & Hattrs3 & _).
  assert (Hids : active_id r3 = inr id /\ standby_id r3 = inr active).
  { unfold active_id, standby_id, getitem2. rewrite Hattrs3. cbn [rbind getitem].
    rewrite dict_get_set_same.
    rewrite !(dict_get_set_other _ "TokenId") by discriminate.
    rewrite (dict_get_set_other _ "TokenValue") by discriminate.
    rewrite dict_get_set_same. auto. }
  split.
  - intros Habsent w w1 made Hclone. exists r3.
    split; [|split; [exact Hattrs3|exact Hids]].
    unfold rotate.rotate_between_api_tokens, getitem2. rewrite Hattrs.
    cbn [rbind getitem contains]. unfold dict_has.
    rewrite Hactive, Habsent. cbn [lift bind].
    rewrite run_bind, Hclone.
    rewrite Hset1. cbn [lift bind]. rewrite Hvalue. cbn [lift bind].
    rewrite Hset2. cbn [lift bind]. rewrite Hid. cbn [lift bind].
    rewrite Hset3. cbn [lift bind run]. now rewrite app_nil_r.
  - intros standby w w1 w2 made1 made2 Hstandby Hgone Hclone. exists r3.
    split; [|split; [exact Hattrs3|exact Hids]].
    unfold rotate.rotate_between_api_tokens, getitem2. rewrite Hattrs.
    cbn [rbind getitem contains]. unfold dict_has.
    rewrite Hactive, Hstandby. cbn [lift bind].
    rewrite run_bind, Hgone. cbn [lift bind].
    rewrite run_bind, Hclone.
    rewrite Hset1. cbn [lift bind]. rewrite Hvalue. cbn [lift bind].
    rewrite Hset2. cbn [lift bind]. rewrite Hid. cbn [lift bind].
    rewrite Hset3. cbn [lift bind run]. now rewrite app_nil_r.
Qed.

(** X9. A record without [TokenId] gets its first token without any
    existence check: the calls of the rotation are those of the creation
    of the token, the new id and value go into the attributes, and an
    [OtherTokenId] is not added.  A record that lacks one of the settings
    [Name], [Policies], [ValidDays] fails with a [KeyError] before any
    call: no token is created for it. *)
Theorem bootstrap_creates_first_token
    (record : json) (attributes : list (string * json)) :
  getitem record "Attributes" = inr (JDict attributes) ->
  dict_get attributes "TokenId" = None ->
  (forall name policies valid_days new_token value id w w1 made,
     dict_get attributes "Name" = Some name ->
     dict_get attributes "Policies" = Some policies ->
     dict_get attributes "ValidDays" = Some valid_days ->
     run env (cf.create_api_token name policies valid_days) w
       = (inr new_token, w1, made) ->
     getitem new_token "value" = inr value ->
     getitem new_token "id" = inr id ->
     exists new_record,
       run env (rotate.rotate_or_create_api_token record) w
         = (inr new_record, w1, made)
       /\ active_id new_record = inr id
       /\ token_value new_record = inr value
       /\ standby_id new_record = standby_id record)
  /\ (forall missing w,
        In missing ["Name"; "Policies"; "ValidDays"] ->
        dict_get attributes missing = None ->
        exists key,
          In key ["Name"; "Policies"; "ValidDays"]
          /\ run env (rotate.rotate_or_create_api_token record) w
             = (inl (KeyError key), w, [])).
Proof.
  intros Hattrs Hnone. split.
  - intros name policies valid_days new_token value id w w1 made
      Hname Hpolicies Hdays Hcreate Hvalue Hid.
    destruct (run_create_api_token env record attributes name policies valid_days
                new_token value id w w1 made
                Hattrs Hname Hpolicies Hdays Hcreate Hvalue Hid)
      as (new_record & Hrun & Hnew & _).
    exists new_record. split.
    + unfold rotate.rotate_or_create_api_token. rewrite Hattrs.
      cbn [rbind contains]. unfold dict_has. rewrite Hnone.
      cbn [lift bind negb]. exact Hrun.
    + unfold active_id, token_value, standby_id, getitem2.
      rewrite Hnew, Hattrs. cbn [rbind getitem].
      rewrite dict_get_set_same.
      rewrite (dict_get_set_other _ "TokenId" "TokenValue") by discriminate.
      rewrite dict_get_set_same.
      rewrite !dict_get_set_other by discriminate. auto.
  - intros missing w Hin Hmissing.
    assert (Hrun : run env (rotate.rotate_or_create_api_token record) w
                   = run env (rotate.create_api_token record) w).
    { unfold rotate.rotate_or_create_api_token. rewrite Hattrs.
      cbn [rbind contains]. unfold dict_has. rewrite Hnone. reflexivity. }
    rewrite Hrun. unfold rotate.create_api_token, getitem2. rewrite Hattrs.
    cbn [rbind getitem].
    destruct (dict_get attributes "Name") as [name|] eqn:Hname;
      [|exists "Name"; simpl; auto].
    destruct (dict_get attributes "Policies") as [policies|] eqn:Hpolicies;
      [|exists "Policies"; simpl; auto].
    destruct (dict_get attributes "ValidDays") as [days|] eqn:Hdays;
      [|exists "ValidDays"; simpl; auto].
    simpl in Hin. destruct Hin as [<-|[<-|[<-|[]]]]; congruence.
Qed.
End Pairing.

Lemma rotate_between_establishes_pair_witness :
  let w := Scenario.world_of [] [("tok-a", Scenario.cf_token "tok-a")] in
  let single := Scenario.api_token
                  [("TokenId", JStr "tok-a"); ("TokenValue", JStr "sv-a")] in
  (exists new_record,
     outcome Sim.env
       (@rotate.rotate_between_api_tokens RefDates.dates single) w = inr new_record
     /\ active_id new_record = inr (JStr "tok-001")
     /\ standby_id new_record = inr (JStr "tok-a"))
  /\ (exists new_record,
        outcome Sim.env
          (@rotate.rotate_between_api_tokens RefDates.dates Scenario.paired) w
          = inr new_record
        /\ active_id new_record = inr (JStr "tok-001")
        /\ standby_id new_record = inr (JStr "tok-a")).
Proof.
  intros w single.
  pose (new_token :=
          match outcome Sim.env
                  (@cf.clone_api_token RefDates.dates (JStr "tok-a")) w with
          | inr t => t
          | inl _ => JNull
          end).
  split.
  - destruct (@rotate_between_establishes_pair RefDates.dates Sim.world Sim.env
                single
                [("Name", JStr "ci"); ("Policies", JList [Scenario.policy]);
                 ("ValidDays", JInt 30); ("TokenId", JStr "tok-a");
                 ("TokenValue", JStr "sv-a")]
                (JStr "tok-a") new_token (JStr "sv-001") (JStr "tok-001")
                eq_refl eq_refl eq_refl eq_refl) as [Habsent _].
    edestruct (Habsent eq_refl w) as (new_record & Hrun & _ & Hactive & Hstandby);
      [reflexivity|].
    exists new_record. unfold outcome. rewrite Hrun. auto.
  - destruct (@rotate_between_establishes_pair RefDates.dates Sim.world Sim.env
                Scenario.paired
                [("Name", JStr "ci"); ("Policies", JList [Scenario.policy]);
                 ("ValidDays", JInt 30); ("TokenId", JStr "tok-a");
                 ("TokenValue", JStr "sv-a"); ("OtherTokenId", JStr "tok-b")]
                (JStr "tok-a") new_token (JStr "sv-001") (JStr "tok-001")
                eq_refl eq_refl eq_refl eq_refl) as [_ Hgone].
    edestruct (Hgone (JStr "tok-b") w)
      as (new_record & Hrun & _ & Hactive & Hstandby); try reflexivity.
    exists new_record. unfold outcome. rewrite Hrun. auto.
Defined.

Lemma bootstrap_creates_first_token_witness :
  let w := Scenario.world_of [] [] in
  let unnamed := JDict [("Type", JStr "apiToken");
                        ("Attributes",
                         JDict [("Policies", JList [Scenario.policy]);
                                ("ValidDays", JInt 30)])] in
  (exists new_record,
     run Sim.env
       (@rotate.rotate_or_create_api_token RefDates.dates (Scenario.api_token [])) w
     = (inr new_record,
        final Sim.env
          (@rotate.rotate_or_create_api_token RefDates.dates (Scenario.api_token []))
          w,
        [utcnow;
         tokens_post
           (JDict [("name", JStr "ci");
                   ("not_before", JStr "2020-01-01T00:00:00Z");
                   ("policies", JList [JDict [("effect", JStr "allow")]]);
                   ("expires_on", JStr "2020-01-31T00:00:00Z")])])
     /\ active_id new_record = inr (JStr "tok-001")
     /\ standby_id new_record = inl (KeyError "OtherTokenId"))
  /\ run Sim.env (@rotate.rotate_or_create_api_token RefDates.dates unnamed) w
     = (inl (KeyError "Name"), w, []).
Proof.
  intros w unnamed.
  pose (new_token :=
          match outcome Sim.env
                  (@cf.create_api_token RefDates.dates (JStr "ci")
                     (JList [Scenario.policy]) (JInt 30)) w with
          | inr t => t
          | inl _ => JNull
          end).
  split.
  - destruct (@bootstrap_creates_first_token RefDates.dates Sim.world Sim.env
                (Scenario.api_token [])
                [("Name", JStr "ci"); ("Policies", JList [Scenario.policy]);
                 ("ValidDays", JInt 30)] eq_refl eq_refl) as [Hcreate _].
    edestruct (Hcreate (JStr "ci") (JList [Scenario.policy]) (JInt 30) new_token
                 (JStr "sv-001") (JStr "tok-001") w)
      as (new_record & Hrun & Hactive & _ & Hstandby); try reflexivity.
    exists new_record. split; [|split; [exact Hactive|exact Hstandby]].
    unfold final. rewrite Hrun. reflexivity.
  - destruct (@bootstrap_creates_first_token RefDates.dates Sim.world Sim.env
                unnamed
                [("Policies", JList [Scenario.policy]); ("ValidDays", JInt 30)]
                eq_refl eq_refl) as [_ Hmissing].
    destruct (Hmissing "Name" w) as (key & _ & Hrun);
      [simpl; auto|reflexivity|].
    rewrite Hrun. vm_compute in Hrun. injection Hrun as ->. reflexivity.
Defined.

(** ** The policies of a created and of a cloned token *)

Lemma dict_del_absent {V : Type} (d : list (string * V)) (k : string) :
  dict_get d k = None -> dict_del d k = d.
Proof.
  induction d as [|[k' v'] d IH]; simpl; [reflexivity|].
  destruct (String.eqb k' k); [discriminate|]. intros Hd. now rewrite IH.
Qed.

Lemma dict_get_del_other {V : Type} (d : list (string * V)) (k k' : string) :
  k <> k' -> dict_get (dict_del d k) k' = dict_get d k'.
Proof.
  intros Hne. induction d as [|[k0 v0] d IH]; simpl; [reflexivity|].
  destruct (String.eqb_spec k0 k) as [->|Hk]; simpl.
  - destruct (String.eqb_spec k k'); [contradiction|reflexivity].
  - now rewrite IH.
Qed.

(** The loop of [create_api_token] over a list of policy dicts: every
    policy loses its [id], if it has one. *)
Lemma strip_ids_if_present (policies : list (list (string * json))) :
  for_each (fun policy =>
              has_id <~ contains "id" policy ;;
              if has_id then delitem policy "id" else inr policy)
    (JList (map JDict policies))
  = inr (JList (map (fun d => JDict (dict_del d "id")) policies)).
Proof.
  unfold for_each.
  assert (Hmap : mapM (fun policy =>
                         has_id <~ contains "id" policy ;;
                         if has_id then delitem policy "id" else inr policy)
                   (map JDict policies)
                 = inr (map (fun d => JDict (dict_del d "id")) policies)).
  { induction policies as [|d policies IH]; [reflexivity|].
    cbn [map mapM]. rewrite IH. cbn [contains rbind delitem].
    unfold dict_has. destruct (dict_get d "id") eqn:E; cbn [rbind].
    - reflexivity.
    - now rewrite dict_del_absent. }
  now rewrite Hmap.
Qed.

(** The loop of [clone_api_token] stops at the first policy without [id]. *)
Lemma strip_ids_missing (policies : list (list (string * json))) :
  existsb (fun d => negb (dict_has d "id")) policies = true ->
  for_each (fun policy => delitem policy "id") (JList (map JDict policies))
  = inl (KeyError "id").
Proof.
  intros Hmissing. unfold for_each.
  assert (Hmap : mapM (fun policy => delitem policy "id") (map JDict policies)
                 = inl (KeyError "id")).
  { induction policies as [|d policies IH]; [discriminate|].
    cbn [map mapM delitem]. cbn [existsb] in Hmissing.
    destruct (dict_has d "id"); [|reflexivity].
    cbn [rbind]. now rewrite IH. }
  now rewrite Hmap.
Qed.

(** X10. [create_api_token], for policies given as a list of dicts and a
    positive number of days that the clock can take: the token is
    requested with the name as given, [not_before] at now, every policy
    without its [id] (a policy without [id] is taken as it is, and every
    other key of a policy is kept), and [expires_on] at now plus that many
    days.  The outcome is Cloudflare's reply. *)
Theorem create_api_token_request
    `{DateLib} {W : Type} (env : @environment W) (name : json)
    (policies : list (list (string * json))) (days now : Z) (w w1 : W) :
  env utcnow w = (inr now, w1) ->
  0 < days <= 999999999 ->
  datetime_min <= now + days * day_us <= datetime_max ->
  let data :=
    JDict [("name", name);
           ("not_before", JStr (cf.date_fmt (naive now)));
           ("policies", JList (map (fun d => JDict (dict_del d "id")) policies));
           ("expires_on", JStr (cf.date_fmt (naive (now + days * day_us))))] in
  run env (cf.create_api_token name (JList (map JDict policies)) (JInt days)) w =
    (fst (env (tokens_post data) w1), snd (env (tokens_post data) w1),
     [utcnow; tokens_post data])
  /\ forall d k, In d policies -> k <> "id" ->
                 dict_get (dict_del d "id") k = dict_get d k.
Proof.
  intros Hnow Hdays Hrange data. split.
  - unfold cf.create_api_token. cbn [perform bind run]. rewrite Hnow.
    cbn [lift bind run]. rewrite strip_ids_if_present.
    cbn [lift bind run setitem gt_zero timedelta_days].
    replace (0 <? days) with true by (symmetry; apply Z.ltb_lt; lia).
    replace (Z.abs days <=? 999999999) with true
      by (symmetry; apply Z.leb_le; lia).
    cbn [rbind]. unfold datetime_add. cbn [naive wall utcoffset].
    replace ((datetime_min <=? now + days * day_us)
             && (now + days * day_us <=? datetime_max)) with true
      by (symmetry; apply andb_true_intro; split; apply Z.leb_le; lia).
    cbn [rbind setitem lift bind dict_set String.eqb Ascii.eqb Bool.eqb].
    run_perform_step. reflexivity.
  - intros d k _ Hk. apply dict_get_del_other. congruence.
Qed.

(** X11. [clone_api_token] deletes the [id] of every policy without
    looking whether it is there: when one of the policies of the source
    token has no [id], the clone fails with [KeyError] after the token
    and the clock are read, and nothing is posted. *)
Theorem clone_needs_policy_ids
    `{DateLib} {W : Type} (env : @environment W) (token_id existing_token : json)
    (name : json) (policies : list (list (string * json))) (now : Z)
    (w w1 w2 : W) :
  env (tokens_get token_id) w = (inr existing_token, w1) ->
  env utcnow w1 = (inr now, w2) ->
  getitem existing_token "name" = inr name ->
  getitem existing_token "policies" = inr (JList (map JDict policies)) ->
  existsb (fun d => negb (dict_has d "id")) policies = true ->
  run env (cf.clone_api_token token_id) w =
    (inl (KeyError "id"), w2, [tokens_get token_id; utcnow]).
Proof.
  intros Hget Hnow Hname Hpolicies Hmissing.
  destruct existing_token as [| | | | |d]; try discriminate.
  unfold cf.clone_api_token. cbn [perform bind run]. rewrite Hget.
  cbn [lift bind run]. rewrite Hnow. cbn [lift bind run].
  rewrite Hname, Hpolicies. cbn [lift bind run].
  unfold get_default.
  destruct (dict_get d "condition"); cbn [lift bind run];
    rewrite (strip_ids_missing _ Hmissing); reflexivity.
Qed.

Lemma create_api_token_request_witness :
  let w := Scenario.world_of [] [] in
  0 < 30 <= 999999999
  /\ calls Sim.env
       (@cf.create_api_token RefDates.dates (JStr "ci")
          (JList [JDict [("id", JStr "p1"); ("effect", JStr "allow")];
                  JDict [("effect", JStr "deny")]])
          (JInt 30)) w
     = [utcnow;
        tokens_post
          (JDict [("name", JStr "ci");
                  ("not_before", JStr "2020-01-01T00:00:00Z");
                  ("policies", JList [JDict [("effect", JStr "allow")];
                                      JDict [("effect", JStr "deny")]]);
                  ("expires_on", JStr "2020-01-31T00:00:00Z")])].
Proof.
  intros w. split; [lia|].
  destruct (@create_api_token_request RefDates.dates _ Sim.env (JStr "ci")
              [[("id", JStr "p1"); ("effect", JStr "allow")];
               [("effect", JStr "deny")]]
              30 Scenario.new_year w w eq_refl) as [Hrun _].
  - lia.
  - unfold datetime_min, datetime_max, day_us, Scenario.new_year. lia.
  - unfold calls. cbn [map] in Hrun. rewrite Hrun. reflexivity.
Defined.

Lemma clone_needs_policy_ids_witness :
  let token := JDict [("id", JStr "tok-a"); ("name", JStr "ci");
                      ("policies", JList [JDict [("effect", JStr "allow")]]);
                      ("issued_on", JStr "2019-06-01T00:00:00Z");
                      ("expires_on", JStr "2019-07-01T00:00:00Z")] in
  let w := Scenario.world_of [] [("tok-a", token)] in
  existsb (fun d => negb (dict_has d "id")) [[("effect", JStr "allow")]] = true
  /\ run Sim.env (@cf.clone_api_token RefDates.dates (JStr "tok-a")) w =
       (inl (KeyError "id"), w, [tokens_get (JStr "tok-a"); utcnow]).
Proof.
  intros token w. split; [reflexivity|].
  apply (@clone_needs_policy_ids RefDates.dates _ Sim.env (JStr "tok-a") token
           (JStr "ci") [[("effect", JStr "allow")]] Scenario.new_year w w w);
    reflexivity.
Defined.

(** ** The configuration check and testSecret *)

Lemma json_eq_str_false (v : json) (s : string) :
  v <> JStr s -> json_eq_str v s = false.
Proof.
  destruct v; simpl; try reflexivity.
  intros Hne. destruct (String.eqb_spec s0 s); [congruence|reflexivity].
Qed.

Section Configuration.
Context {W : Type} (env : @environment W).

(** X12. [assert_env] for an access token.  With [CF_API_KEY] and
    [CF_API_EMAIL] both set, nothing else is read and nothing is written.
    With [CF_API_KEY] unset or empty, [CF_API_TOKEN] must be set: its value
    is then written to [CF_API_KEY]; when it is unset or empty the check
    fails with [AssertionError] and the environment is not written. *)
Theorem assert_env_api_token (w w1 : W) (key : option string) :
  env (environ_get "CF_API_KEY") w = (inr key, w1) ->
  (forall k email w2,
     key = Some k -> k <> "" ->
     env (environ_get "CF_API_EMAIL") w1 = (inr (Some email), w2) ->
     email <> "" ->
     run env (rotate.assert_env (JStr "apiToken")) w =
       (inr tt, w2, [environ_get "CF_API_KEY"; environ_get "CF_API_EMAIL"]))
  /\ (forall token token' w2 w3,
        key = None \/ key = Some "" ->
        env (environ_get "CF_API_TOKEN") w1 = (inr (Some token), w2) ->
        token <> "" ->
        env (environ_get "CF_API_TOKEN") w2 = (inr (Some token'), w3) ->
        let set := environ_set "CF_API_KEY" token' in
        run env (rotate.assert_env (JStr "apiToken")) w =
          (fst (env set w3), snd (env set w3),
           [environ_get "CF_API_KEY"; environ_get "CF_API_TOKEN";
            environ_get "CF_API_TOKEN"; set]))
  /\ (forall token w2,
        key = None \/ key = Some "" ->
        env (environ_get "CF_API_TOKEN") w1 = (inr token, w2) ->
        token = None \/ token = Some "" ->
        run env (rotate.assert_env (JStr "apiToken")) w =
          (inl AssertionError, w2,
           [environ_get "CF_API_KEY"; environ_get "CF_API_TOKEN"])).
Proof.
  intros Hkey.
  unfold rotate.assert_env, rotate.assert_env_set, rotate.env_set.
  cbn [json_eq_str String.eqb Ascii.eqb Bool.eqb].
  split; [|split].
  - intros k email w2 -> Hk Hemail Hne.
    cbn [perform bind run]. rewrite Hkey. cbn [lift bind run].
    destruct k as [|c k]; [congruence|]. cbn [String.length Nat.ltb Nat.leb bind run].
    rewrite Hemail. cbn [lift bind run].
    destruct email as [|c' email]; [congruence|]. reflexivity.
  - intros token token' w2 w3 Hunset Htoken Hne Htoken'.
    cbn [perform bind run]. rewrite Hkey. cbn [lift bind run].
    replace (match key with
             | Some s => (0 <? String.length s)%nat
             | None => false
             end) with false by (destruct Hunset as [->| ->]; reflexivity).
    cbn [negb bind run]. rewrite Htoken. cbn [lift bind run].
    destruct token as [|c token]; [congruence|].
    cbn [String.length Nat.ltb Nat.leb bind run]. rewrite Htoken'.
    cbn [lift bind run field].
    run_perform_step. reflexivity.
  - intros token w2 Hunset Htoken Hempty.
    cbn [perform bind run]. rewrite Hkey. cbn [lift bind run].
    replace (match key with
             | Some s => (0 <? String.length s)%nat
             | None => false
             end) with false by (destruct Hunset as [->| ->]; reflexivity).
    cbn [negb bind run]. rewrite Htoken. cbn [lift bind run].
    destruct Hempty as [->| ->]; reflexivity.
Qed.

(** X13. A record whose [Type] is none of apiToken, tunnelServiceKey and
    argoTunnelToken is refused by the configuration check, with the
    [ValueError] for an invalid secret token type and before any call:
    [create_secret] computes no payload for it, and [test_secret] fails
    right after the read of the record. *)
Theorem unknown_type_is_refused
    `{DateLib} (arn token : string) (record kind : json) (w : W) :
  getitem record "Type" = inr kind ->
  kind <> JStr "apiToken" ->
  kind <> JStr "tunnelServiceKey" ->
  kind <> JStr "argoTunnelToken" ->
  let refused := ValueError "Invalid secret token type {secret_type}" [kind] in
  run env (rotate.new_payload record) w = (inl refused, w, [])
  /\ forall response w1,
       env (get_secret_value (JStr arn) None "AWSPENDING") w = (inr response, w1) ->
       SecretString response = Some (JsonText record) ->
       run env (rotate.test_secret arn token) w =
         (inl refused, w1, [get_secret_value (JStr arn) None "AWSPENDING"]).
Proof.
  intros Htype Hapi Hkey Hargo refused.
  pose proof (json_eq_str_false _ _ Hapi) as E1.
  pose proof (json_eq_str_false _ _ Hkey) as E2.
  pose proof (json_eq_str_false _ _ Hargo) as E3.
  split.
  - unfold rotate.new_payload, rotate.assert_env. rewrite Htype.
    cbn [lift bind]. rewrite E1, E2, E3. reflexivity.
  - intros response w1 Hread Htext.
    unfold rotate.test_secret. rewrite run_bind.
    rewrite (run_get_secret_dict_ok env _ _ _ _ _ _ Hread Htext).
    unfold rotate.assert_env. rewrite Htype. cbn [lift bind].
    rewrite E1, E2, E3. reflexivity.
Qed.

(** X14. For a service key and for a tunnel token, [test_secret] is the
    read of the record that carries AWSPENDING followed by the
    configuration check, which only reads the environment: it passes
    exactly when that check passes, and Cloudflare is not called. *)
Theorem test_secret_without_verification
    (arn token : string) (record : json) (kind : string)
    (response : get_secret_value_response) (w w1 : W) :
  let pending := get_secret_value (JStr arn) None "AWSPENDING" in
  env pending w = (inr response, w1) ->
  SecretString response = Some (JsonText record) ->
  getitem record "Type" = inr (JStr kind) ->
  kind = "tunnelServiceKey" \/ kind = "argoTunnelToken" ->
  run env (rotate.test_secret arn token) w =
    (let '(res, w2, made) := run env (rotate.assert_env (JStr kind)) w1 in
     (res, w2, pending :: made))
  /\ forallb is_environ_get (calls env (rotate.assert_env (JStr kind)) w1) = true.
Proof.
  intros pending Hread Htext Htype Hkind. split.
  - unfold rotate.test_secret. rewrite run_bind.
    rewrite (run_get_secret_dict_ok env _ _ _ _ _ _ Hread Htext).
    rewrite Htype. cbn [lift bind]. rewrite run_bind.
    destruct (run env (rotate.assert_env (JStr kind)) w1) as [[[e|[]] w2] made];
      [reflexivity|].
    destruct Hkind as [->| ->]; cbn; now rewrite app_nil_r.
  - apply forallb_Forall_true, all_calls_run.
    unfold rotate.assert_env, rotate.assert_env_set, rotate.env_set.
    destruct Hkind as [->| ->];
      cbn [json_eq_str String.eqb Ascii.eqb Bool.eqb];
      calls_steps; reflexivity.
Qed.

(** X15. For an access token, [test_secret] asks Cloudflare to verify the
    [TokenValue] of the record that carries AWSPENDING: it passes when the
    reply has a true [success] and the status "active", and it fails with
    the [ValueError] that names the [TokenId] when [success] is false or
    the status is another one. *)
Theorem test_secret_verifies_api_token
    (arn token : string) (record token_value token_id verification success : json)
    (response : get_secret_value_response) (w w1 w2 w3 : W) (made : list call) :
  let pending := get_secret_value (JStr arn) None "AWSPENDING" in
  let failed :=
    ValueError "testSecret: Testing api token {token_id} failed" [token_id] in
  env pending w = (inr response, w1) ->
  SecretString response = Some (JsonText record) ->
  getitem record "Type" = inr (JStr "apiToken") ->
  run env (rotate.assert_env (JStr "apiToken")) w1 = (inr tt, w2, made) ->
  getitem2 record "Attributes" "TokenValue" = inr token_value ->
  getitem2 record "Attributes" "TokenId" = inr token_id ->
  env (tokens_verify_get token_value) w2 = (inr verification, w3) ->
  getitem verification "success" = inr success ->
  (truthy success = false ->
   run env (rotate.test_secret arn token) w =
     (inl failed, w3, pending :: made ++ [tokens_verify_get token_value]))
  /\ (forall status,
        truthy success = true ->
        getitem2 verification "result" "status" = inr status ->
        run env (rotate.test_secret arn token) w =
          (if json_eq_str status "active" then inr tt else inl failed,
           w3, pending :: made ++ [tokens_verify_get token_value])).
Proof.
  intros pending failed Hread Htext Htype Henv Hvalue Hid Hverify Hsuccess.
  assert (Hrun : run env (rotate.test_secret arn token) w =
                 (if negb (if truthy success
                           then match getitem2 verification "result" "status" with
                                | inr status => json_eq_str status "active"
                                | inl _ => true
                                end
                           else false)
                  then inl failed
                  else match (if truthy success
                              then getitem2 verification "result" "status"
                              else inr JNull) with
                       | inr _ => inr tt
                       | inl e => inl e
                       end,
                  w3, pending :: made ++ [tokens_verify_get token_value])).
  { unfold rotate.test_secret. rewrite run_bind.
    rewrite (run_get_secret_dict_ok env _ _ _ _ _ _ Hread Htext).
    rewrite Htype. cbn [lift bind]. rewrite run_bind, Henv.
    cbn [json_eq_str String.eqb Ascii.eqb Bool.eqb].
    rewrite Hvalue. cbn [lift bind]. unfold cf.is_token_valid.
    cbn [perform bind run]. rewrite Hverify. cbn [lift bind run].
    rewrite Hsuccess. cbn [lift bind run].
    destruct (truthy success) eqn:Htruthy.
    - destruct (getitem2 verification "result" "status") as [e|status];
        cbn [lift bind run truthy negb]; [reflexivity|].
      destruct (json_eq_str status "active"); cbn [negb]; [reflexivity|].
      rewrite Hid. reflexivity.
    - cbn [lift bind run]. rewrite Htruthy. cbn [negb]. rewrite Hid. reflexivity. }
  split.
  - intros Hfalse. rewrite Hrun, Hfalse. reflexivity.
  - intros status Htrue Hstatus. rewrite Hrun, Htrue, Hstatus.
    now destruct (json_eq_str status "active").
Qed.
End Configuration.

Lemma assert_env_api_token_witness :
  let w := Scenario.world_of [] [] in
  let keyed := Sim.with_environ w [("CF_API_KEY", "key"); ("CF_API_EMAIL", "a@b.c")] in
  let bare := Sim.with_environ w [] in
  run Sim.env (rotate.assert_env (JStr "apiToken")) keyed =
    (inr tt, keyed, [environ_get "CF_API_KEY"; environ_get "CF_API_EMAIL"])
  /\ calls Sim.env (rotate.assert_env (JStr "apiToken")) w =
       [environ_get "CF_API_KEY"; environ_get "CF_API_TOKEN";
        environ_get "CF_API_TOKEN"; environ_set "CF_API_KEY" "api-token"]
  /\ run Sim.env (rotate.assert_env (JStr "apiToken")) bare =
       (inl AssertionError, bare,
        [environ_get "CF_API_KEY"; environ_get "CF_API_TOKEN"]).
Proof.
  intros w keyed bare. split; [|split].
  - destruct (assert_env_api_token Sim.env keyed keyed (Some "key") eq_refl)
      as (Hset & _ & _).
    apply (Hset "key" "a@b.c" keyed); try reflexivity; discriminate.
  - destruct (assert_env_api_token Sim.env w w None eq_refl) as (_ & Hcopy & _).
    unfold calls.
    rewrite (Hcopy "api-token" "api-token" w w); try reflexivity;
      [now left|discriminate].
  - destruct (assert_env_api_token Sim.env bare bare None eq_refl)
      as (_ & _ & Hfail).
    apply (Hfail None bare); auto.
Defined.

Lemma unknown_type_is_refused_witness :
  let record := JDict [("Type", JStr "originCaKey"); ("Attributes", JDict [])] in
  let w := Scenario.world_of
             [("v0", Scenario.labelled "AWSCURRENT" record);
              ("v1", Scenario.labelled "AWSPENDING" record)] [] in
  let refused :=
    ValueError "Invalid secret token type {secret_type}" [JStr "originCaKey"] in
  run Sim.env (@rotate.new_payload RefDates.dates record) w = (inl refused, w, [])
  /\ run Sim.env (rotate.test_secret Scenario.arn "v1") w =
       (inl refused, w,
        [get_secret_value (JStr Scenario.arn) None "AWSPENDING"]).
Proof.
  intros record w refused.
  destruct (@unknown_type_is_refused Sim.world Sim.env RefDates.dates
              Scenario.arn "v1" record (JStr "originCaKey") w eq_refl
              ltac:(discriminate) ltac:(discriminate) ltac:(discriminate))
    as [Hpayload Htest].
  split; [exact Hpayload|].
  apply (Htest {| SecretString := Some (JsonText record) |} w); reflexivity.
Defined.

Lemma test_secret_without_verification_witness :
  let w := Scenario.world_of
             [("v1", Scenario.labelled "AWSPENDING" Scenario.tunnel_token)] [] in
  run Sim.env (rotate.test_secret Scenario.arn "v1") w =
    (inr tt, w,
     [get_secret_value (JStr Scenario.arn) None "AWSPENDING";
      environ_get "CF_API_CERTKEY"]).
Proof.
  intros w.
  destruct (test_secret_without_verification Sim.env Scenario.arn "v1"
              Scenario.tunnel_token "argoTunnelToken"
              {| SecretString := Some (JsonText Scenario.tunnel_token) |} w w
              eq_refl eq_refl eq_refl (or_intror eq_refl))
    as [Hrun _].
  rewrite Hrun. reflexivity.
Defined.

Lemma test_secret_verifies_api_token_witness :
  let w := Scenario.world_of
             [("v1", Scenario.labelled "AWSPENDING" Scenario.paired)] [] in
  let refusing := Scenario.verifying (JDict [("success", JBool false)]) in
  let disabled :=
    Scenario.verifying
      (JDict [("success", JBool true);
              ("result", JDict [("status", JStr "disabled")])]) in
  let failed :=
    ValueError "testSecret: Testing api token {token_id} failed" [JStr "tok-a"] in
  outcome Sim.env (rotate.test_secret Scenario.arn "v1") w = inr tt
  /\ outcome refusing (rotate.test_secret Scenario.arn "v1") w = inl failed
  /\ outcome disabled (rotate.test_secret Scenario.arn "v1") w = inl failed.
Proof.
  intros w refusing disabled failed.
  pose (w2 := final Sim.env (rotate.assert_env (JStr "apiToken")) w).
  pose (made := calls Sim.env (rotate.assert_env (JStr "apiToken")) w).
  pose (response := {| SecretString := Some (JsonText Scenario.paired) |}).
  split; [|split].
  - destruct (test_secret_verifies_api_token Sim.env Scenario.arn "v1"
                Scenario.paired (JStr "sv-a") (JStr "tok-a")
                (JDict [("success", JBool true);
                        ("result", JDict [("status", JStr "active")])])
                (JBool true) response w w w2 w2 made
                eq_refl eq_refl eq_refl eq_refl eq_refl eq_refl eq_refl eq_refl)
      as [_ Hactive].
    unfold outcome. rewrite (Hactive (JStr "active") eq_refl eq_refl).
    reflexivity.
  - destruct (test_secret_verifies_api_token refusing Scenario.arn "v1"
                Scenario.paired (JStr "sv-a") (JStr "tok-a")
                (JDict [("success", JBool false)])
                (JBool false) response w w w2 w2 made
                eq_refl eq_refl eq_refl eq_refl eq_refl eq_refl eq_refl eq_refl)
      as [Hrefused _].
    unfold outcome. rewrite (Hrefused eq_refl). reflexivity.
  - destruct (test_secret_verifies_api_token disabled Scenario.arn "v1"
                Scenario.paired (JStr "sv-a") (JStr "tok-a")
                (JDict [("success", JBool true);
                        ("result", JDict [("status", JStr "disabled")])])
                (JBool true) response w w w2 w2 made
                eq_refl eq_refl eq_refl eq_refl eq_refl eq_refl eq_refl eq_refl)
      as [_ Hstatus].
    unfold outcome. rewrite (Hstatus (JStr "disabled") eq_refl eq_refl).
    reflexivity.
Defined.

(** ** The service key and the tunnel token *)

Section ServiceKeys.
Context `{DateLib} {W : Type} (env : @environment W).

(** X16. For a service-key record, the new payload is the record with the
    new key as its attribute [KeyValue]; every other attribute and every
    other key of the record is as it was.  The key is asked for before
    the attributes are looked at: for a record without [Attributes] a key
    has been created when the [KeyError] is raised. *)
Theorem new_payload_service_key
    (record : json) (response key : json) (w w1 w2 : W) (made : list call) :
  getitem record "Type" = inr (JStr "tunnelServiceKey") ->
  run env (rotate.assert_env (JStr "tunnelServiceKey")) w = (inr tt, w1, made) ->
  env service_keys_origintunnel_get w1 = (inr response, w2) ->
  getitem response "service_key" = inr key ->
  (forall attributes,
     getitem record "Attributes" = inr (JDict attributes) ->
     exists payload,
       run env (rotate.new_payload record) w =
         (inr (JsonText payload), w2, made ++ [service_keys_origintunnel_get])
       /\ getitem payload "Attributes" =
            inr (JDict (dict_set attributes "KeyValue" key))
       /\ (forall k, k <> "KeyValue" ->
             dict_get (dict_set attributes "KeyValue" key) k = dict_get attributes k)
       /\ forall k, k <> "Attributes" -> getitem payload k = getitem record k)
  /\ (getitem record "Attributes" = inl (KeyError "Attributes") ->
      run env (rotate.new_payload record) w =
        (inl (KeyError "Attributes"), w2,
         made ++ [service_keys_origintunnel_get])).
Proof.
  intros Htype Henv Hkey Hvalue.
  assert (Hrun : run env (rotate.new_payload record) w =
                 (match setitem2 record "Attributes" "KeyValue" key with
                  | inr payload => inr (JsonText payload)
                  | inl e => inl e
                  end, w2, made ++ [service_keys_origintunnel_get])).
  { unfold rotate.new_payload. rewrite Htype. cbn [lift bind].
    rewrite run_bind, Henv.
    cbn [json_eq_str String.eqb Ascii.eqb Bool.eqb].
    unfold cf.create_origintunnel_service_key.
    cbn [perform bind run]. rewrite Hkey. cbn [lift bind run].
    rewrite Hvalue. cbn [lift bind run].
    now destruct (setitem2 record "Attributes" "KeyValue" key). }
  split.
  - intros attributes Hattrs.
    destruct (setitem2_attr record "Attributes" "KeyValue" key _ Hattrs)
      as (payload & Hset & Hnew & Hrest).
    exists payload. split; [|split; [exact Hnew|split; [|exact Hrest]]].
    + rewrite Hrun, Hset. reflexivity.
    + intros k Hk. apply dict_get_set_other. congruence.
  - intros Hmissing. rewrite Hrun. unfold setitem2. rewrite Hmissing. reflexivity.
Qed.

(** X17. A tunnel-token record with [TunnelServiceKeyArn] gets its service
    key from the AWSCURRENT record of that other secret, attribute
    [KeyValue]: the token is requested with that key, and the environment
    is not asked for [CF_TUNNEL_SERVICE_KEY]. *)
Theorem new_payload_reads_referenced_service_key
    (record : json) (attributes : list (string * json))
    (hostname valid_days zone_id key_arn key_record key token_value : json)
    (response : get_secret_value_response) (w w1 w2 w3 : W) (made : list call) :
  getitem record "Type" = inr (JStr "argoTunnelToken") ->
  getitem record "Attributes" = inr (JDict attributes) ->
  dict_get attributes "Hostname" = Some hostname ->
  dict_get attributes "ValidityDays" = Some valid_days ->
  dict_get attributes "ZoneId" = Some zone_id ->
  dict_get attributes "TunnelServiceKeyArn" = Some key_arn ->
  run env (rotate.assert_env (JStr "argoTunnelToken")) w = (inr tt, w1, made) ->
  env (get_secret_value key_arn None "AWSCURRENT") w1 = (inr response, w2) ->
  SecretString response = Some (JsonText key_record) ->
  getitem2 key_record "Attributes" "KeyValue" = inr key ->
  env (issue_argo_tunnel_token zone_id key hostname valid_days) w2
    = (inr token_value, w3) ->
  exists payload,
    run env (rotate.new_payload record) w =
      (inr payload, w3,
       made ++ [get_secret_value key_arn None "AWSCURRENT";
                issue_argo_tunnel_token zone_id key hostname valid_days]).
Proof.
  intros Htype Hattrs Hhost Hdays Hzone Harn Henv Hread Htext Hkey Hissue.
  destruct record as [| | | | |d]; try discriminate.
  eexists.
  unfold rotate.new_payload. rewrite Htype. cbn [lift bind].
  rewrite run_bind, Henv.
  cbn [json_eq_str String.eqb Ascii.eqb Bool.eqb].
  unfold getitem2. rewrite Hattrs. cbn [rbind getitem contains].
  unfold dict_has. rewrite Hhost, Hdays, Hzone, Harn. cbn [lift bind].
  rewrite 2 run_bind.
  rewrite (run_get_secret_dict_ok env _ _ _ _ _ _ Hread Htext).
  fold (getitem2 key_record "Attributes" "KeyValue"). rewrite Hkey.
  rewrite run_lift.
  cbn [lift bind]. unfold cf.create_argo_tunnel_token.
  cbn [perform bind run]. rewrite Hissue. cbn [lift bind run setitem app].
  reflexivity.
Qed.
End ServiceKeys.

(** [token_exists] is one read of the token: it answers [True] when
    the read succeeds and [False] when it fails with Cloudflare's error
    1003; every other error of the read escapes. *)
Lemma token_exists_by_error_code
    {W : Type} (env : @environment W) (token_id : json) (w w1 : W)
    (answer : result json) :
  env (tokens_get token_id) w = (answer, w1) ->
  (forall token, answer = inr token ->
     run env (cf.token_exists token_id) w = (inr true, w1, [tokens_get token_id]))
  /\ (answer = inl (CloudFlareAPIError 1003) ->
      run env (cf.token_exists token_id) w = (inr false, w1, [tokens_get token_id]))
  /\ (forall e, answer = inl e -> e <> CloudFlareAPIError 1003 ->
        run env (cf.token_exists token_id) w = (inl e, w1, [tokens_get token_id])).
Proof.
  intros Hget. unfold cf.token_exists. rewrite run_try_except.
  cbn [perform bind run]. rewrite Hget.
  split; [|split].
  - intros token ->. reflexivity.
  - intros ->. reflexivity.
  - intros e -> Hother. cbn [lift bind run].
    destruct e; try reflexivity.
    destruct (Z.eqb_spec code 1003); [congruence|reflexivity].
Qed.

Lemma new_payload_service_key_witness :
  let w := Sim.with_environ (Scenario.world_of [] [])
             [("CF_API_KEY", "key"); ("CF_API_EMAIL", "a@b.c")] in
  let record := JDict [("Type", JStr "tunnelServiceKey");
                       ("Attributes", JDict [("KeyValue", JStr "old-key");
                                             ("Note", JStr "kept")])] in
  let bare := JDict [("Type", JStr "tunnelServiceKey")] in
  outcome Sim.env (@rotate.new_payload RefDates.dates record) w =
    inr (JsonText
           (JDict [("Type", JStr "tunnelServiceKey");
                   ("Attributes", JDict [("KeyValue", JStr "key-001");
                                         ("Note", JStr "kept")])]))
  /\ outcome Sim.env (@rotate.new_payload RefDates.dates bare) w =
       inl (KeyError "Attributes")
  /\ existsb issues_credential
       (calls Sim.env (@rotate.new_payload RefDates.dates bare) w) = true.
Proof.
  intros w record bare.
  pose (w1 := final Sim.env (rotate.assert_env (JStr "tunnelServiceKey")) w).
  pose (made := calls Sim.env (rotate.assert_env (JStr "tunnelServiceKey")) w).
  pose (w2 := snd (Sim.env service_keys_origintunnel_get w1)).
  split; [|split].
  - destruct (@new_payload_service_key RefDates.dates _ Sim.env record
                (JDict [("service_key", JStr "key-001")]) (JStr "key-001")
                w w1 w2 made eq_refl eq_refl eq_refl eq_refl) as [Hkey _].
    destruct (Hkey [("KeyValue", JStr "old-key"); ("Note", JStr "kept")] eq_refl)
      as (payload & Hrun & _).
    unfold outcome. rewrite Hrun. vm_compute in Hrun.
    injection Hrun as <-. reflexivity.
  - destruct (@new_payload_service_key RefDates.dates _ Sim.env bare
                (JDict [("service_key", JStr "key-001")]) (JStr "key-001")
                w w1 w2 made eq_refl eq_refl eq_refl eq_refl) as [_ Hmissing].
    unfold outcome. rewrite (Hmissing eq_refl). reflexivity.
  - destruct (@new_payload_service_key RefDates.dates _ Sim.env bare
                (JDict [("service_key", JStr "key-001")]) (JStr "key-001")
                w w1 w2 made eq_refl eq_refl eq_refl eq_refl) as [_ Hmissing].
    unfold calls. rewrite (Hmissing eq_refl). reflexivity.
Defined.

Lemma new_payload_reads_referenced_service_key_witness :
  let key_arn := "arn:cf/service-key" in
  let key_record := JDict [("Type", JStr "tunnelServiceKey");
                           ("Attributes", JDict [("KeyValue", JStr "key-7")])] in
  let record :=
    JDict [("Type", JStr "argoTunnelToken");
           ("Attributes",
            JDict [("Hostname", JStr "foo.example.com");
                   ("ValidityDays", JInt 30);
                   ("ZoneId", JStr "zone-1");
                   ("TunnelServiceKeyArn", JStr key_arn)])] in
  let w :=
    {| Sim.secrets :=
         [(key_arn,
           {| Sim.rotation := Some true;
              Sim.versions := [("k0", Scenario.labelled "AWSCURRENT" key_record)] |})];
       Sim.tokens := [];
       Sim.environ := [("CF_API_CERTKEY", "origin-ca-key")];
       Sim.clock := Scenario.new_year;
       Sim.serial := 1 |} in
  calls Sim.env (@rotate.new_payload RefDates.dates record) w =
    [environ_get "CF_API_CERTKEY";
     get_secret_value (JStr key_arn) None "AWSCURRENT";
     issue_argo_tunnel_token (JStr "zone-1") (JStr "key-7")
       (JStr "foo.example.com") (JInt 30)].
Proof.
  intros key_arn key_record record w.
  destruct (@new_payload_reads_referenced_service_key RefDates.dates _ Sim.env
              record
              [("Hostname", JStr "foo.example.com"); ("ValidityDays", JInt 30);
               ("ZoneId", JStr "zone-1"); ("TunnelServiceKeyArn", JStr key_arn)]
              (JStr "foo.example.com") (JInt 30) (JStr "zone-1") (JStr key_arn)
              key_record (JStr "key-7") (JStr "tunnel-token-001")
              {| SecretString := Some (JsonText key_record) |}
              w w w (Sim.with_tokens w [] 2) [environ_get "CF_API_CERTKEY"]
              eq_refl eq_refl eq_refl eq_refl eq_refl eq_refl eq_refl eq_refl
              eq_refl eq_refl eq_refl) as [payload Hrun].
  unfold calls. rewrite Hrun. reflexivity.
Defined.

(** X18. The rotation of an access token takes the active token for
    deleted only on Cloudflare's error 1003: when the read of the token
    fails with another error, the rotation fails with that error after
    that single read, and no token is created, cloned or renewed. *)
Theorem rotation_stops_on_cloudflare_error
    `{DateLib} {W : Type} (env : @environment W) (record : json)
    (attributes : list (string * json)) (token_id : json) (e : exn) (w w1 : W) :
  getitem record "Attributes" = inr (JDict attributes) ->
  dict_get attributes "TokenId" = Some token_id ->
  env (tokens_get token_id) w = (inl e, w1) ->
  e <> CloudFlareAPIError 1003 ->
  run env (rotate.rotate_or_create_api_token record) w =
    (inl e, w1, [tokens_get token_id]).
Proof.
  intros Hattrs Hid Hget Hother.
  destruct (token_exists_by_error_code env token_id w w1 (inl e) Hget)
    as (_ & _ & Hraise).
  unfold rotate.rotate_or_create_api_token, getitem2. rewrite Hattrs.
  cbn [rbind getitem contains]. unfold dict_has. rewrite Hid.
  cbn [lift bind negb]. rewrite run_bind, (Hraise e eq_refl Hother).
  reflexivity.
Qed.

Lemma rotation_stops_on_cloudflare_error_witness :
  let w := Scenario.world_of [] [("tok-a", Scenario.cf_token "tok-a")] in
  let forbidden := CloudFlareAPIError 9109 in
  forbidden <> CloudFlareAPIError 1003
  /\ run (Scenario.failing forbidden)
       (@rotate.rotate_or_create_api_token RefDates.dates Scenario.paired) w
     = (inl forbidden, w, [tokens_get (JStr "tok-a")]).
Proof.
  intros w forbidden. split; [discriminate|].
  apply (@rotation_stops_on_cloudflare_error RefDates.dates _
           (Scenario.failing forbidden) Scenario.paired
           [("Name", JStr "ci"); ("Policies", JList [Scenario.policy]);
            ("ValidDays", JInt 30); ("TokenId", JStr "tok-a");
            ("TokenValue", JStr "sv-a"); ("OtherTokenId", JStr "tok-b")]
           (JStr "tok-a") forbidden w w); try reflexivity; discriminate.
Defined.
